(** * Instagram coach RAG pipeline: metadata codec, prompt assembly, mode
      dispatch and voice-impact metrics

    A shallow embedding of the Python sources (vector_store.py,
    prompt_manager.py, rag_pipeline.py, agent_modes.py, agent.py, api.py,
    llm_client.py, voice_impact_agent_google_api.py, and the post format of
    data_transformer.py) and the properties the specification states about
    them.

    Conventions of the embedding.
    - A Python object is a [value]; a [dict] is an association list in
      insertion order whose keys are pairwise distinct, as a Python dict
      iterates it.  [dict_set] overwrites in place or appends, like
      [d[k] = v].
    - A call that may raise returns a [result]; the exception kinds are the
      ones the code can meet.
    - A [str] is the string of its UTF-8 bytes; white space, characters
      and slices are read off these bytes as the interpreter reads them
      off the code points.
    - A Python float is modelled by an exact rational: rounding in float
      arithmetic is not modelled.  [str] of a float and of a container is a
      parameter of the development ([repr_other]), as is [json.dumps]. *)

From Stdlib Require Import String Ascii List ZArith QArith Qabs Bool Lia Permutation.
From Stdlib Require Import Decimal DecimalString.
From Stdlib Require OrderedTypeEx.
Import ListNotations.
Open Scope string_scope.
Open Scope Z_scope.
Set Warnings "-register-all".

(* ================================================================== *)
(** ** Python values, exceptions and the builtins the sources use *)
(* ================================================================== *)

Module Py.

Inductive exn : Type :=
| ValueError (msg : string)
| TypeError
| ZeroDivisionError
| AttributeError
| FileNotFoundError
| RuntimeError (msg : string).

Inductive result (A : Type) : Type :=
| Ok (a : A)
| Raise (e : exn).
Arguments Ok {A} a.
Arguments Raise {A} e.

Definition bind {A B : Type} (r : result A) (k : A -> result B) : result B :=
  match r with
  | Ok a => k a
  | Raise e => Raise e
  end.

Inductive value : Type :=
| VNone
| VBool (b : bool)
| VInt (z : Z)
| VFloat (q : Q)
| VStr (s : string)
| VList (l : list value)
| VDict (d : list (string * value)).

Definition dict : Type := list (string * value).

(** [d.get(k)], [k in d] and [d[k] = v] on an insertion-ordered dict. *)
Fixpoint dict_get {A : Type} (k : string) (d : list (string * A)) : option A :=
  match d with
  | [] => None
  | (k', v) :: d' => if String.eqb k k' then Some v else dict_get k d'
  end.

Definition dict_get_default {A : Type} (k : string) (dflt : A)
    (d : list (string * A)) : A :=
  match dict_get k d with
  | Some v => v
  | None => dflt
  end.

Fixpoint dict_set {A : Type} (k : string) (v : A) (d : list (string * A))
    : list (string * A) :=
  match d with
  | [] => [(k, v)]
  | (k', v') :: d' =>
      if String.eqb k k' then (k, v) :: d' else (k', v') :: dict_set k v d'
  end.

Definition keys {A : Type} (d : list (string * A)) : list string := map fst d.

Fixpoint mem (k : string) (l : list string) : bool :=
  match l with
  | [] => false
  | k' :: l' => String.eqb k k' || mem k l'
  end.

(** The keys of a Python dict are pairwise distinct. *)
Fixpoint distinct (l : list string) : bool :=
  match l with
  | [] => true
  | k :: l' => negb (mem k l') && distinct l'
  end.

Definition dict_wf {A : Type} (d : list (string * A)) : bool := distinct (keys d).

(** Truth value of an object ([if x], [not x]). *)
Definition truthy (v : value) : bool :=
  match v with
  | VNone => false
  | VBool b => b
  | VInt z => negb (z =? 0)
  | VFloat q => negb (Qeq_bool q 0)
  | VStr s => negb (String.eqb s "")
  | VList l => match l with [] => false | _ => true end
  | VDict d => match d with [] => false | _ => true end
  end.

(** [isinstance(value, (str, int, float, bool))]. *)
Definition is_scalar (v : value) : bool :=
  match v with
  | VStr _ | VInt _ | VFloat _ | VBool _ => true
  | _ => false
  end.

(** The number a numeric object stands for ([bool] is a subclass of [int]). *)
Definition num_of (v : value) : option Q :=
  match v with
  | VBool b => Some (if b then 1%Q else 0%Q)
  | VInt z => Some (inject_Z z)
  | VFloat q => Some q
  | _ => None
  end.

(** Two lists agree item by item. *)
Definition all2 {A B : Type} (f : A -> B -> bool) : list A -> list B -> bool :=
  fix go (xs : list A) (ys : list B) {struct xs} : bool :=
    match xs, ys with
    | [], [] => true
    | x :: xs', y :: ys' => f x y && go xs' ys'
    | _, _ => false
    end.

(** Every item of [d1] is bound in [d2] to an agreeing value. *)
Definition bound_in {A B : Type} (f : A -> B -> bool) (d2 : list (string * B))
    (d1 : list (string * A)) : bool :=
  forallb (fun kv : string * A =>
             match kv with
             | (k, v) =>
                 match dict_get k d2 with
                 | Some w => f v w
                 | None => false
                 end
             end) d1.

(** Python's [==].  Numbers compare by value across [bool], [int] and
    [float]; lists item by item; dicts have equal length and every key of
    the left one is bound in the right one to an equal value, whatever the
    insertion order. *)
Fixpoint value_eqb (a b : value) {struct a} : bool :=
  match a with
  | VNone => match b with VNone => true | _ => false end
  | VBool x =>
      match num_of b with
      | Some q => Qeq_bool (if x then 1%Q else 0%Q) q
      | None => false
      end
  | VInt x =>
      match num_of b with
      | Some q => Qeq_bool (inject_Z x) q
      | None => false
      end
  | VFloat x =>
      match num_of b with
      | Some q => Qeq_bool x q
      | None => false
      end
  | VStr x => match b with VStr y => String.eqb x y | _ => false end
  | VList xs => match b with VList ys => all2 value_eqb xs ys | _ => false end
  | VDict d1 =>
      match b with
      | VDict d2 => (length d1 =? length d2)%nat && bound_in value_eqb d2 d1
      | _ => false
      end
  end.

(** *** Strings *)

(** [s.startswith(p)]. *)
Definition startswith (s p : string) : bool := String.prefix p s.

(** [s.replace(old, new)] for a non-empty [old]: the occurrences are found
    from the left and do not overlap; [skip] counts the characters of an
    occurrence still to be dropped. *)
Fixpoint replace_from (old new : string) (skip : nat) (s : string) : string :=
  match s with
  | EmptyString => EmptyString
  | String c s' =>
      match skip with
      | S n => replace_from old new n s'
      | O =>
          if String.prefix old s
          then new ++ replace_from old new (String.length old - 1) s'
          else String c (replace_from old new 0 s')
      end
  end.

Definition str_replace (s old new : string) : string := replace_from old new 0 s.

(** [sep.join(l)] on strings. *)
Fixpoint join (sep : string) (l : list string) : string :=
  match l with
  | [] => ""
  | [x] => x
  | x :: l' => x ++ sep ++ join sep l'
  end.

(** [sep.join(value)] on a list object: every item must be a [str]. *)
Fixpoint strs_of (l : list value) : result (list string) :=
  match l with
  | [] => Ok []
  | VStr s :: l' => bind (strs_of l') (fun r => Ok (s :: r))
  | _ :: _ => Raise TypeError
  end.

Definition py_join (sep : string) (l : list value) : result string :=
  bind (strs_of l) (fun r => Ok (join sep r)).

(** [s.split(c)] for a one-character separator: always at least one piece. *)
Fixpoint split_on (c : ascii) (s : string) : list string :=
  match s with
  | EmptyString => [""]
  | String a s' =>
      if Ascii.eqb a c then "" :: split_on c s'
      else match split_on c s' with
           | [] => [String a ""]
           | p :: ps => String a p :: ps
           end
  end.

Definition comma : ascii := ","%char.

(** Does [c] occur in [s]? *)
Fixpoint has_char (c : ascii) (s : string) : bool :=
  match s with
  | EmptyString => false
  | String a s' => Ascii.eqb a c || has_char c s'
  end.

(** Does [sub] occur in [s]? *)
Fixpoint contains (sub s : string) : bool :=
  String.prefix sub s ||
  match s with
  | EmptyString => false
  | String _ s' => contains sub s'
  end.

(** ASCII white space. *)
Definition is_space (c : ascii) : bool :=
  let n := nat_of_ascii c in
  ((9 <=? n) && (n <=? 13) || (n =? 32) || (28 <=? n) && (n <=? 31))%nat.

Definition byte (c : ascii) : nat := nat_of_ascii c.

(** The number of bytes of the white space character at the head of [s],
    0 when there is none: the characters of [str.isspace], ASCII or not,
    in their UTF-8 form (U+0085, U+00A0, U+1680, U+2000 to U+200A, U+2028,
    U+2029, U+202F, U+205F, U+3000). *)
Definition ws_len (s : string) : nat :=
  match s with
  | EmptyString => 0
  | String a s1 =>
      if is_space a then 1
      else
        match s1 with
        | EmptyString => 0
        | String b s2 =>
            if ((byte a =? 194) && ((byte b =? 133) || (byte b =? 160)))%nat then 2
            else
              match s2 with
              | EmptyString => 0
              | String c _ =>
                  if ((byte a =? 225) && (byte b =? 154) && (byte c =? 128))%nat then 3
                  else if ((byte a =? 226) && (byte b =? 128) &&
                           ((128 <=? byte c) && (byte c <=? 138) || (byte c =? 168)
                            || (byte c =? 169) || (byte c =? 175)))%nat then 3
                  else if ((byte a =? 226) && (byte b =? 129) && (byte c =? 159))%nat then 3
                  else if ((byte a =? 227) && (byte b =? 128) && (byte c =? 128))%nat then 3
                  else 0
              end
        end
  end%nat.

(** [s.lstrip()]: the white space characters at the head of [s] are
    dropped; [skip] counts the bytes of a white space character still to
    be dropped. *)
Fixpoint lstrip_from (skip : nat) (s : string) : string :=
  match s with
  | EmptyString => EmptyString
  | String c s' =>
      match skip with
      | S n => lstrip_from n s'
      | O =>
          match ws_len s with
          | S n => lstrip_from n s'
          | O => s
          end
      end
  end.

Definition lstrip (s : string) : string := lstrip_from 0 s.

(** Is [s] made of white space characters only? *)
Fixpoint all_ws (skip : nat) (s : string) : bool :=
  match s with
  | EmptyString => true
  | String c s' =>
      match skip with
      | S n => all_ws n s'
      | O =>
          match ws_len s with
          | S n => all_ws n s'
          | O => false
          end
      end
  end.

(** [s.rstrip()]: the text is cut where only white space characters
    follow. *)
Fixpoint rstrip (s : string) : string :=
  match s with
  | EmptyString => EmptyString
  | String c s' => if all_ws 0 s then EmptyString else String c (rstrip s')
  end.

(** [s.strip()]: white space characters, ASCII or not, removed at both
    ends. *)
Definition strip (s : string) : string := rstrip (lstrip s).

(** The pieces of [s] between its white space characters, the empty ones
    included; [skip] counts the bytes of a white space character still to
    be dropped. *)
Fixpoint pieces (skip : nat) (s : string) : list string :=
  match s with
  | EmptyString => [""]
  | String c s' =>
      match skip with
      | S n => pieces n s'
      | O =>
          match ws_len s with
          | S n => "" :: pieces n s'
          | O => match pieces 0 s' with
                 | [] => [String c ""]
                 | p :: ps => String c p :: ps
                 end
          end
      end
  end.

(** [s.split()]: the words of [s], none of them empty. *)
Definition split_ws (s : string) : list string :=
  filter (fun p => negb (String.eqb p "")) (pieces 0 s).

(** No white space character, ASCII or not, starts at any position of [w]. *)
Fixpoint no_space (w : string) : bool :=
  match w with
  | EmptyString => true
  | String _ w' => (ws_len w =? 0)%nat && no_space w'
  end.

(** [s.lower()] on ASCII letters; the other bytes are kept.  The sources
    only compare the result with words of lower-case ASCII letters other
    than [k] and hold no test on a dotted capital I, the only characters
    outside ASCII whose lower case has an ASCII letter (U+212A gives [k],
    U+0130 gives [i] followed by U+0307): these comparisons come out as
    on the interpreter. *)
Fixpoint lower (s : string) : string :=
  match s with
  | EmptyString => EmptyString
  | String c s' =>
      let n := nat_of_ascii c in
      String (if ((65 <=? n) && (n <=? 90))%nat then ascii_of_nat (n + 32) else c)
             (lower s')
  end.

(** [s * n]. *)
Fixpoint repeat_str (s : string) (n : nat) : string :=
  match n with
  | O => ""
  | S n' => s ++ repeat_str s n'
  end.

(** *** Numbers to text *)

(** [str(n)] of an [int]. *)
Definition str_of_Z (z : Z) : string := NilZero.string_of_int (Z.to_int z).

Definition str_of_nat (n : nat) : string := str_of_Z (Z.of_nat n).

(** Digits grouped by three from the right: the [','] option of the format
    mini-language.  [n] is the number of digits of [s] still to come. *)
Fixpoint group3 (s : string) : string :=
  match s with
  | EmptyString => EmptyString
  | String c s' =>
      let n := String.length s' in
      if ((0 <? n) && (Nat.modulo n 3 =? 0))%nat
      then String c (String comma (group3 s'))
      else String c (group3 s')
  end.

Definition fmt_thousands (z : Z) : string :=
  if z <? 0 then "-" ++ group3 (str_of_Z (- z)) else group3 (str_of_Z z).

(** Round to the nearest integer, ties to even, as the ['f'] presentation
    rounds. *)
Definition round_half_even (q : Q) : Z :=
  let n := Qnum q in
  let d := Z.pos (Qden q) in
  let fl := n / d in
  let r2 := 2 * (n mod d) in
  if r2 <? d then fl
  else if d <? r2 then fl + 1
  else if Z.even fl then fl else fl + 1.

Fixpoint zeros (n : nat) : string :=
  match n with
  | O => ""
  | S n' => String "0" (zeros n')
  end.

(** [format(q, '.<p>f')]: [p] digits after the point. *)
Definition fmt_fixed (p : nat) (q : Q) : string :=
  let scaled := round_half_even (Qabs q * inject_Z (10 ^ Z.of_nat p)) in
  let ip := scaled / 10 ^ Z.of_nat p in
  let fp := scaled mod 10 ^ Z.of_nat p in
  let digits := str_of_Z fp in
  let body :=
    match p with
    | O => str_of_Z ip
    | _ => str_of_Z ip ++ "." ++ zeros (p - String.length digits) ++ digits
    end in
  if Qlt_le_dec q 0 then "-" ++ body else body.

(** *** Formatting and arithmetic on objects *)

Section Text.

(** [str] of a float and of a container, and the [','] format of a float:
    builtins of the interpreter, kept abstract. *)
Variable repr_other : value -> string.
Variable float_comma : Q -> string.

(** [str(v)], which is also [f"{v}"]. *)
Definition py_str (v : value) : string :=
  match v with
  | VStr s => s
  | VInt z => str_of_Z z
  | VBool true => "True"
  | VBool false => "False"
  | VNone => "None"
  | _ => repr_other v
  end.

(** [f"{v:,}"]: defined on numbers only. *)
Definition fmt_comma (v : value) : result string :=
  match v with
  | VInt z => Ok (fmt_thousands z)
  | VBool b => Ok (if b then "1" else "0")
  | VFloat q => Ok (float_comma q)
  | VStr _ => Raise (ValueError "Cannot specify ',' with 's'.")
  | _ => Raise TypeError
  end.

(** [f"{v:.<p>f}"]: defined on numbers only. *)
Definition fmt_f (p : nat) (v : value) : result string :=
  match v with
  | VStr _ => Raise (ValueError "Unknown format code 'f' for object of type 'str'")
  | _ =>
      match num_of v with
      | Some q => Ok (fmt_fixed p q)
      | None => Raise TypeError
      end
  end.

End Text.

(** Is the number an [int] (or a [bool])? *)
Definition int_of (v : value) : option Z :=
  match v with
  | VBool b => Some (if b then 1 else 0)
  | VInt z => Some z
  | _ => None
  end.

(** [a op b] on numbers: an [int] when both are, a [float] otherwise.  A
    [float] is kept as the exact rational: the rounding of a result to a
    double is left out, and so is the [OverflowError] of an [int] too
    large for a [float]. *)
Definition arith (fz : Z -> Z -> Z) (fq : Q -> Q -> Q) (a b : value)
    : result value :=
  match int_of a, int_of b with
  | Some x, Some y => Ok (VInt (fz x y))
  | _, _ =>
      match num_of a, num_of b with
      | Some x, Some y => Ok (VFloat (fq x y))
      | _, _ => Raise TypeError
      end
  end.

Definition py_add : value -> value -> result value := arith Z.add Qplus.
Definition py_sub : value -> value -> result value := arith Z.sub Qminus.
Definition py_mul : value -> value -> result value := arith Z.mul Qmult.

(** [a / b]: true division, a [float]; a zero divisor raises.  The
    quotient is kept exact, not rounded to a double: what is proved of it
    below is whether the division raises, the sign and the bounds of the
    quotient, and its value rounded to an integer where the operands are
    small enough for the rounding to a double not to change it. *)
Definition py_truediv (a b : value) : result value :=
  match num_of a, num_of b with
  | Some x, Some y =>
      if Qeq_bool y 0 then Raise ZeroDivisionError else Ok (VFloat (x / y))
  | _, _ => Raise TypeError
  end.

(** [a < b] on two numbers or on two strings. *)
Definition py_lt (a b : value) : result bool :=
  match a, b with
  | VStr x, VStr y => Ok (String.ltb x y)
  | _, _ =>
      match num_of a, num_of b with
      | Some x, Some y => Ok (negb (Qle_bool y x))
      | _, _ => Raise TypeError
      end
  end.

(** [a > b]. *)
Definition py_gt (a b : value) : result bool := py_lt b a.

(** [sum(xs)]: starts from the [int] 0. *)
Fixpoint py_sum_from (acc : value) (xs : list value) : result value :=
  match xs with
  | [] => Ok acc
  | x :: xs' => bind (py_add acc x) (fun acc' => py_sum_from acc' xs')
  end.

Definition py_sum (xs : list value) : result value := py_sum_from (VInt 0) xs.

(** [v.get(k, dflt)]: [v] must be a dict. *)
Definition py_get (v : value) (k : string) (dflt : value) : result value :=
  match v with
  | VDict d => Ok (dict_get_default k dflt d)
  | _ => Raise AttributeError
  end.

(** [k in v] for a [str] [k]: a key of a dict, an item of a list, a part
    of a [str]; [None] and numbers are not containers. *)
Definition py_in (k : string) (v : value) : result bool :=
  match v with
  | VDict d => Ok (mem k (keys d))
  | VList l => Ok (existsb (value_eqb (VStr k)) l)
  | VStr s => Ok (contains k s)
  | _ => Raise TypeError
  end.

(** [len(v) > 0]; [None] and numbers have no length. *)
Definition py_nonempty (v : value) : result bool :=
  match v with
  | VDict d => Ok (match d with [] => false | _ => true end)
  | VList l => Ok (match l with [] => false | _ => true end)
  | VStr s => Ok (negb (String.eqb s ""))
  | _ => Raise TypeError
  end.

(** The bytes that continue a character in UTF-8. *)
Fixpoint continuation (s : string) : string :=
  match s with
  | EmptyString => EmptyString
  | String c s' =>
      if ((128 <=? byte c) && (byte c <? 192))%nat then String c (continuation s')
      else EmptyString
  end.

(** [v[0]] where [len(v) > 0]: the first item of a list, the first
    character of a [str]; [None] when it raises (a dict has no key 0). *)
Definition py_first (v : value) : option value :=
  match v with
  | VList (x :: _) => Some x
  | VStr (String c s) => Some (VStr (String c (continuation s)))
  | _ => None
  end.

(** Run a fallible function over a list, left to right. *)
Fixpoint map_result {A B : Type} (f : A -> result B) (l : list A)
    : result (list B) :=
  match l with
  | [] => Ok []
  | x :: l' => bind (f x) (fun y => bind (map_result f l') (fun ys => Ok (y :: ys)))
  end.

End Py.

(* ================================================================== *)
(** ** vector_store.py: the metadata codec and the result formatting *)
(* ================================================================== *)

Module VectorStore.
Import Py.

Section Codec.

(** [json.dumps], the fallback of [_flatten_metadata] for a value that is
    neither a scalar nor one of the two known nested shapes. *)
Variable json_dumps : value -> string.

(** The inner loop of [_flatten_metadata]:
    [for metric_key, metric_value in value.items():
         flat[f"metrics_{metric_key}"] = metric_value]. *)
Fixpoint flatten_metrics (metrics flat : dict) : dict :=
  match metrics with
  | [] => flat
  | (metric_key, metric_value) :: rest =>
      flatten_metrics rest (dict_set ("metrics_" ++ metric_key) metric_value flat)
  end.

(** One turn of the loop of [_flatten_metadata]. *)
Definition flatten_item (flat : dict) (key : string) (v : value) : result dict :=
  match v with
  | VDict metrics =>
      if String.eqb key "metrics" then Ok (flatten_metrics metrics flat)
      else Ok (dict_set key (VStr (json_dumps v)) flat)
  | VList tags =>
      if String.eqb key "hashtags"
      then bind (py_join "," tags) (fun s => Ok (dict_set "hashtags" (VStr s) flat))
      else Ok (dict_set key (VStr (json_dumps v)) flat)
  | VStr _ | VInt _ | VFloat _ | VBool _ => Ok (dict_set key v flat)
  | VNone => Ok (dict_set key (VStr (json_dumps v)) flat)
  end.

Fixpoint flatten_loop (items : dict) (flat : dict) : result dict :=
  match items with
  | [] => Ok flat
  | (key, v) :: rest => bind (flatten_item flat key v) (flatten_loop rest)
  end.

(** [VectorStore._flatten_metadata]. *)
Definition _flatten_metadata (metadata : dict) : result dict :=
  flatten_loop metadata [].

(** [value.split(",") if value else []]. *)
Definition restore_hashtags (s : string) : value :=
  VList (if String.eqb s "" then [] else map VStr (split_on comma s)).

(** One turn of the loop of [_unflatten_metadata] on the pair
    [(metadata, metrics)]. *)
Definition unflatten_item (acc : dict * dict) (key : string) (v : value)
    : dict * dict :=
  let (metadata, metrics) := acc in
  if startswith key "metrics_"
  then (metadata, dict_set (str_replace key "metrics_" "") v metrics)
  else
    match v with
    | VStr s =>
        if String.eqb key "hashtags"
        then (dict_set "hashtags" (restore_hashtags s) metadata, metrics)
        else (dict_set key v metadata, metrics)
    | _ => (dict_set key v metadata, metrics)
    end.

Fixpoint unflatten_loop (items : dict) (acc : dict * dict) : dict * dict :=
  match items with
  | [] => acc
  | (key, v) :: rest => unflatten_loop rest (unflatten_item acc key v)
  end.

(** [VectorStore._unflatten_metadata]. *)
Definition _unflatten_metadata (flat_metadata : dict) : dict :=
  let (metadata, metrics) := unflatten_loop flat_metadata ([], []) in
  match metrics with
  | [] => metadata
  | _ => dict_set "metrics" (VDict metrics) metadata
  end.

(** The codec applied both ways, as a record goes through the index. *)
Definition roundtrip (m : dict) : result dict :=
  bind (_flatten_metadata m) (fun flat => Ok (_unflatten_metadata flat)).

End Codec.

(** One hit of [collection.query]: the i-th items of the parallel lists
    [ids[0]], [distances[0]], [documents[0]] and [metadatas[0]]. *)
Record hit : Type := mkHit {
  hit_id : string;
  hit_distance : Q;
  hit_document : string;
  hit_metadata : dict
}.

(** The dict [VectorStore.query] builds for one hit. *)
Definition format_hit (h : hit) : dict :=
  [ ("id", VStr (hit_id h));
    ("distance", VFloat (hit_distance h));
    ("text", VStr (hit_document h));
    ("metadata", VDict (_unflatten_metadata (hit_metadata h))) ].

(** [VectorStore.query] on the hits the collection returns. *)
Definition query (hits : list hit) : list dict := map format_hit hits.

(** An entry kept by the collection. *)
Record entry : Type := mkEntry {
  entry_id : string;
  entry_document : string;
  entry_metadata : dict
}.

(** [VectorStore.get_all]: the metadatas of all entries, unflattened; the
    three lists are empty when the collection holds nothing. *)
Definition get_all_metadatas (collection : list entry) : list dict :=
  match collection with
  | [] => []
  | _ => map (fun e => _unflatten_metadata (entry_metadata e)) collection
  end.

(** [VectorStore.add_posts]: the metadatas handed to [collection.add],
    [[self._flatten_metadata(m) for m in metadatas]]. *)
Definition add_posts_metadatas (json_dumps : value -> string)
    (metadatas : list dict) : result (list dict) :=
  map_result (_flatten_metadata json_dumps) metadatas.

End VectorStore.

(* ================================================================== *)
(** ** utils/prompt_manager.py: the system prompt and its context block *)
(* ================================================================== *)

Module PromptManager.
Import Py.

Definition nl : string := String "010"%char EmptyString.

Inductive PromptType : Type :=
| CONTENT_ANALYST
| MONETIZATION_ADVISOR
| CONTENT_STRATEGY
| AUDIENCE_INSIGHTS
| VOICE_IMPACT_SUMMARY.

(** The [context] argument of [format_prompt_with_context]: each key may be
    absent. *)
Record context : Type := mkContext {
  user_data : option dict;
  metrics : option dict;
  posts_data : option (list dict);
  question : option string
}.

Section Prompts.

Variable repr_other : value -> string.
Variable float_comma : Q -> string.

(** The text of the prompt file of each type, when the file exists. *)
Variable prompt_file : PromptType -> option string.

(** [PromptManager.load_prompt]. *)
Definition load_prompt (prompt_type : PromptType) : result string :=
  match prompt_file prompt_type with
  | Some text => Ok text
  | None => Raise FileNotFoundError
  end.

(** The lines added for [context["user_data"]]. *)
Definition user_data_section (ud : dict) : result string :=
  let s0 := "## Données du créateur" ++ nl in
  let s1 :=
    match dict_get "username" ud with
    | Some u => s0 ++ "- Username: @" ++ py_str repr_other u ++ nl
    | None => s0
    end in
  bind
    match dict_get "followers" ud with
    | Some f =>
        bind (fmt_comma float_comma f)
             (fun t => Ok (s1 ++ "- Followers: " ++ t ++ nl))
    | None => Ok s1
    end
    (fun s2 =>
       match dict_get "engagement_rate" ud with
       | Some e =>
           bind (fmt_f 2 e)
                (fun t => Ok (s2 ++ "- Taux d'engagement moyen: " ++ t ++ "%" ++ nl))
       | None => Ok s2
       end).

(** The lines added for [context["metrics"]], one per item. *)
Fixpoint metrics_lines (m : dict) : string :=
  match m with
  | [] => ""
  | (key, v) :: rest =>
      "- " ++ key ++ ": " ++ py_str repr_other v ++ nl ++ metrics_lines rest
  end.

Definition metrics_section (m : dict) : string :=
  nl ++ "## Métriques récentes" ++ nl ++ metrics_lines m.

(** [sum(p.get(field, 0) for p in posts) / len(posts)]. *)
Definition average (field : string) (posts : list dict) : result value :=
  bind (py_sum (map (dict_get_default field (VInt 0)) posts))
       (fun total => py_truediv total (VInt (Z.of_nat (length posts)))).

(** The lines added for [context["posts_data"]]. *)
Definition posts_section (posts : list dict) : result string :=
  let s0 := nl ++ "## Données de contenu" ++ nl
            ++ "- Nombre de posts analysés: " ++ str_of_nat (length posts) ++ nl in
  match posts with
  | [] => Ok s0
  | _ :: _ =>
      bind (average "likes" posts) (fun avg_likes =>
      bind (average "comments" posts) (fun avg_comments =>
      bind (fmt_f 0 avg_likes) (fun tl =>
      bind (fmt_f 0 avg_comments) (fun tc =>
        Ok (s0 ++ "- Moyenne de likes: " ++ tl ++ nl
               ++ "- Moyenne de commentaires: " ++ tc ++ nl)))))
  end.

Definition question_section (q : string) : string :=
  nl ++ "## Question de l'utilisateur" ++ nl ++ q ++ nl.

(** A section is appended only when its key is in the context. *)
Definition optional {A : Type} (o : option A) (f : A -> result string)
    : result string :=
  match o with
  | Some a => f a
  | None => Ok ""
  end.

(** [PromptManager.format_prompt_with_context]. *)
Definition format_prompt_with_context (prompt_type : PromptType) (ctx : context)
    : result string :=
  bind (load_prompt prompt_type) (fun base_prompt =>
  bind (optional (user_data ctx) user_data_section) (fun s_user =>
  bind (optional (metrics ctx) (fun m => Ok (metrics_section m))) (fun s_metrics =>
  bind (optional (posts_data ctx) posts_section) (fun s_posts =>
  bind (optional (question ctx) (fun q => Ok (question_section q))) (fun s_question =>
    Ok (base_prompt ++ (nl ++ nl ++ "# CONTEXTE ACTUEL" ++ nl ++ nl)
          ++ s_user ++ s_metrics ++ s_posts ++ s_question)))))).

End Prompts.

(** *** The manager and its cache *)

Definition all_types : list PromptType :=
  [CONTENT_ANALYST; MONETIZATION_ADVISOR; CONTENT_STRATEGY; AUDIENCE_INSIGHTS;
   VOICE_IMPACT_SUMMARY].

Definition PromptType_eqb (a b : PromptType) : bool :=
  match a, b with
  | CONTENT_ANALYST, CONTENT_ANALYST
  | MONETIZATION_ADVISOR, MONETIZATION_ADVISOR
  | CONTENT_STRATEGY, CONTENT_STRATEGY
  | AUDIENCE_INSIGHTS, AUDIENCE_INSIGHTS
  | VOICE_IMPACT_SUMMARY, VOICE_IMPACT_SUMMARY => true
  | _, _ => false
  end.

(** [self._prompts_cache]: a dict from prompt types to texts. *)
Definition cache : Type := list (PromptType * string).

Fixpoint cache_get (t : PromptType) (c : cache) : option string :=
  match c with
  | [] => None
  | (t', text) :: c' => if PromptType_eqb t t' then Some text else cache_get t c'
  end.

Fixpoint cache_set (t : PromptType) (text : string) (c : cache) : cache :=
  match c with
  | [] => [(t, text)]
  | (t', text') :: c' =>
      if PromptType_eqb t t' then (t, text) :: c' else (t', text') :: cache_set t text c'
  end.

(** [PromptManager.load_prompt] with the cache it reads and writes:
    [files] gives the text of each prompt file that exists. *)
Definition load_prompt_cached (files : PromptType -> option string) (c : cache)
    (prompt_type : PromptType) (force_reload : bool) : result string * cache :=
  match (if force_reload then None else cache_get prompt_type c) with
  | Some text => (Ok text, c)
  | None =>
      match files prompt_type with
      | Some text => (Ok text, cache_set prompt_type text c)
      | None => (Raise FileNotFoundError, c)
      end
  end.

(** The loop of [get_all_prompts]: a prompt whose file is missing is left
    out. *)
Fixpoint get_all_from (files : PromptType -> option string)
    (types : list PromptType) (c : cache) : list (PromptType * string) * cache :=
  match types with
  | [] => ([], c)
  | t :: rest =>
      match load_prompt_cached files c t false with
      | (Ok text, c') =>
          let (prompts, c'') := get_all_from files rest c' in
          ((t, text) :: prompts, c'')
      | (Raise _, c') => get_all_from files rest c'
      end
  end.

(** [PromptManager.get_all_prompts]. *)
Definition get_all_prompts (files : PromptType -> option string) (c : cache)
    : list (PromptType * string) * cache :=
  get_all_from files all_types c.

(** [PromptManager.reload_all_prompts]: the cache is cleared first. *)
Definition reload_all_prompts (files : PromptType -> option string) (c : cache)
    : list (PromptType * string) * cache :=
  get_all_prompts files [].

End PromptManager.

(* ================================================================== *)
(** ** rag_pipeline.py: the user prompt *)
(* ================================================================== *)

Module RagPipeline.
Import Py.

Definition nl : string := PromptManager.nl.

(** The text returned for an empty retrieval. *)
Definition no_post_text : string := "Aucun post pertinent trouvé.".

Section Pipeline.

Variable repr_other : value -> string.
Variable float_comma : Q -> string.

(** The characters of a [str]: each one with the bytes that continue it
    in UTF-8.  [split_chars] gives the bytes that continue the character
    before [s], and the characters after them. *)
Fixpoint split_chars (s : string) : string * list string :=
  match s with
  | EmptyString => (EmptyString, [])
  | String c s' =>
      let (p, l) := split_chars s' in
      if ((128 <=? byte c) && (byte c <? 192))%nat
      then (String c p, l)
      else (EmptyString, String c p :: l)
  end.

Definition chars (s : string) : list string :=
  let (p, l) := split_chars s in
  match p with
  | EmptyString => l
  | _ => p :: l
  end.

(** [sep.join(v)] for an object [v]: a list of [str], or the characters of
    a [str], or the keys of a dict. *)
Definition join_value (sep : string) (v : value) : result string :=
  match v with
  | VList l => py_join sep l
  | VStr s => Ok (join sep (chars s))
  | VDict d => Ok (join sep (keys d))
  | _ => Raise TypeError
  end.

(** The block of one post in [format_posts_for_prompt]; [i] counts from 1. *)
Definition format_post (i : nat) (post : dict) : result string :=
  let metadata := dict_get_default "metadata" (VDict []) post in
  bind (py_get metadata "metrics" (VDict [])) (fun metrics =>
  bind (py_get metadata "caption" (VStr "N/A")) (fun caption =>
  bind (py_get metadata "media_type" (VStr "N/A")) (fun media_type =>
  bind (py_get metadata "timestamp" (VStr "N/A")) (fun timestamp =>
  bind (py_get metrics "engagement_rate" (VInt 0)) (fun engagement_rate =>
  bind (py_get metrics "likes" (VInt 0)) (fun likes =>
  bind (py_get metrics "comments" (VInt 0)) (fun comments =>
  bind (py_get metrics "saves" (VInt 0)) (fun saves =>
  bind (py_get metrics "reach" (VInt 0)) (fun reach =>
  bind (py_get metrics "impressions" (VInt 0)) (fun impressions =>
  bind (py_get metadata "hashtags" (VList [])) (fun hashtags =>
  bind (join_value ", " hashtags) (fun tags =>
    let str := py_str repr_other in
    Ok (strip
      (nl ++ "POST " ++ str_of_nat i ++ ":" ++ nl
       ++ "- Caption: " ++ str caption ++ nl
       ++ "- Type: " ++ str media_type ++ nl
       ++ "- Date: " ++ str timestamp ++ nl
       ++ "- Engagement: " ++ str engagement_rate ++ "%" ++ nl
       ++ "- Likes: " ++ str likes ++ " | Commentaires: " ++ str comments
       ++ " | Sauvegardes: " ++ str saves ++ nl
       ++ "- Portée: " ++ str reach ++ " | Impressions: " ++ str impressions ++ nl
       ++ "- Hashtags: " ++ tags ++ nl)))))))))))))).

Fixpoint format_posts_from (i : nat) (posts : list dict) : result (list string) :=
  match posts with
  | [] => Ok []
  | post :: rest =>
      bind (format_post i post) (fun b =>
      bind (format_posts_from (S i) rest) (fun bs => Ok (b :: bs)))
  end.

(** [RAGPipeline.format_posts_for_prompt]. *)
Definition format_posts_for_prompt (posts : list dict) : result string :=
  match posts with
  | [] => Ok no_post_text
  | _ :: _ =>
      bind (format_posts_from 1 posts) (fun formatted => Ok (join (nl ++ nl) formatted))
  end.

(** [self.influencer_profile or {}]. *)
Definition profile_or_empty (influencer_profile : option dict) : dict :=
  match influencer_profile with
  | Some p => p
  | None => []
  end.

(** The profile header of the user prompt, up to the line of the posting
    frequency.  The followers are formatted with [','], whatever object
    they are. *)
Definition profile_header (profile : dict) : result string :=
  let str := py_str repr_other in
  let get k := dict_get_default k (VStr "N/A") profile in
  bind (fmt_comma float_comma (get "followers")) (fun followers =>
    Ok ("PROFIL INFLUENCEUR:" ++ nl
        ++ "- Username: @" ++ str (get "username") ++ nl
        ++ "- Followers: " ++ followers ++ nl
        ++ "- Taux d'engagement moyen: " ++ str (get "avg_engagement_rate") ++ "%" ++ nl
        ++ "- Niche: " ++ str (get "niche") ++ nl
        ++ "- Fréquence de publication: " ++ str (get "posting_frequency") ++ nl)).

Definition closing_text : string :=
  "Réponds de manière personnalisée en te basant sur les données ci-dessus.".

(** [RAGPipeline.build_user_prompt]. *)
Definition build_user_prompt (influencer_profile : option dict)
    (question : string) (relevant_posts : list dict) : result string :=
  let profile := profile_or_empty influencer_profile in
  bind (profile_header profile) (fun header =>
  bind (format_posts_for_prompt relevant_posts) (fun posts =>
    Ok (header ++ nl
        ++ "POSTS PERTINENTS:" ++ nl ++ posts ++ nl ++ nl
        ++ "QUESTION:" ++ nl ++ question ++ nl ++ nl
        ++ closing_text))).

End Pipeline.

(** [RAGPipeline.get_statistics]; [total_posts] is [vector_store.count()].
    An empty profile is no profile. *)
Definition get_statistics (influencer_profile : option dict) (total_posts : nat)
    : dict :=
  match influencer_profile with
  | None | Some [] => []
  | Some p => [("profile", VDict p); ("total_posts", VInt (Z.of_nat total_posts))]
  end.

End RagPipeline.

(* ================================================================== *)
(** ** llm_client.py: complete and streamed responses *)
(* ================================================================== *)

Module LlmClient.
Import Py.

(** What the HTTP layer hands back: a body, an error status with its text,
    or a transport failure. *)
Inductive http_outcome (A : Type) : Type :=
| HttpBody (body : A)
| HttpStatus (code : nat) (text : string)
| TransportFailure (msg : string).
Arguments HttpBody {A} body.
Arguments HttpStatus {A} code text.
Arguments TransportFailure {A} msg.

(** The handlers of [requests.exceptions.HTTPError] and
    [RequestException], the same in [chat] and in
    [generate_response_stream]. *)
Definition http_error (code : nat) (text : string) : exn :=
  if (code =? 401)%nat
  then ValueError "Invalid API key. Please check your FEATHERLESS_API_KEY."
  else if (code =? 429)%nat
  then RuntimeError "Rate limit exceeded. Please try again later."
  else RuntimeError ("API error: " ++ text).

Definition network_error (msg : string) : exn :=
  RuntimeError ("Network error: " ++ msg).

(** [FeatherlessClient.generate_response] on the outcome of the request;
    the body is the list of the message contents of [response["choices"]]. *)
Definition generate_response (outcome : http_outcome (list string))
    : result string :=
  match outcome with
  | HttpBody (content :: _) => Ok content
  | HttpBody [] => Raise (RuntimeError "Unexpected API response format")
  | HttpStatus code text => Raise (http_error code text)
  | TransportFailure msg => Raise (network_error msg)
  end.

(** A line of the streamed body: bytes that do not decode, or text. *)
Inductive raw_line : Type :=
| Undecodable
| Text (s : string).

(** What a generator did: the objects it yielded, then a normal end or an
    exception. *)
Inductive stream_of (A : Type) : Type :=
| Stream (fragments : list A) (failure : option exn).
Arguments Stream {A} fragments failure.

Definition fragments_of {A : Type} (s : stream_of A) : list A :=
  match s with Stream fs _ => fs end.

Definition failure_of {A : Type} (s : stream_of A) : option exn :=
  match s with Stream _ f => f end.

(** A stream of text fragments. *)
Definition stream : Type := stream_of string.

(** What the body of the loop does with a parsed chunk. *)
Inductive effect : Type :=
| Faulted
| Passed
| Yielded (content : value) (last : bool)
| Finished.

(** [choice.get("finish_reason") is not None]. *)
Definition finished (choice : dict) : bool :=
  match dict_get "finish_reason" choice with
  | None | Some VNone => false
  | Some _ => true
  end.

(** The body of the loop on the first choice: [Faulted] when an exception
    is raised (a choice that is not a dict, a delta that is [None], a
    number, a [str] or a list), [Yielded content last] when a truthy
    content is yielded, [last] telling whether the loop breaks after it. *)
Definition choice_effect (choice : value) : effect :=
  match py_in "delta" choice with
  | Raise _ => Faulted
  | Ok has_delta =>
      match choice with
      | VDict c =>
          let after := if finished c then Finished else Passed in
          if has_delta then
            let delta := dict_get_default "delta" VNone c in
            match py_in "content" delta with
            | Raise _ => Faulted
            | Ok false => after
            | Ok true =>
                match delta with
                | VDict d =>
                    let content := dict_get_default "content" VNone d in
                    if truthy content then Yielded content (finished c) else after
                | _ => Faulted
                end
            end
          else after
      | _ => Faulted
      end
  end.

(** The [try] block on a parsed chunk:
    [if "choices" in chunk and len(chunk["choices"]) > 0:
         choice = chunk["choices"][0] ...]. *)
Definition chunk_effect (chunk : value) : effect :=
  match py_in "choices" chunk with
  | Raise _ => Faulted
  | Ok false => Passed
  | Ok true =>
      match chunk with
      | VDict d =>
          let choices := dict_get_default "choices" VNone d in
          match py_nonempty choices with
          | Raise _ => Faulted
          | Ok false => Passed
          | Ok true =>
              match py_first choices with
              | None => Faulted
              | Some choice => choice_effect choice
              end
          end
      | _ => Faulted
      end
  end.

Section Streaming.

(** [json.loads] of a line; [None] when it raises [JSONDecodeError]. *)
Variable json_loads : string -> option value.

(** [line[6:]] when the line starts with ["data: "]. *)
Definition drop_data_prefix (line : string) : string :=
  if startswith line "data: "
  then String.substring 6 (String.length line - 6) line
  else line.

(** The loop over [response.iter_lines()].  [broken] is the transport
    failure met after the last line, if any; a loop that stops earlier
    never sees it.  Both [except] clauses of the inner [try] go on with
    the next line. *)
Fixpoint read_lines (lines : list raw_line) (broken : option string)
    : stream_of value :=
  match lines with
  | [] =>
      match broken with
      | Some msg => Stream [] (Some (network_error msg))
      | None => Stream [] None
      end
  | Undecodable :: rest => read_lines rest broken
  | Text raw :: rest =>
      let line := drop_data_prefix (strip raw) in
      if String.eqb (strip raw) "" then read_lines rest broken
      else if String.eqb (strip line) "[DONE]" then Stream [] None
      else
        match json_loads line with
        | None => read_lines rest broken
        | Some chunk =>
            match chunk_effect chunk with
            | Faulted | Passed => read_lines rest broken
            | Yielded content last =>
                let tail := if last then Stream [] None else read_lines rest broken in
                Stream (content :: fragments_of tail) (failure_of tail)
            | Finished => Stream [] None
            end
        end
  end.

(** [FeatherlessClient.generate_response_stream] on the outcome of the
    request. *)
Definition generate_response_stream
    (outcome : http_outcome (list raw_line * option string)) : stream_of value :=
  match outcome with
  | HttpBody (lines, broken) => read_lines lines broken
  | HttpStatus code text => Stream [] (Some (http_error code text))
  | TransportFailure msg => Stream [] (Some (network_error msg))
  end.

(** A line the loop passes over: bytes that do not decode, a blank line,
    or a line other than the end marker that is not JSON, or whose chunk
    yields nothing and does not end the loop (no choice, or an exception
    while it is read). *)
Definition is_skipped (l : raw_line) : bool :=
  match l with
  | Undecodable => true
  | Text raw =>
      String.eqb (strip raw) "" ||
      (negb (String.eqb (strip (drop_data_prefix (strip raw))) "[DONE]") &&
       match json_loads (drop_data_prefix (strip raw)) with
       | None => true
       | Some chunk =>
           match chunk_effect chunk with
           | Faulted | Passed => true
           | _ => false
           end
       end)
  end.

(** A line at which the loop breaks: the end marker, or a chunk read
    without an exception whose first choice has a finish reason. *)
Definition ends_stream (l : raw_line) : bool :=
  match l with
  | Undecodable => false
  | Text raw =>
      negb (String.eqb (strip raw) "") &&
      (String.eqb (strip (drop_data_prefix (strip raw))) "[DONE]" ||
       match json_loads (drop_data_prefix (strip raw)) with
       | Some chunk =>
           match chunk_effect chunk with
           | Finished | Yielded _ true => true
           | _ => false
           end
       | None => false
       end)
  end.

End Streaming.

(** The client as the pipeline sees it: both calls take the user message
    and the system message. *)
Record client : Type := mkClient {
  complete : string -> string -> result string;
  complete_stream : string -> string -> stream
}.

End LlmClient.

(* ================================================================== *)
(** ** agent_modes.py: modes and the dispatcher *)
(* ================================================================== *)

Module AgentModes.
Import Py.

Inductive AgentMode : Type :=
| CONTENT_ANALYST
| MONETIZATION
| STRATEGY
| AUDIENCE
| VOICE_IMPACT.

(** [mode.value]. *)
Definition value_of (mode : AgentMode) : string :=
  match mode with
  | CONTENT_ANALYST => "content_analyst"
  | MONETIZATION => "monetization"
  | STRATEGY => "strategy"
  | AUDIENCE => "audience"
  | VOICE_IMPACT => "voice_impact"
  end.

Definition all_modes : list AgentMode :=
  [CONTENT_ANALYST; MONETIZATION; STRATEGY; AUDIENCE; VOICE_IMPACT].

Definition AgentMode_eqb (a b : AgentMode) : bool :=
  String.eqb (value_of a) (value_of b).

(** [get_prompt_for_mode]. *)
Definition get_prompt_for_mode (mode : AgentMode) : PromptManager.PromptType :=
  match mode with
  | CONTENT_ANALYST => PromptManager.CONTENT_ANALYST
  | MONETIZATION => PromptManager.MONETIZATION_ADVISOR
  | STRATEGY => PromptManager.CONTENT_STRATEGY
  | AUDIENCE => PromptManager.AUDIENCE_INSIGHTS
  | VOICE_IMPACT => PromptManager.VOICE_IMPACT_SUMMARY
  end.

(** [get_mode_description]. *)
Definition get_mode_description (mode : AgentMode) : string :=
  match mode with
  | CONTENT_ANALYST =>
      "📊 Analyse de Performance - Évalue vos posts et identifie ce qui fonctionne"
  | MONETIZATION => "💰 Monétisation - Conseils sur les partenariats et revenus"
  | STRATEGY => "🎯 Stratégie de Contenu - Planning et idées de création"
  | AUDIENCE => "👥 Analyse d'Audience - Comprend votre communauté"
  | VOICE_IMPACT =>
      "🎙️ Résumé Vocal - Génère un résumé audio de l'impact de votre dernier post"
  end.

(** [list_modes]: the value and the description of every mode. *)
Definition list_modes : list (string * string) :=
  map (fun m => (value_of m, get_mode_description m)) all_modes.

(** The answer of the dispatcher: a generator when streaming, a text
    otherwise. *)
Inductive response : Type :=
| response_stream (s : LlmClient.stream)
| response_text (text : string).

Record mode_result : Type := mkResult {
  mode : string;
  mode_description : string;
  answer : response;
  relevant_posts : list dict;
  question : string
}.

(** The pipeline the dispatcher works on: retrieval (embedding and
    nearest-neighbour query), the loaded profile and the client. *)
Record pipeline : Type := mkPipeline {
  retrieve_relevant_posts : string -> nat -> list dict;
  influencer_profile : option dict;
  llm_client : LlmClient.client
}.

Section Dispatch.

Variable repr_other : value -> string.
Variable float_comma : Q -> string.
Variable prompt_file : PromptManager.PromptType -> option string.

(** The context [generate_with_mode] hands to the prompt manager. *)
Definition build_context (profile : dict) (posts : list dict) (q : string)
    : PromptManager.context :=
  PromptManager.mkContext
    (Some [ ("username", dict_get_default "username" (VStr "N/A") profile);
            ("followers", dict_get_default "followers" (VInt 0) profile);
            ("engagement_rate", dict_get_default "avg_engagement_rate" (VInt 0) profile);
            ("niche", dict_get_default "niche" (VStr "N/A") profile) ])
    None
    (Some posts)
    (Some q).

(** [generate_with_mode]. *)
Definition generate_with_mode (rag : pipeline) (q : string) (m : AgentMode)
    (n_results : nat) (stream : bool) : result mode_result :=
  let posts := retrieve_relevant_posts rag q n_results in
  let profile := RagPipeline.profile_or_empty (influencer_profile rag) in
  let ctx := build_context profile posts q in
  bind (PromptManager.format_prompt_with_context repr_other float_comma prompt_file
          (get_prompt_for_mode m) ctx) (fun system_prompt =>
  bind (RagPipeline.build_user_prompt repr_other float_comma
          (influencer_profile rag) q posts) (fun user_prompt =>
    if stream
    then Ok (mkResult (value_of m) (get_mode_description m)
               (response_stream
                  (LlmClient.complete_stream (llm_client rag) user_prompt system_prompt))
               posts q)
    else
      bind (LlmClient.complete (llm_client rag) user_prompt system_prompt)
           (fun text =>
              Ok (mkResult (value_of m) (get_mode_description m)
                    (response_text text) posts q)))).

End Dispatch.

End AgentModes.

(* ================================================================== *)
(** ** agent.py: asking a question, the [mode] command of the chat loop *)
(* ================================================================== *)

Module Agent.
Import Py AgentModes.

(** The fields of [InstagramCoachAgent] that [ask] and [chat] read and
    write.  What is printed on the terminal is not modelled. *)
Record agent : Type := mkAgent {
  conversation_history : list (string * string);
  current_mode : AgentMode
}.

(** [response = ""; for chunk in stream: response += chunk].  An exception
    raised by the generator is caught by [ask]: the text read so far is
    kept. *)
Definition consume (s : LlmClient.stream) : string :=
  fold_left (fun response chunk => response ++ chunk) (LlmClient.fragments_of s) "".

(** The questions of [get_recommendations]. *)
Definition general_question : string :=
  "Quelles sont tes recommandations principales pour améliorer mon Instagram ?".

Definition questions : list (string * string) :=
  [ ("general", general_question);
    ("content", "Comment puis-je optimiser mon contenu ?");
    ("growth", "Quelles stratégies pour accélérer ma croissance ?");
    ("engagement", "Comment augmenter mon taux d'engagement ?") ].

(** [questions.get(focus, questions["general"])]. *)
Definition recommendation_question (focus : string) : string :=
  dict_get_default focus general_question questions.

Section Ask.

Variable repr_other : value -> string.
Variable float_comma : Q -> string.
Variable prompt_file : PromptManager.PromptType -> option string.
Variable rag : pipeline.

(** [InstagramCoachAgent.ask]: the response and the agent afterwards. *)
Definition ask (self : agent) (q : string) (n_posts : nat) (stream : bool)
    (m : option AgentMode) : result (string * agent) :=
  let active_mode :=
    match m with
    | Some m' => m'
    | None => current_mode self
    end in
  bind (generate_with_mode repr_other float_comma prompt_file rag q active_mode
          n_posts stream) (fun r =>
    let text :=
      match answer r with
      | response_stream s => consume s
      | response_text t => t
      end in
    Ok (text,
        mkAgent (conversation_history self ++ [("user", q); ("assistant", text)])
                (current_mode self))).

(** [InstagramCoachAgent.get_recommendations]: [ask] with its defaults. *)
Definition get_recommendations (self : agent) (focus : string)
    : result (string * agent) :=
  ask self (recommendation_question focus) 3 true None.

End Ask.

(** The table of the [mode <name>] command in [chat]. *)
Definition mode_mapping : list (string * AgentMode) :=
  [ ("content", CONTENT_ANALYST);
    ("analyst", CONTENT_ANALYST);
    ("analysis", CONTENT_ANALYST);
    ("monetization", MONETIZATION);
    ("money", MONETIZATION);
    ("strategy", STRATEGY);
    ("planning", STRATEGY);
    ("audience", AUDIENCE);
    ("community", AUDIENCE) ].

(** The branch [if user_input.lower().startswith("mode "):] of [chat]:
    [mode_name = user_input[5:].strip().lower()]; a known name sets the
    mode, any other name leaves the agent as it is. *)
Definition mode_name (user_input : string) : string :=
  lower (strip (String.substring 5 (String.length user_input - 5) user_input)).

Definition mode_command (self : agent) (user_input : string) : agent :=
  match dict_get (mode_name user_input) mode_mapping with
  | Some m => mkAgent (conversation_history self) m
  | None => self
  end.

Section Stats.

Variable repr_other : value -> string.
Variable float_comma : Q -> string.

(** [str.capitalize], a builtin of the interpreter, kept abstract. *)
Variable capitalize : string -> string.

(** [v.capitalize()]: [v] must be a string. *)
Definition py_capitalize (v : value) : result string :=
  match v with
  | VStr s => Ok (capitalize s)
  | _ => Raise AttributeError
  end.

(** [InstagramCoachAgent._print_stats] on the statistics of the pipeline:
    the lines printed, when all of them can be. *)
Definition _print_stats (stats : dict) : result (list string) :=
  let profile := dict_get_default "profile" (VDict []) stats in
  let str := py_str repr_other in
  bind (py_get profile "username" (VStr "N/A")) (fun username =>
  bind (py_get profile "followers" (VStr "N/A")) (fun followers =>
  bind (fmt_comma float_comma followers) (fun followers_text =>
  bind (py_get profile "avg_engagement_rate" (VStr "N/A")) (fun rate =>
  bind (py_get profile "niche" (VStr "N/A")) (fun niche =>
  bind (py_capitalize niche) (fun niche_text =>
    Ok [ PromptManager.nl ++ repeat_str "=" 60;
         "📊 @" ++ str username ++ " - Statistics";
         repeat_str "=" 60;
         "  Followers: " ++ followers_text;
         "  Avg Engagement: " ++ str rate ++ "%";
         "  Niche: " ++ niche_text;
         "  Posts Indexed: " ++ str (dict_get_default "total_posts" (VInt 0) stats);
         repeat_str "=" 60 ++ PromptManager.nl ])))))).

End Stats.

(** One turn of the loop of [chat]: the loop goes on with an agent, or
    ends. *)
Inductive turn : Type :=
| Continue (self : agent)
| Break.

Section Chat.

Variable repr_other : value -> string.
Variable float_comma : Q -> string.
Variable prompt_file : PromptManager.PromptType -> option string.
Variable rag : pipeline.

(** The body of the loop for one line read from the terminal.  An
    exception raised while answering is caught and printed: the loop goes
    on with the agent as it was. *)
Definition chat_turn (self : agent) (line : string) : turn :=
  let user_input := strip line in
  if String.eqb user_input "" then Continue self
  else if mem (lower user_input) ["quit"; "exit"; "q"] then Break
  else if String.eqb (lower user_input) "stats" then Continue self
  else if String.eqb (lower user_input) "clear"
  then Continue (mkAgent [] (current_mode self))
  else if String.eqb (lower user_input) "modes" then Continue self
  else if startswith (lower user_input) "mode "
  then Continue (mode_command self user_input)
  else
    match ask repr_other float_comma prompt_file rag self user_input 3 true None with
    | Ok (_, self') => Continue self'
    | Raise _ => Continue self
    end.

End Chat.

End Agent.

(* ================================================================== *)
(** ** api.py: the mode of a chat request *)
(* ================================================================== *)

Module Api.
Import Py AgentModes.

(** [ModeEnum], the modes a request may name. *)
Inductive ModeEnum : Type :=
| API_CONTENT_ANALYST
| API_MONETIZATION
| API_STRATEGY
| API_AUDIENCE.

Definition ModeEnum_value (m : ModeEnum) : string :=
  match m with
  | API_CONTENT_ANALYST => "content_analyst"
  | API_MONETIZATION => "monetization"
  | API_STRATEGY => "strategy"
  | API_AUDIENCE => "audience"
  end.




(** The table of [chat] and [chat_stream]. *)
Definition mode_mapping : list (string * AgentMode) :=
  [ ("content_analyst", CONTENT_ANALYST);
    ("monetization", MONETIZATION);
    ("strategy", STRATEGY);
    ("audience", AUDIENCE) ].

(** [mode_mapping.get(request.mode.value, AgentMode.CONTENT_ANALYST)]. *)
Definition selected_mode (mode_value : string) : AgentMode :=
  dict_get_default mode_value CONTENT_ANALYST mode_mapping.

(** What an endpoint answers: a body, or an [HTTPException]. *)
Inductive reply (A : Type) : Type :=
| Reply (body : A)
| HTTPException (status_code : nat) (detail : string).
Arguments Reply {A} body.
Arguments HTTPException {A} status_code detail.

Record ChatRequest : Type := mkChatRequest {
  request_question : string;
  request_mode : option ModeEnum;
  request_n_posts : nat
}.

Record ChatResponse : Type := mkChatResponse {
  response_text : string;
  response_mode : string;
  response_mode_description : string;
  response_question : string;
  relevant_posts_count : nat
}.

Definition valid_focus : list string := ["general"; "content"; "growth"; "engagement"].

Definition questions : list (string * string) :=
  [ ("general", "Quelles sont tes recommandations principales pour améliorer mon Instagram ?");
    ("content", "Comment puis-je optimiser mon contenu ?");
    ("growth", "Quelles stratégies pour accélérer ma croissance ?");
    ("engagement", "Comment augmenter mon taux d'engagement ?") ].

Section Endpoints.

Variable repr_other : value -> string.
Variable float_comma : Q -> string.
Variable prompt_file : PromptManager.PromptType -> option string.

(** [str(e)], the text of an exception. *)
Variable exn_text : exn -> string.

(** The text of a complete answer. *)
Definition text_of (a : response) : string :=
  match a with
  | AgentModes.response_text t => t
  | response_stream s => join "" (LlmClient.fragments_of s)
  end.

(** [chat], the handler of [POST /api/chat]; [agent] is the pipeline of the
    global agent, if it was initialised. *)
Definition chat (agent : option pipeline) (request : ChatRequest) : reply ChatResponse :=
  match agent with
  | None => HTTPException 503 "Agent not initialized"
  | Some rag =>
      match request_mode request with
      | None =>
          HTTPException 500 ("Error generating response: " ++ exn_text AttributeError)
      | Some m =>
          match generate_with_mode repr_other float_comma prompt_file rag
                  (request_question request) (selected_mode (ModeEnum_value m))
                  (request_n_posts request) false with
          | Ok r =>
              Reply (mkChatResponse (text_of (answer r)) (mode r) (mode_description r)
                       (AgentModes.question r) (length (relevant_posts r)))
          | Raise e => HTTPException 500 ("Error generating response: " ++ exn_text e)
          end
      end
  end.

(** The generator [generate] of [chat_stream]: the chunks of the stream,
    then a last text when the stream raised. *)
Definition error_chunk (e : exn) : string :=
  PromptManager.nl ++ PromptManager.nl ++ "[Error: " ++ exn_text e ++ "]".

Definition stream_body (s : LlmClient.stream) : list string :=
  List.app (LlmClient.fragments_of s)
           match LlmClient.failure_of s with
           | Some e => [error_chunk e]
           | None => []
           end.

(** [get_recommendations], the handler of
    [POST /api/recommendations/{focus}]: focus, recommendation, mode. *)
Definition get_recommendations (agent : option pipeline) (focus : string)
    : reply (string * string * string) :=
  match agent with
  | None => HTTPException 503 "Agent not initialized"
  | Some rag =>
      if negb (mem focus valid_focus)
      then HTTPException 400
             ("Invalid focus. Must be one of: " ++ join ", " valid_focus)
      else
        match dict_get focus questions with
        | None => HTTPException 500
                    ("Error generating recommendations: '" ++ focus ++ "'")
        | Some q =>
            match generate_with_mode repr_other float_comma prompt_file rag
                    q STRATEGY 3 false with
            | Ok r => Reply (focus, text_of (answer r), mode r)
            | Raise e =>
                HTTPException 500 ("Error generating recommendations: " ++ exn_text e)
            end
        end
  end.

(** [get_top_posts], the handler of [GET /api/top-posts]: the analysis and
    the number of posts analysed. *)
Definition get_top_posts (agent : option pipeline) (n : Z) : reply (string * nat) :=
  match agent with
  | None => HTTPException 503 "Agent not initialized"
  | Some rag =>
      if (n <? 1) || (10 <? n)
      then HTTPException 400 "n must be between 1 and 10"
      else
        match generate_with_mode repr_other float_comma prompt_file rag
                ("Quels sont mes " ++ str_of_Z n ++ " posts les plus performants et pourquoi ?")
                CONTENT_ANALYST (Z.to_nat n) false with
        | Ok r => Reply (text_of (answer r), length (relevant_posts r))
        | Raise e => HTTPException 500 ("Error analyzing posts: " ++ exn_text e)
        end
  end.

End Endpoints.

End Api.

(* ================================================================== *)
(** ** voice_impact_agent_google_api.py: latest post, impact metrics *)
(* ================================================================== *)

Module VoiceImpact.
Import Py.

(** The first post whose timestamp is the greatest: the head of
    [sorted(all_posts, key=lambda p: p.get("timestamp", ""), reverse=True)],
    a stable sort.  [best] is the head so far. *)
Fixpoint latest_from (best : dict) (posts : list dict) : result dict :=
  match posts with
  | [] => Ok best
  | p :: rest =>
      bind (py_lt (dict_get_default "timestamp" (VStr "") best)
                  (dict_get_default "timestamp" (VStr "") p))
           (fun newer => latest_from (if newer then p else best) rest)
  end.

(** [VoiceImpactAgent.get_latest_post] on the metadatas of
    [vector_store.get_all()]. *)
Definition get_latest_post (all_posts : list dict) : result (option dict) :=
  match all_posts with
  | [] => Ok None
  | p :: rest => bind (latest_from p rest) (fun best => Ok (Some best))
  end.

(** [p.get("metrics", {}).get(field, 0)]. *)
Definition metric_of (field : string) (p : dict) : result value :=
  py_get (dict_get_default "metrics" (VDict []) p) field (VInt 0).

(** [sum(p.get("metrics", {}).get(field, 0) for p in posts)]: each term is
    read and added before the next one is read. *)
Fixpoint sum_metric (field : string) (acc : value) (posts : list dict)
    : result value :=
  match posts with
  | [] => Ok acc
  | p :: rest =>
      bind (metric_of field p) (fun x =>
      bind (py_add acc x) (fun acc' => sum_metric field acc' rest))
  end.

(** [sum(...) / len(other_posts)]. *)
Definition mean_of (field : string) (other_posts : list dict) : result value :=
  bind (sum_metric field (VInt 0) other_posts) (fun total =>
    py_truediv total (VInt (Z.of_nat (length other_posts)))).

(** [[p for p in all_posts if p.get("id") != post.get("id")]]. *)
Definition other_posts (all_posts : list dict) (post : dict) : list dict :=
  filter (fun p => negb (value_eqb (dict_get_default "id" VNone p)
                                   (dict_get_default "id" VNone post)))
         all_posts.

(** [(num / den * 100) if den > 0 else 0]. *)
Definition pct_if_positive (num den : value) : result value :=
  bind (py_gt den (VInt 0)) (fun positive =>
    if positive
    then bind (py_truediv num den) (fun r => py_mul r (VInt 100))
    else Ok (VInt 0)).

(** [VoiceImpactAgent.calculate_impact_metrics]. *)
Definition calculate_impact_metrics (influencer_profile : option dict)
    (all_posts : list dict) (post : dict) : result dict :=
  let metrics := dict_get_default "metrics" (VDict []) post in
  let profile := RagPipeline.profile_or_empty influencer_profile in
  bind (py_get metrics "likes" (VInt 0)) (fun likes =>
  bind (py_get metrics "comments" (VInt 0)) (fun comments =>
  bind (py_get metrics "shares" (VInt 0)) (fun shares =>
  bind (py_get metrics "saves" (VInt 0)) (fun saves =>
  bind (py_get metrics "reach" (VInt 0)) (fun reach =>
  bind (py_get metrics "impressions" (VInt 0)) (fun impressions =>
  bind (py_get metrics "engagement_rate" (VInt 0)) (fun engagement_rate =>
  bind
    (if (1 <? length all_posts)%nat
     then
       let others := other_posts all_posts post in
       bind (mean_of "engagement_rate" others) (fun avg_engagement =>
       bind (mean_of "likes" others) (fun avg_likes =>
       bind (mean_of "comments" others) (fun avg_comments =>
       bind (mean_of "saves" others) (fun avg_saves =>
         Ok (avg_engagement, avg_likes, avg_comments, avg_saves)))))
     else Ok (engagement_rate, likes, comments, saves))
    (fun '(avg_engagement, avg_likes, avg_comments, avg_saves) =>
  bind (bind (py_gt avg_engagement (VInt 0)) (fun positive =>
          if positive
          then bind (py_sub engagement_rate avg_engagement) (fun d =>
               bind (py_truediv d avg_engagement) (fun r => py_mul r (VInt 100)))
          else Ok (VInt 0))) (fun engagement_diff_pct =>
  let followers := dict_get_default "followers" (VInt 1) profile in
  bind (pct_if_positive reach followers) (fun virality_ratio =>
  bind (py_add likes comments) (fun lc =>
  bind (py_add lc shares) (fun lcs =>
  bind (py_add lcs saves) (fun total_interactions =>
  bind (bind (py_gt total_interactions (VInt 0)) (fun positive =>
          if positive
          then bind (py_add comments shares) (fun cs =>
               bind (py_add cs saves) (fun css =>
               bind (py_truediv css total_interactions) (fun r =>
                 py_mul r (VInt 100))))
          else Ok (VInt 0))) (fun active_engagement_pct =>
    Ok [ ("likes", likes);
         ("comments", comments);
         ("shares", shares);
         ("saves", saves);
         ("reach", reach);
         ("impressions", impressions);
         ("engagement_rate", engagement_rate);
         ("avg_engagement", avg_engagement);
         ("avg_likes", avg_likes);
         ("avg_comments", avg_comments);
         ("avg_saves", avg_saves);
         ("engagement_diff_pct", engagement_diff_pct);
         ("virality_ratio", virality_ratio);
         ("active_engagement_pct", active_engagement_pct) ])))))))))))))).

(** The key of the sort in [get_latest_post]. *)
Definition timestamp_of (p : dict) : value := dict_get_default "timestamp" (VStr "") p.

(** [q] is not more recent than [p]: [key(p) < key(q)] is false. *)
Definition not_newer (q p : dict) : Prop :=
  py_lt (timestamp_of p) (timestamp_of q) = Ok false.

(** The timestamp of [p] is a string. *)
Definition dated (p : dict) : Prop := exists t, timestamp_of p = VStr t.

(** [VoiceImpactAgent._clean_text_for_speech]. *)
Definition _clean_text_for_speech (text : string) : string :=
  let clean := text in
  let clean := str_replace (str_replace (str_replace clean "**" "") "__" "") "*" "" in
  let clean := str_replace (str_replace (str_replace clean "# " "") "## " "") "### " "" in
  let clean := str_replace clean "%" " pourcent" in
  let clean := str_replace (str_replace clean "- " "") "• " "" in
  let clean := join " " (split_ws clean) in
  strip clean.

Section Summary.

(** The rest of [generate_voice_summary] once the latest post and its
    metrics are known: context, prompts, the call of the language model
    and the cleaning of its text. *)
Variable summarise : dict -> dict -> result dict.

Definition no_post_error : exn :=
  ValueError "Aucun post trouvé pour générer un résumé vocal".

(** [VoiceImpactAgent.generate_voice_summary]. *)
Definition generate_voice_summary (influencer_profile : option dict)
    (all_posts : list dict) : result dict :=
  bind (get_latest_post all_posts) (fun latest_post =>
    match latest_post with
    | None => Raise no_post_error
    | Some post =>
        if truthy (VDict post)
        then bind (calculate_impact_metrics influencer_profile all_posts post)
                  (fun impact_metrics => summarise post impact_metrics)
        else Raise no_post_error
    end).

End Summary.

End VoiceImpact.

(* ================================================================== *)
(** ** data_transformer.py: the shape of a post; shapes the codec inverts *)
(* ================================================================== *)

Module Shapes.
Import Py.

(** The metrics of a post, as [transform_post] builds them. *)
Record Metrics : Type := mkMetrics {
  likes : Z;
  comments : Z;
  shares : Z;
  saves : Z;
  reach : Z;
  impressions : Z;
  engagement_rate : Q
}.

(** A post in the format the pipeline expects (the docstring of
    [InstagramDataTransformer]). *)
Record ContentRecord : Type := mkRecord {
  id : string;
  caption : string;
  media_type : string;
  timestamp : string;
  metrics : Metrics;
  hashtags : list string;
  media_url : string
}.

Definition metrics_dict (m : Metrics) : dict :=
  [ ("likes", VInt (likes m));
    ("comments", VInt (comments m));
    ("shares", VInt (shares m));
    ("saves", VInt (saves m));
    ("reach", VInt (reach m));
    ("impressions", VInt (impressions m));
    ("engagement_rate", VFloat (engagement_rate m)) ].

(** The dict of a post, keys in the order [transform_post] writes them. *)
Definition to_dict (r : ContentRecord) : dict :=
  [ ("id", VStr (id r));
    ("caption", VStr (caption r));
    ("media_type", VStr (media_type r));
    ("timestamp", VStr (timestamp r));
    ("metrics", VDict (metrics_dict (metrics r)));
    ("hashtags", VList (map VStr (hashtags r)));
    ("media_url", VStr (media_url r)) ].

(** Hashtags the comma-joined field gives back: no hashtag holds a comma,
    and the list is not the single empty string (which joins to the same
    text as the empty list). *)
Definition tags_ok (tags : list string) : bool :=
  forallb (fun s => negb (has_char comma s)) tags &&
  match tags with
  | [s] => negb (String.eqb s "")
  | _ => true
  end.

Definition str_of_value (v : value) : option string :=
  match v with
  | VStr s => Some s
  | _ => None
  end.

Fixpoint strings_of (l : list value) : option (list string) :=
  match l with
  | [] => Some []
  | v :: l' =>
      match str_of_value v, strings_of l' with
      | Some s, Some r => Some (s :: r)
      | _, _ => None
      end
  end.

(** A metrics dict the prefix convention gives back: not empty, distinct
    keys none of which holds ["metrics_"], scalar values. *)
Definition metrics_ok (d : dict) : bool :=
  match d with [] => false | _ => true end &&
  dict_wf d &&
  forallb (fun kv => negb (contains "metrics_" (fst kv)) && is_scalar (snd kv)) d.

(** A field of a mapping made of the known shapes only. *)
Definition field_ok (kv : string * value) : bool :=
  let (k, v) := kv in
  if String.eqb k "metrics" then
    match v with
    | VDict d => metrics_ok d
    | _ => false
    end
  else if String.eqb k "hashtags" then
    match v with
    | VList l =>
        match strings_of l with
        | Some tags => tags_ok tags
        | None => false
        end
    | _ => false
    end
  else negb (startswith k "metrics_") && is_scalar v.

(** A mapping the codec inverts. *)
Definition codec_safe (m : dict) : bool := dict_wf m && forallb field_ok m.

(** What a field of such a mapping becomes in the flat form. *)
Definition prefixed (mkv : string * value) : string * value :=
  ("metrics_" ++ fst mkv, snd mkv).

Definition flat_fields (kv : string * value) : dict :=
  let (k, v) := kv in
  if String.eqb k "metrics" then
    match v with
    | VDict d => map prefixed d
    | _ => []
    end
  else if String.eqb k "hashtags" then
    match v with
    | VList l =>
        match strings_of l with
        | Some tags => [("hashtags", VStr (join "," tags))]
        | None => []
        end
    | _ => []
    end
  else [kv].

Definition flat_image (m : dict) : dict := flat_map flat_fields m.

(** The fields other than [metrics], and the items of [metrics]. *)
Definition plain_fields (kv : string * value) : dict :=
  if String.eqb (fst kv) "metrics" then [] else [kv].

Definition metric_fields (kv : string * value) : dict :=
  if String.eqb (fst kv) "metrics" then
    match snd kv with
    | VDict d => d
    | _ => []
    end
  else [].

Definition plain_part (m : dict) : dict := flat_map plain_fields m.
Definition metrics_part (m : dict) : dict := flat_map metric_fields m.

(** Every value of the dict is a scalar. *)
Definition all_scalar (d : dict) : Prop :=
  forall k v, In (k, v) d -> is_scalar v = true.

(** The sum of a list of integers. *)
Fixpoint total (xs : list Z) : Z :=
  match xs with
  | [] => 0
  | x :: xs' => x + total xs'
  end.

(** A call that does not divide by zero. *)
Definition undivided {A : Type} (r : result A) : Prop := r <> Raise ZeroDivisionError.

(** The metrics of a post are numbers. *)
Definition is_number (v : value) : bool :=
  match num_of v with
  | Some _ => true
  | None => false
  end.

Definition numeric_metrics (p : dict) : bool :=
  match dict_get "metrics" p with
  | None => true
  | Some (VDict d) => forallb (fun kv => is_number (snd kv)) d
  | Some _ => false
  end.

(** What [_unflatten_metadata] reads off a field of a flat dict: a field
    that is no metric is kept, the hashtags split again from their
    comma-joined text; a metric goes under its own key. *)
Definition restored_field (kv : string * value) : string * value :=
  match snd kv with
  | VStr s =>
      if String.eqb (fst kv) "hashtags"
      then ("hashtags", VectorStore.restore_hashtags s)
      else kv
  | _ => kv
  end.

Definition read_plain (kv : string * value) : dict :=
  if startswith (fst kv) "metrics_" then [] else [restored_field kv].

Definition read_metric (kv : string * value) : dict :=
  if startswith (fst kv) "metrics_"
  then [(str_replace (fst kv) "metrics_" "", snd kv)]
  else [].

(** [p] carries the id, the caption, the timestamp and the metrics of [r],
    the metrics in any order. *)
Definition carries (r : ContentRecord) (p : dict) : Prop :=
  dict_get "id" p = Some (VStr (id r)) /\
  dict_get "caption" p = Some (VStr (caption r)) /\
  dict_get "timestamp" p = Some (VStr (timestamp r)) /\
  exists d, dict_get "metrics" p = Some (VDict d) /\
            Permutation d (metrics_dict (metrics r)).

End Shapes.

(* ================================================================== *)
(** ** Sample data *)
(* ================================================================== *)

Module Samples.
Import Py.

Definition sample_record : Shapes.ContentRecord :=
  Shapes.mkRecord "post_001" "Morning run" "reel" "2025-01-10T08:30:00Z"
    (Shapes.mkMetrics 1250 87 45 320 15000 18500 (113 # 10))
    ["running"; "fitness"] "https://example.org/p/1".

(** The same post with a hashtag that holds a comma. *)
Definition comma_record : Shapes.ContentRecord :=
  Shapes.mkRecord "post_001" "Morning run" "reel" "2025-01-10T08:30:00Z"
    (Shapes.mkMetrics 1250 87 45 320 15000 18500 (113 # 10))
    ["fit,ness"] "https://example.org/p/1".

(** A retrieved post with 100 likes and 10 comments, as the collection
    stores it. *)
Definition liked_hit : VectorStore.hit :=
  VectorStore.mkHit "post_001" (1 # 10) "Caption: Morning run"
    [ ("caption", VStr "Morning run");
      ("metrics_likes", VInt 100);
      ("metrics_comments", VInt 10);
      ("hashtags", VStr "running,fitness") ].

Definition sample_profile : dict :=
  [ ("username", VStr "coach"); ("followers", VInt 15000);
    ("avg_engagement_rate", VFloat (45 # 10)); ("niche", VStr "fitness");
    ("posting_frequency", VStr "daily") ].

(** A profile without the [followers] field. *)
Definition bare_profile : dict := [ ("username", VStr "coach") ].

Definition sample_repr (v : value) : string := "4.5".
Definition sample_comma (q : Q) : string := "4.5".
Definition sample_prompts (t : PromptManager.PromptType) : option string :=
  Some "Tu es un analyste.".

(** A client whose streamed call yields three fragments and whose blocking
    call returns their concatenation. *)
Definition hello_client : LlmClient.client :=
  LlmClient.mkClient
    (fun _ _ => Ok "Hello world")
    (fun _ _ => LlmClient.Stream ["Hello"; " "; "world"] None).

Definition hello_pipeline : AgentModes.pipeline :=
  AgentModes.mkPipeline (fun _ _ => []) (Some sample_profile) hello_client.

Definition fresh_agent : Agent.agent := Agent.mkAgent [] AgentModes.CONTENT_ANALYST.

(** A server that streams the same three fragments as chunks. *)
Definition chunk_of (delta finish : value) : value :=
  VDict [ ("choices", VList [ VDict [ ("delta", delta); ("finish_reason", finish) ] ]) ].

Definition hello_loads (line : string) : option value :=
  if String.eqb line "{1}"
  then Some (chunk_of (VDict [("content", VStr "Hello")]) VNone)
  else if String.eqb line "{2}"
  then Some (chunk_of (VDict [("content", VStr " ")]) VNone)
  else if String.eqb line "{3}"
  then Some (chunk_of (VDict [("content", VStr "world")]) (VStr "stop"))
  else if String.eqb line "{4}"
  then Some (chunk_of VNone (VStr "stop"))
  else if String.eqb line "{}" then Some (VDict [])
  else None.

Definition hello_lines : list LlmClient.raw_line :=
  [ LlmClient.Text "data: {1}"; LlmClient.Text ""; LlmClient.Undecodable;
    LlmClient.Text "data: {2}"; LlmClient.Text ": keep-alive";
    LlmClient.Text "data: {3}"; LlmClient.Text "data: [DONE]" ].

(** Two stored posts and a profile without followers. *)
Definition older_post : dict :=
  [ ("id", VStr "post_001"); ("timestamp", VStr "2025-01-10T08:30:00Z");
    ("metrics", VDict [ ("likes", VInt 10); ("reach", VInt 500);
                        ("engagement_rate", VFloat (2 # 1)) ]) ].

Definition newer_post : dict :=
  [ ("id", VStr "post_002"); ("timestamp", VStr "2025-02-01T09:00:00Z");
    ("metrics", VDict [ ("likes", VInt 30); ("comments", VInt 5);
                        ("reach", VInt 700);
                        ("engagement_rate", VFloat (4 # 1)) ]) ].

Definition no_followers : dict := [ ("username", VStr "coach"); ("followers", VInt 0) ].

(** Two posts stored with metadata that carry no [id], the second one
    the latest. *)
Definition latest_without_id : dict :=
  [ ("timestamp", VStr "2025-02-01T09:00:00Z");
    ("metrics", VDict [ ("likes", VInt 30); ("reach", VInt 700) ]) ].

Definition posts_without_id : list dict :=
  [ [ ("timestamp", VStr "2025-01-10T08:30:00Z");
      ("metrics", VDict [ ("likes", VInt 10); ("reach", VInt 500) ]) ];
    latest_without_id ].

(** The rest of the voice summary, reduced to the metrics. *)
Definition keep_metrics (post impact_metrics : dict) : result dict := Ok impact_metrics.

(** A client whose connection drops after one fragment. *)
Definition dropped_client : LlmClient.client :=
  LlmClient.mkClient
    (fun _ _ => Raise (LlmClient.network_error "connection reset"))
    (fun _ _ => LlmClient.Stream ["Hel"] (Some (LlmClient.network_error "connection reset"))).

Definition dropped_pipeline : AgentModes.pipeline :=
  AgentModes.mkPipeline (fun _ _ => []) (Some sample_profile) dropped_client.

(** A pipeline whose profile was loaded without [followers]. *)
Definition bare_pipeline : AgentModes.pipeline :=
  AgentModes.mkPipeline (fun _ _ => []) (Some bare_profile) hello_client.

(** The sample post as the collection returns it after indexing. *)
Definition stored_hit : VectorStore.hit :=
  VectorStore.mkHit "post_001" (1 # 10) "Caption: Morning run"
    (Shapes.flat_image (Shapes.to_dict sample_record)).

(** Posts that carry their likes and comments at the top level. *)
Definition flat_posts : list dict :=
  [ [("id", VStr "a"); ("likes", VInt 10); ("comments", VInt 1)];
    [("id", VStr "b"); ("likes", VInt 15)];
    [("id", VStr "c"); ("likes", VInt 20); ("comments", VInt 4)] ].

(** An earlier post, and the collection after both posts were added; it
    hands the fields of a metadata back in the reverse order. *)
Definition earlier_record : Shapes.ContentRecord :=
  Shapes.mkRecord "post_000" "Rest day" "photo" "2025-01-08T18:00:00Z"
    (Shapes.mkMetrics 300 12 3 20 4000 5200 (42 # 10))
    ["rest,day"] "https://example.org/p/0".

Definition two_entries : list VectorStore.entry :=
  [ VectorStore.mkEntry "post_000" "Caption: Rest day"
      (List.rev (Shapes.flat_image (Shapes.to_dict earlier_record)));
    VectorStore.mkEntry "post_001" "Caption: Morning run"
      (List.rev (Shapes.flat_image (Shapes.to_dict sample_record))) ].

End Samples.

(* ================================================================== *)
(** * Properties *)
(* ================================================================== *)

Import Py.

(** ** Dicts *)

Lemma mem_In (k : string) (l : list string) : mem k l = true <-> In k l.
Proof.
  induction l as [|a l IH]; simpl.
  - split; [discriminate | tauto].
  - rewrite orb_true_iff, IH, String.eqb_eq. intuition congruence.
Qed.

Lemma mem_false_In (k : string) (l : list string) : mem k l = false <-> ~ In k l.
Proof.
  rewrite <- mem_In. destruct (mem k l); intuition congruence.
Qed.

Lemma distinct_NoDup (l : list string) : distinct l = true <-> NoDup l.
Proof.
  induction l as [|a l IH]; simpl.
  - split; [constructor | reflexivity].
  - rewrite andb_true_iff, negb_true_iff, mem_false_In, IH.
    split.
    + intros [H1 H2]. now constructor.
    + intros H. inversion H; subst. tauto.
Qed.

Lemma dict_get_In {A : Type} (k : string) (v : A) (d : list (string * A)) :
  dict_get k d = Some v -> In (k, v) d.
Proof.
  induction d as [|[k' v'] d IH]; simpl; [discriminate|].
  destruct (String.eqb k k') eqn:E.
  - apply String.eqb_eq in E. intros [= ->]. subst. now left.
  - intros H. right. now apply IH.
Qed.

Lemma dict_get_None {A : Type} (k : string) (d : list (string * A)) :
  dict_get k d = None <-> ~ In k (keys d).
Proof.
  induction d as [|[k' v'] d IH]; simpl.
  - tauto.
  - destruct (String.eqb k k') eqn:E.
    + apply String.eqb_eq in E. subst. split; [discriminate | tauto].
    + apply String.eqb_neq in E. rewrite IH. intuition congruence.
Qed.

Lemma In_dict_get {A : Type} (k : string) (v : A) (d : list (string * A)) :
  NoDup (keys d) -> In (k, v) d -> dict_get k d = Some v.
Proof.
  induction d as [|[k' v'] d IH]; simpl; [tauto|].
  intros Hnd [H|H].
  - injection H as -> ->. now rewrite String.eqb_refl.
  - inversion Hnd; subst.
    destruct (String.eqb k k') eqn:E.
    + apply String.eqb_eq in E. subst. exfalso. apply H2.
      change k' with (fst (k', v)). now apply in_map.
    + now apply IH.
Qed.

Lemma dict_get_set_same {A : Type} (k : string) (v : A) (d : list (string * A)) :
  dict_get k (dict_set k v d) = Some v.
Proof.
  induction d as [|[k' v'] d IH]; simpl.
  - now rewrite String.eqb_refl.
  - destruct (String.eqb k k') eqn:E; simpl.
    + now rewrite String.eqb_refl.
    + now rewrite E.
Qed.

Lemma dict_get_set_other {A : Type} (k k' : string) (v : A) (d : list (string * A)) :
  k <> k' -> dict_get k (dict_set k' v d) = dict_get k d.
Proof.
  intros Hne. induction d as [|[k0 v0] d IH]; simpl.
  - apply String.eqb_neq in Hne. now rewrite Hne.
  - destruct (String.eqb k' k0) eqn:E; simpl.
    + apply String.eqb_eq in E. subst k0.
      apply String.eqb_neq in Hne. now rewrite Hne.
    + now rewrite IH.
Qed.

Lemma dict_set_fresh {A : Type} (k : string) (v : A) (d : list (string * A)) :
  ~ In k (keys d) -> dict_set k v d = (d ++ [(k, v)])%list.
Proof.
  induction d as [|[k' v'] d IH]; simpl; intros H; [reflexivity|].
  destruct (String.eqb k k') eqn:E.
  - apply String.eqb_eq in E. subst. tauto.
  - f_equal. apply IH. tauto.
Qed.

Lemma keys_dict_set {A : Type} (k : string) (v : A) (d : list (string * A)) :
  forall x, In x (keys (dict_set k v d)) <-> x = k \/ In x (keys d).
Proof.
  induction d as [|[k' v'] d IH]; simpl; intros x.
  - intuition congruence.
  - destruct (String.eqb k k') eqn:E; simpl.
    + apply String.eqb_eq in E. subst. intuition congruence.
    + rewrite IH. intuition congruence.
Qed.

Lemma NoDup_dict_set {A : Type} (k : string) (v : A) (d : list (string * A)) :
  NoDup (keys d) -> NoDup (keys (dict_set k v d)).
Proof.
  induction d as [|[k' v'] d IH]; simpl; intros H.
  - repeat constructor. simpl. tauto.
  - inversion H; subst.
    destruct (String.eqb k k') eqn:E; simpl.
    + apply String.eqb_eq in E. subst. now constructor.
    + constructor; [|now apply IH].
      rewrite keys_dict_set. apply String.eqb_neq in E. intuition congruence.
Qed.

(** ** Strings *)

Lemma replace_from_absent (old new s : string) :
  contains old s = false -> replace_from old new 0 s = s.
Proof.
  induction s as [|c s IH]; [reflexivity|].
  intros H. cbn [contains] in H. apply orb_false_iff in H as [Hp Hc].
  cbn [replace_from]. rewrite Hp. f_equal. now apply IH.
Qed.

Lemma strip_metrics_prefix (k : string) :
  contains "metrics_" k = false -> str_replace ("metrics_" ++ k) "metrics_" "" = k.
Proof.
  intros H. unfold str_replace. cbn.
  replace (String.prefix "" k) with true by (destruct k; reflexivity).
  now apply replace_from_absent.
Qed.

Lemma startswith_metrics_prefix (k : string) :
  startswith ("metrics_" ++ k) "metrics_" = true.
Proof. unfold startswith. cbn. destruct k; reflexivity. Qed.

Lemma append_assoc (s t u : string) : (s ++ t) ++ u = s ++ t ++ u.
Proof. induction s as [|c s IH]; cbn; [reflexivity | now rewrite IH]. Qed.

Lemma split_on_absent (c : ascii) (s : string) :
  has_char c s = false -> split_on c s = [s].
Proof.
  induction s as [|a s IH]; [reflexivity|].
  cbn. intros H. apply orb_false_iff in H as [Ha Hs].
  rewrite Ha, (IH Hs). reflexivity.
Qed.

Lemma split_on_app (c : ascii) (s t : string) :
  has_char c s = false -> split_on c (s ++ String c t) = s :: split_on c t.
Proof.
  induction s as [|a s IH]; cbn; intros H.
  - now rewrite Ascii.eqb_refl.
  - apply orb_false_iff in H as [Ha Hs]. rewrite Ha, (IH Hs). reflexivity.
Qed.

Lemma split_join (tags : list string) :
  forallb (fun s => negb (has_char comma s)) tags = true ->
  tags <> [] ->
  split_on comma (join "," tags) = tags.
Proof.
  induction tags as [|x tags IH]; [congruence|].
  intros H _. cbn [forallb] in H.
  apply andb_true_iff in H as [Hx Ht]. apply negb_true_iff in Hx.
  destruct tags as [|y tags].
  - now apply split_on_absent.
  - change (join "," (x :: y :: tags)) with (x ++ String comma (join "," (y :: tags))).
    rewrite split_on_app by assumption. f_equal. apply IH; [assumption | congruence].
Qed.

Lemma join_nil (tags : list string) :
  join "," tags = "" -> tags = [] \/ tags = [""].
Proof.
  destruct tags as [|x [|y tags]]; cbn.
  - now left.
  - intros ->. now right.
  - intros H. destruct x; cbn in H; discriminate.
Qed.

Lemma restore_join (tags : list string) :
  Shapes.tags_ok tags = true ->
  VectorStore.restore_hashtags (join "," tags) = VList (map VStr tags).
Proof.
  unfold Shapes.tags_ok, VectorStore.restore_hashtags.
  intros H. apply andb_true_iff in H as [Hc Hs].
  destruct (String.eqb (join "," tags) "") eqn:E.
  - apply String.eqb_eq in E. apply join_nil in E as [-> | ->]; [reflexivity|].
    discriminate.
  - destruct tags as [|x tags]; [discriminate|].
    rewrite split_join; [reflexivity | assumption | congruence].
Qed.

Lemma strings_of_sound (l : list value) (tags : list string) :
  Shapes.strings_of l = Some tags -> l = map VStr tags /\ strs_of l = Ok tags.
Proof.
  revert tags. induction l as [|v l IH]; cbn; intros tags H.
  - injection H as <-. now split.
  - destruct v; cbn in H; try discriminate.
    destruct (Shapes.strings_of l) as [r|]; [|discriminate].
    injection H as <-. destruct (IH r eq_refl) as [-> Hs].
    cbn. rewrite Hs. now split.
Qed.

(** ** The metadata codec: the [hashtags] field *)

Section HashtagsField.

Import VectorStore.
Variable json_dumps : value -> string.

Lemma hashtags_not_metric : startswith "hashtags" "metrics_" = false.
Proof. reflexivity. Qed.

Lemma startswith_neq (k mk : string) :
  startswith k "metrics_" = false -> k <> "metrics_" ++ mk.
Proof.
  intros H ->. now rewrite startswith_metrics_prefix in H.
Qed.

Lemma flatten_metrics_get (k : string) (metrics flat : dict) :
  startswith k "metrics_" = false ->
  dict_get k (flatten_metrics metrics flat) = dict_get k flat.
Proof.
  intros Hk. revert flat.
  induction metrics as [|[mk mv] rest IH]; intros flat; cbn; [reflexivity|].
  rewrite IH. apply dict_get_set_other. now apply startswith_neq.
Qed.

Lemma flatten_metrics_NoDup (metrics flat : dict) :
  NoDup (keys flat) -> NoDup (keys (flatten_metrics metrics flat)).
Proof.
  revert flat. induction metrics as [|[mk mv] rest IH]; intros flat H; cbn.
  - assumption.
  - apply IH. now apply NoDup_dict_set.
Qed.

Lemma flatten_item_NoDup (flat flat' : dict) (key : string) (v : value) :
  flatten_item json_dumps flat key v = Ok flat' ->
  NoDup (keys flat) -> NoDup (keys flat').
Proof.
  intros H Hnd. destruct v; cbn in H;
    try (injection H as <-; now apply NoDup_dict_set).
  - destruct (String.eqb key "hashtags").
    + destruct (py_join "," l); cbn in H; [|discriminate].
      injection H as <-. now apply NoDup_dict_set.
    + injection H as <-. now apply NoDup_dict_set.
  - destruct (String.eqb key "metrics"); injection H as <-.
    + now apply flatten_metrics_NoDup.
    + now apply NoDup_dict_set.
Qed.

Lemma flatten_loop_NoDup (items flat r : dict) :
  flatten_loop json_dumps items flat = Ok r ->
  NoDup (keys flat) -> NoDup (keys r).
Proof.
  revert flat. induction items as [|[key v] rest IH]; intros flat H Hnd; cbn in H.
  - now injection H as <-.
  - destruct (flatten_item json_dumps flat key v) as [flat'|] eqn:E; [|discriminate].
    cbn in H. eapply IH; [eassumption|]. eapply flatten_item_NoDup; eassumption.
Qed.

(** A field other than [hashtags] never fails and leaves the flat
    [hashtags] field as it is. *)
Lemma flatten_item_other (flat : dict) (key : string) (v : value) :
  key <> "hashtags" ->
  exists flat', flatten_item json_dumps flat key v = Ok flat' /\
                dict_get "hashtags" flat' = dict_get "hashtags" flat.
Proof.
  intros Hne.
  assert (Hset : forall w, dict_get "hashtags" (dict_set key w flat)
                           = dict_get "hashtags" flat)
    by (intros w; apply dict_get_set_other; congruence).
  destruct v; cbn; try (eexists; split; [reflexivity | apply Hset]).
  - apply String.eqb_neq in Hne. rewrite Hne.
    eexists; split; [reflexivity | apply Hset].
  - destruct (String.eqb key "metrics").
    + eexists; split; [reflexivity|].
      apply flatten_metrics_get. exact hashtags_not_metric.
    + eexists; split; [reflexivity | apply Hset].
Qed.

Lemma flatten_loop_no_hashtags (items flat : dict) :
  ~ In "hashtags" (keys items) ->
  exists r, flatten_loop json_dumps items flat = Ok r /\
            dict_get "hashtags" r = dict_get "hashtags" flat.
Proof.
  revert flat. induction items as [|[key v] rest IH]; intros flat H; cbn.
  - now exists flat.
  - cbn in H.
    destruct (flatten_item_other flat key v) as (flat' & -> & Hg); [tauto|].
    cbn. destruct (IH flat') as (r & -> & Hr); [tauto|].
    exists r. split; [reflexivity | congruence].
Qed.

Lemma flatten_loop_empty_hashtags (items flat : dict) :
  NoDup (keys items) ->
  dict_get "hashtags" items = Some (VList []) ->
  exists r, flatten_loop json_dumps items flat = Ok r /\
            dict_get "hashtags" r = Some (VStr "").
Proof.
  revert flat. induction items as [|[key v] rest IH]; intros flat Hnd Hg;
    cbn [flatten_loop dict_get keys map fst] in *.
  - discriminate.
  - inversion Hnd; subst.
    destruct (String.eqb "hashtags" key) eqn:E.
    + apply String.eqb_eq in E. subst key. injection Hg as ->. cbn.
      destruct (flatten_loop_no_hashtags rest (dict_set "hashtags" (VStr "") flat))
        as (r & -> & Hr); [assumption|].
      exists r. split; [reflexivity|]. now rewrite Hr, dict_get_set_same.
    + apply String.eqb_neq in E.
      destruct (flatten_item_other flat key v) as (flat' & -> & _); [congruence|].
      cbn. now apply IH.
Qed.

Lemma unflatten_item_other (acc : dict * dict) (key : string) (v : value) :
  key <> "hashtags" ->
  dict_get "hashtags" (fst (unflatten_item acc key v)) = dict_get "hashtags" (fst acc).
Proof.
  intros Hne. destruct acc as [metadata metrics]. unfold unflatten_item.
  assert (Hset : forall w, dict_get "hashtags" (dict_set key w metadata)
                           = dict_get "hashtags" metadata)
    by (intros w; apply dict_get_set_other; congruence).
  destruct (startswith key "metrics_"); [reflexivity|].
  destruct v; cbn; try apply Hset.
  apply String.eqb_neq in Hne. rewrite Hne. apply Hset.
Qed.

Lemma unflatten_loop_no_hashtags (items : dict) (acc : dict * dict) :
  ~ In "hashtags" (keys items) ->
  dict_get "hashtags" (fst (unflatten_loop items acc)) = dict_get "hashtags" (fst acc).
Proof.
  revert acc. induction items as [|[key v] rest IH]; intros acc H; cbn in *.
  - reflexivity.
  - rewrite IH by tauto. apply unflatten_item_other. intros ->. tauto.
Qed.

Lemma unflatten_loop_hashtags (items : dict) (acc : dict * dict) (s : string) :
  NoDup (keys items) ->
  dict_get "hashtags" items = Some (VStr s) ->
  dict_get "hashtags" (fst (unflatten_loop items acc)) = Some (restore_hashtags s).
Proof.
  revert acc. induction items as [|[key v] rest IH]; intros acc Hnd Hg;
    cbn [unflatten_loop dict_get keys map fst] in *.
  - discriminate.
  - inversion Hnd; subst.
    destruct (String.eqb "hashtags" key) eqn:E.
    + apply String.eqb_eq in E. subst key. injection Hg as ->.
      rewrite unflatten_loop_no_hashtags by assumption.
      destruct acc as [metadata metrics]. cbn. apply dict_get_set_same.
    + now apply IH.
Qed.

Lemma unflatten_get_hashtags (flat : dict) :
  dict_get "hashtags" (_unflatten_metadata flat)
  = dict_get "hashtags" (fst (unflatten_loop flat ([], []))).
Proof.
  unfold _unflatten_metadata.
  destruct (unflatten_loop flat ([], [])) as [metadata metrics]. cbn.
  destruct metrics; [reflexivity|].
  apply dict_get_set_other. discriminate.
Qed.

(** C2. For every mapping (a dict, so with distinct keys) whose [hashtags]
    field is the empty list, [_flatten_metadata] succeeds and stores the
    empty string under [hashtags], and [_unflatten_metadata] of that flat
    form holds the empty list under [hashtags], not the one-element list
    of the empty string. *)
Theorem empty_hashtags_roundtrip (m : dict) :
  dict_wf m = true ->
  dict_get "hashtags" m = Some (VList []) ->
  exists flat,
    _flatten_metadata json_dumps m = Ok flat /\
    dict_get "hashtags" flat = Some (VStr "") /\
    dict_get "hashtags" (_unflatten_metadata flat) = Some (VList []) /\
    dict_get "hashtags" (_unflatten_metadata flat) <> Some (VList [VStr ""]).
Proof.
  intros Hwf Hg. apply distinct_NoDup in Hwf.
  destruct (flatten_loop_empty_hashtags m [] Hwf Hg) as (flat & Hf & Hh).
  exists flat. split; [exact Hf|]. split; [exact Hh|].
  assert (Hnd : NoDup (keys flat))
    by (eapply flatten_loop_NoDup; [exact Hf | constructor]).
  assert (Hu : dict_get "hashtags" (_unflatten_metadata flat) = Some (VList [])).
  { rewrite unflatten_get_hashtags.
    now rewrite (unflatten_loop_hashtags flat ([], []) "" Hnd Hh). }
  split; [exact Hu|]. rewrite Hu. discriminate.
Qed.

End HashtagsField.

Lemma empty_hashtags_roundtrip_witness :
  exists flat,
    VectorStore._flatten_metadata (fun _ => "null")
      [("id", VStr "post_001"); ("hashtags", VList []);
       ("metrics", VDict [("likes", VInt 12)])] = Ok flat /\
    dict_get "hashtags" flat = Some (VStr "") /\
    dict_get "hashtags" (VectorStore._unflatten_metadata flat) = Some (VList []) /\
    dict_get "hashtags" (VectorStore._unflatten_metadata flat) <> Some (VList [VStr ""]).
Proof.
  apply (empty_hashtags_roundtrip (fun _ => "null")); reflexivity.
Defined.

(** ** The metadata codec: the flat form of a mapping of known shapes *)

Lemma NoDup_app_iff {A : Type} (l1 l2 : list A) :
  NoDup (l1 ++ l2)%list <->
  NoDup l1 /\ NoDup l2 /\ (forall a, In a l1 -> ~ In a l2).
Proof.
  induction l1 as [|x l1 IH]; cbn.
  - split; [intros H; repeat split; [constructor | assumption | tauto] | tauto].
  - split.
    + intros H. inversion H as [|? ? Hx Hnd]; subst.
      apply IH in Hnd as (H1 & H2 & H3). rewrite in_app_iff in Hx.
      repeat split; [constructor; tauto | assumption |].
      intros a [<- | Ha]; [tauto | now apply H3].
    + intros (H1 & H2 & H3). inversion H1; subst.
      constructor.
      * rewrite in_app_iff. intros [?|?]; [tauto|]. now apply (H3 x); [left|].
      * apply IH. repeat split; [assumption | assumption |].
        intros a Ha. apply H3. now right.
Qed.

Lemma keys_app (d1 d2 : dict) : keys (d1 ++ d2)%list = (keys d1 ++ keys d2)%list.
Proof. apply map_app. Qed.

Lemma keys_prefixed (d : dict) :
  keys (map Shapes.prefixed d) = map (fun k => "metrics_" ++ k) (keys d).
Proof. unfold keys. rewrite !map_map. reflexivity. Qed.

Lemma append_inj_l (p s t : string) : p ++ s = p ++ t -> s = t.
Proof. induction p as [|c p IH]; cbn; [tauto | intros [= H]; auto]. Qed.

Lemma NoDup_prefixed (l : list string) :
  NoDup l -> NoDup (map (fun k => "metrics_" ++ k) l).
Proof.
  induction 1 as [|x l Hx Hnd IH]; cbn; constructor; [|assumption].
  rewrite in_map_iff. intros (y & Hy & Hin).
  apply (append_inj_l "metrics_") in Hy. now subst.
Qed.

Section KnownShapes.

Import VectorStore Shapes.
Variable json_dumps : value -> string.

Lemma field_ok_metrics (v : value) :
  field_ok ("metrics", v) = true -> exists d, v = VDict d /\ metrics_ok d = true.
Proof. cbn. destruct v; try discriminate. intros H. now exists d. Qed.

(** The keys a field writes in the flat form: its own key, which does not
    start with ["metrics_"], or prefixed keys when the field is
    [metrics]. *)
Lemma flat_fields_keys (k : string) (v : value) (x : string) :
  field_ok (k, v) = true ->
  In x (keys (flat_fields (k, v))) ->
  (startswith x "metrics_" = false /\ x = k) \/
  (startswith x "metrics_" = true /\ k = "metrics").
Proof.
  unfold field_ok, flat_fields.
  destruct (String.eqb k "metrics") eqn:Em.
  - apply String.eqb_eq in Em. subst k. destruct v; try discriminate.
    intros _ Hin. right. split; [|reflexivity].
    rewrite keys_prefixed, in_map_iff in Hin. destruct Hin as (y & <- & _).
    apply startswith_metrics_prefix.
  - destruct (String.eqb k "hashtags") eqn:Eh.
    + apply String.eqb_eq in Eh. subst k. destruct v; try discriminate.
      destruct (strings_of l); [|discriminate].
      intros _ [<- | []]. left. now split.
    + intros H [<- | []]. apply andb_true_iff in H as [H _].
      apply negb_true_iff in H. left. now split.
Qed.

Lemma flat_fields_NoDup (k : string) (v : value) :
  field_ok (k, v) = true -> NoDup (keys (flat_fields (k, v))).
Proof.
  unfold field_ok, flat_fields.
  destruct (String.eqb k "metrics").
  - destruct v; try discriminate. unfold metrics_ok. intros H.
    apply andb_true_iff in H as [H _]. apply andb_true_iff in H as [_ H].
    rewrite keys_prefixed. apply NoDup_prefixed. now apply distinct_NoDup.
  - destruct (String.eqb k "hashtags").
    + destruct v; try discriminate. destruct (strings_of l); [|discriminate].
      intros _. repeat constructor. cbn. tauto.
    + intros _. repeat constructor. cbn. tauto.
Qed.

Lemma flat_image_keys (m : dict) (x : string) :
  forallb field_ok m = true ->
  In x (keys (flat_image m)) ->
  (startswith x "metrics_" = false /\ In x (keys m)) \/
  (startswith x "metrics_" = true /\ In "metrics" (keys m)).
Proof.
  induction m as [|[k v] rest IH]; cbn [flat_image flat_map forallb].
  - intros _ [].
  - intros H. apply andb_true_iff in H as [Hf Hr].
    fold (flat_image rest). rewrite keys_app, in_app_iff. intros [Hin | Hin].
    + destruct (flat_fields_keys k v x Hf Hin) as [[H1 ->] | [H1 ->]];
        [left | right]; (split; [assumption | now left]).
    + destruct (IH Hr Hin) as [[H1 H2] | [H1 H2]];
        [left | right]; (split; [assumption | now right]).
Qed.

Lemma flat_image_NoDup (m : dict) :
  NoDup (keys m) -> forallb field_ok m = true -> NoDup (keys (flat_image m)).
Proof.
  induction m as [|[k v] rest IH]; cbn [flat_image flat_map forallb].
  - constructor.
  - intros Hnd H. apply andb_true_iff in H as [Hf Hr].
    inversion Hnd as [|? ? Hk Hnd']; subst.
    fold (flat_image rest). rewrite keys_app. apply NoDup_app_iff.
    split; [now apply flat_fields_NoDup|]. split; [now apply IH|].
    intros x Hx Hx'.
    destruct (flat_fields_keys k v x Hf Hx) as [[H1 ->] | [H1 ->]];
      destruct (flat_image_keys rest _ Hr Hx') as [[H2 H3] | [H2 H3]];
      solve [tauto | congruence].
Qed.

Lemma flatten_metrics_fresh (d flat : dict) :
  NoDup (keys flat ++ keys (map prefixed d))%list ->
  flatten_metrics d flat = (flat ++ map prefixed d)%list.
Proof.
  revert flat. induction d as [|[mk mv] rest IH]; intros flat H; cbn.
  - now rewrite app_nil_r.
  - cbn in H. pose proof (NoDup_remove_2 _ _ _ H) as Hfresh.
    rewrite dict_set_fresh by (intros Hin; apply Hfresh, in_app_iff; now left).
    rewrite IH.
    + now rewrite <- app_assoc.
    + rewrite keys_app, <- app_assoc. exact H.
Qed.

Lemma flatten_item_fresh (flat : dict) (k : string) (v : value) :
  field_ok (k, v) = true ->
  NoDup (keys flat ++ keys (flat_fields (k, v)))%list ->
  flatten_item json_dumps flat k v = Ok (flat ++ flat_fields (k, v))%list.
Proof.
  unfold field_ok, flat_fields, flatten_item.
  destruct (String.eqb k "metrics") eqn:Em.
  - destruct v; try discriminate. intros _ H.
    now rewrite flatten_metrics_fresh.
  - destruct (String.eqb k "hashtags") eqn:Eh.
    + apply String.eqb_eq in Eh. subst k. destruct v; try discriminate.
      destruct (strings_of l) as [tags|] eqn:Es; [|discriminate].
      intros _ H. unfold py_join.
      destruct (strings_of_sound l tags Es) as [_ ->]. cbn.
      rewrite dict_set_fresh; [reflexivity|].
      cbn in H. intros Hin. apply (NoDup_remove_2 _ _ _ H).
      rewrite app_nil_r. exact Hin.
    + intros H Hnd. apply andb_true_iff in H as [_ Hs].
      assert (Hset : dict_set k v flat = (flat ++ [(k, v)])%list).
      { apply dict_set_fresh. cbn in Hnd. intros Hin.
        apply (NoDup_remove_2 _ _ _ Hnd). rewrite app_nil_r. exact Hin. }
      destruct v; try discriminate; now rewrite Hset.
Qed.

Lemma flatten_loop_fresh (m flat : dict) :
  forallb field_ok m = true ->
  NoDup (keys flat ++ keys (flat_image m))%list ->
  flatten_loop json_dumps m flat = Ok (flat ++ flat_image m)%list.
Proof.
  revert flat.
  induction m as [|[k v] rest IH]; intros flat H Hnd;
    cbn [flat_image flat_map forallb flatten_loop] in *.
  - now rewrite app_nil_r.
  - apply andb_true_iff in H as [Hf Hr]. fold (flat_image rest) in *.
    rewrite keys_app, app_assoc in Hnd.
    rewrite flatten_item_fresh; [|assumption | now apply NoDup_app_remove_r in Hnd].
    cbn [bind]. rewrite IH; [now rewrite <- app_assoc | assumption |].
    now rewrite keys_app.
Qed.

(** The flat form of a mapping of known shapes. *)
Lemma flatten_known (m : dict) :
  codec_safe m = true -> _flatten_metadata json_dumps m = Ok (flat_image m).
Proof.
  unfold codec_safe, dict_wf. intros H. apply andb_true_iff in H as [Hd Hf].
  apply distinct_NoDup in Hd. unfold _flatten_metadata.
  rewrite flatten_loop_fresh; [reflexivity | assumption |].
  cbn. now apply flat_image_NoDup.
Qed.

End KnownShapes.

(** ** The metadata codec: reading the flat form back *)

Section ReadBack.

Import VectorStore Shapes.

Lemma unflatten_loop_app (l1 l2 : dict) (acc : dict * dict) :
  unflatten_loop (l1 ++ l2)%list acc = unflatten_loop l2 (unflatten_loop l1 acc).
Proof.
  revert acc. induction l1 as [|[k v] l1 IH]; intros acc; cbn; [reflexivity|].
  apply IH.
Qed.

Lemma unflatten_prefixed (d md mt : dict) :
  forallb (fun kv => negb (contains "metrics_" (fst kv)) && is_scalar (snd kv)) d = true ->
  NoDup (keys mt ++ keys d)%list ->
  unflatten_loop (map prefixed d) (md, mt) = (md, (mt ++ d)%list).
Proof.
  revert mt. induction d as [|[mk mv] rest IH]; intros mt H Hnd;
    cbn [map prefixed fst snd unflatten_loop forallb] in *.
  - now rewrite app_nil_r.
  - apply andb_true_iff in H as [Hk Hr]. apply andb_true_iff in Hk as [Hk _].
    apply negb_true_iff in Hk.
    unfold unflatten_item. rewrite startswith_metrics_prefix, strip_metrics_prefix by assumption.
    rewrite dict_set_fresh.
    + rewrite IH; [now rewrite <- app_assoc | assumption |].
      rewrite keys_app, <- app_assoc. exact Hnd.
    + intros Hin. apply (NoDup_remove_2 _ _ _ Hnd), in_app_iff. now left.
Qed.

Lemma unflatten_fields (k : string) (v : value) (md mt : dict) :
  field_ok (k, v) = true ->
  NoDup (keys md ++ keys (plain_fields (k, v)))%list ->
  NoDup (keys mt ++ keys (metric_fields (k, v)))%list ->
  unflatten_loop (flat_fields (k, v)) (md, mt)
  = ((md ++ plain_fields (k, v))%list, (mt ++ metric_fields (k, v))%list).
Proof.
  unfold field_ok, flat_fields, plain_fields, metric_fields. cbn [fst snd].
  destruct (String.eqb k "metrics") eqn:Em.
  - destruct v; try discriminate. unfold metrics_ok. intros H _ Hnd.
    apply andb_true_iff in H as [_ H].
    rewrite unflatten_prefixed by assumption. now rewrite app_nil_r.
  - destruct (String.eqb k "hashtags") eqn:Eh.
    + apply String.eqb_eq in Eh. subst k. destruct v; try discriminate.
      destruct (strings_of l) as [tags|] eqn:Es; [|discriminate].
      intros Ht Hnd _. destruct (strings_of_sound l tags Es) as [-> _].
      cbn [unflatten_loop]. unfold unflatten_item.
      rewrite hashtags_not_metric, String.eqb_refl, restore_join by assumption.
      rewrite dict_set_fresh; [now rewrite app_nil_r|].
      intros Hin. apply (NoDup_remove_2 _ _ _ Hnd). rewrite app_nil_r. exact Hin.
    + intros H Hnd _. apply andb_true_iff in H as [Hp Hs].
      apply negb_true_iff in Hp.
      assert (Hset : dict_set k v md = (md ++ [(k, v)])%list).
      { apply dict_set_fresh. intros Hin.
        apply (NoDup_remove_2 _ _ _ Hnd). rewrite app_nil_r. exact Hin. }
      cbn [unflatten_loop]. unfold unflatten_item. rewrite Hp, app_nil_r.
      destruct v; try discriminate; try rewrite Eh; now rewrite Hset.
Qed.

Lemma unflatten_image (m md mt : dict) :
  forallb field_ok m = true ->
  NoDup (keys md ++ keys (plain_part m))%list ->
  NoDup (keys mt ++ keys (metrics_part m))%list ->
  unflatten_loop (flat_image m) (md, mt)
  = ((md ++ plain_part m)%list, (mt ++ metrics_part m)%list).
Proof.
  revert md mt.
  induction m as [|[k v] rest IH]; intros md mt H H1 H2;
    cbn [flat_image plain_part metrics_part flat_map forallb] in *.
  - cbn. now rewrite !app_nil_r.
  - apply andb_true_iff in H as [Hf Hr].
    fold (flat_image rest) (plain_part rest) (metrics_part rest) in *.
    rewrite keys_app, app_assoc in H1, H2.
    rewrite unflatten_loop_app, unflatten_fields;
      [| assumption | now apply NoDup_app_remove_r in H1
       | now apply NoDup_app_remove_r in H2].
    rewrite IH; [now rewrite <- !app_assoc | assumption | |]; now rewrite keys_app.
Qed.

Lemma no_metrics_parts (m : dict) :
  ~ In "metrics" (keys m) -> metrics_part m = [] /\ plain_part m = m.
Proof.
  induction m as [|[k v] rest IH]; cbn [metrics_part plain_part flat_map]; [now split|].
  intros H. fold (metrics_part rest) (plain_part rest).
  destruct IH as [-> ->]; [intros Hin; apply H; now right|].
  unfold metric_fields, plain_fields. cbn [fst snd].
  destruct (String.eqb k "metrics") eqn:E.
  - apply String.eqb_eq in E. subst. exfalso. apply H. now left.
  - now split.
Qed.

Lemma plain_part_keys (m : dict) (x : string) :
  In x (keys (plain_part m)) -> In x (keys m) /\ x <> "metrics".
Proof.
  induction m as [|[k v] rest IH]; cbn [plain_part flat_map]; [intros []|].
  fold (plain_part rest). rewrite keys_app, in_app_iff.
  unfold plain_fields. cbn [fst].
  destruct (String.eqb k "metrics") eqn:E; cbn.
  - intros [[] | H]. destruct (IH H). split; [now right | assumption].
  - apply String.eqb_neq in E.
    intros [[<- | []] | H]; [split; [now left | assumption]|].
    destruct (IH H). split; [now right | assumption].
Qed.

Lemma plain_part_NoDup (m : dict) : NoDup (keys m) -> NoDup (keys (plain_part m)).
Proof.
  induction m as [|[k v] rest IH]; cbn [plain_part flat_map]; [constructor|].
  intros H. inversion H as [|? ? Hk Hnd]; subst. fold (plain_part rest).
  unfold plain_fields. cbn [fst].
  destruct (String.eqb k "metrics"); cbn; [now apply IH|].
  constructor; [|now apply IH].
  intros Hin. apply plain_part_keys in Hin. tauto.
Qed.

(** A mapping with a [metrics] field: its items come back as they were,
    and the other fields followed by [metrics] are the mapping in another
    order. *)
Lemma with_metrics_parts (m : dict) :
  NoDup (keys m) -> forallb field_ok m = true -> In "metrics" (keys m) ->
  exists d, metrics_part m = d /\ metrics_ok d = true /\
            Permutation (plain_part m ++ [("metrics", VDict d)])%list m.
Proof.
  induction m as [|[k v] rest IH]; cbn [metrics_part plain_part flat_map forallb];
    [intros _ _ []|].
  intros Hnd H Hin. inversion Hnd as [|? ? Hk Hnd']; subst.
  apply andb_true_iff in H as [Hf Hr].
  fold (metrics_part rest) (plain_part rest).
  unfold metric_fields, plain_fields. cbn [fst snd].
  destruct (String.eqb k "metrics") eqn:E.
  - apply String.eqb_eq in E. subst k.
    destruct (field_ok_metrics v Hf) as (d & -> & Hd).
    destruct (no_metrics_parts rest Hk) as [-> ->].
    exists d. rewrite app_nil_r. split; [reflexivity|]. split; [assumption|].
    cbn. apply Permutation_sym, Permutation_cons_append.
  - apply String.eqb_neq in E.
    destruct Hin as [Hin | Hin]; [cbn in Hin; congruence|].
    destruct (IH Hnd' Hr Hin) as (d & -> & Hd & Hp).
    exists d. split; [reflexivity|]. split; [assumption|].
    cbn. now constructor.
Qed.

(** What [_unflatten_metadata] gives on the flat form of a mapping of
    known shapes. *)
Lemma unflatten_known (m : dict) :
  codec_safe m = true ->
  (~ In "metrics" (keys m) /\ _unflatten_metadata (flat_image m) = m) \/
  (exists d, metrics_ok d = true /\
             _unflatten_metadata (flat_image m)
             = (plain_part m ++ [("metrics", VDict d)])%list /\
             Permutation (plain_part m ++ [("metrics", VDict d)])%list m).
Proof.
  unfold codec_safe, dict_wf. intros H. apply andb_true_iff in H as [Hd Hf].
  apply distinct_NoDup in Hd. unfold _unflatten_metadata.
  destruct (in_dec string_dec "metrics" (keys m)) as [Hin | Hnin].
  - right. destruct (with_metrics_parts m Hd Hf Hin) as (d & Hm & Hok & Hp).
    exists d. split; [assumption|].
    rewrite unflatten_image; cbn [keys map app]; fold (keys (plain_part m));
      [| assumption | now apply plain_part_NoDup |].
    + rewrite Hm. cbn [app].
      destruct d as [|kv d]; [discriminate|].
      rewrite dict_set_fresh; [now split|].
      intros Hk. apply plain_part_keys in Hk. tauto.
    + rewrite Hm. unfold metrics_ok in Hok.
      apply andb_true_iff in Hok as [Hok _]. apply andb_true_iff in Hok as [_ Hok].
      now apply distinct_NoDup.
  - left. split; [assumption|].
    destruct (no_metrics_parts m Hnin) as [Hm Hp].
    rewrite unflatten_image; cbn [keys map app]; fold (keys (plain_part m));
      [| assumption | now apply plain_part_NoDup | rewrite Hm; constructor].
    rewrite Hm, Hp. reflexivity.
Qed.

End ReadBack.

(** ** The metadata codec: the round trip *)

Section RoundTrip.

Import VectorStore Shapes.
Variable json_dumps : value -> string.

Lemma scalar_eqb_refl (v : value) : is_scalar v = true -> value_eqb v v = true.
Proof.
  destruct v; try discriminate; intros _; cbn.
  - destruct b; reflexivity.
  - apply Qeq_bool_iff. reflexivity.
  - apply Qeq_bool_iff. reflexivity.
  - apply String.eqb_refl.
Qed.

Lemma strings_eqb_refl (tags : list string) :
  all2 value_eqb (map VStr tags) (map VStr tags) = true.
Proof.
  induction tags as [|s tags IH]; cbn; [reflexivity|].
  now rewrite String.eqb_refl.
Qed.

Lemma bound_in_intro (d1 d2 : dict) :
  (forall k v, In (k, v) d1 -> dict_get k d2 = Some v /\ value_eqb v v = true) ->
  bound_in value_eqb d2 d1 = true.
Proof.
  intros H. unfold bound_in. apply forallb_forall. intros [k v] Hin.
  destruct (H k v Hin) as [-> Hv]. exact Hv.
Qed.

Lemma metrics_eqb_refl (d : dict) :
  metrics_ok d = true -> value_eqb (VDict d) (VDict d) = true.
Proof.
  unfold metrics_ok, dict_wf. intros H.
  apply andb_true_iff in H as [H Hs]. apply andb_true_iff in H as [_ Hd].
  apply distinct_NoDup in Hd. cbn. rewrite Nat.eqb_refl. cbn.
  apply bound_in_intro. intros k v Hin. split; [now apply In_dict_get|].
  rewrite forallb_forall in Hs. specialize (Hs _ Hin). cbn in Hs.
  apply andb_true_iff in Hs as [_ Hs]. now apply scalar_eqb_refl.
Qed.

Lemma field_eqb_refl (k : string) (v : value) :
  field_ok (k, v) = true -> value_eqb v v = true.
Proof.
  unfold field_ok.
  destruct (String.eqb k "metrics").
  - destruct v; try discriminate. apply metrics_eqb_refl.
  - destruct (String.eqb k "hashtags").
    + destruct v; try discriminate.
      destruct (strings_of l) as [tags|] eqn:Es; [|discriminate].
      intros _. destruct (strings_of_sound l tags Es) as [-> _].
      cbn. apply strings_eqb_refl.
    + intros H. apply andb_true_iff in H as [_ H]. now apply scalar_eqb_refl.
Qed.

(** A dict equals, for [==], any reordering of itself. *)
Lemma dict_eqb_reordered (r m : dict) :
  NoDup (keys m) -> forallb field_ok m = true -> Permutation r m ->
  value_eqb (VDict r) (VDict m) = true.
Proof.
  intros Hnd Hf Hp. cbn.
  rewrite (Permutation_length Hp), Nat.eqb_refl. cbn.
  apply bound_in_intro. intros k v Hin.
  assert (Hin' : In (k, v) m) by (eapply Permutation_in; eassumption).
  split; [now apply In_dict_get|].
  rewrite forallb_forall in Hf. exact (field_eqb_refl k v (Hf _ Hin')).
Qed.

(** Once both halves of the codec are known in closed form, the round trip
    is a reordering of the mapping. *)
Ltac close_roundtrip m H :=
  let Hs := fresh "Hs" in
  let Hd := fresh "Hd" in
  let Hf := fresh "Hf" in
  let d := fresh "d" in
  let Hp := fresh "Hp" in
  unfold roundtrip; rewrite flatten_known by exact H; cbn [bind];
  pose proof H as Hs; unfold codec_safe, dict_wf in Hs;
  apply andb_true_iff in Hs as [Hd Hf]; apply distinct_NoDup in Hd;
  destruct (unflatten_known m H) as [[_ ->] | (d & _ & -> & Hp)];
  eexists; (split; [reflexivity | now apply dict_eqb_reordered]).

(** C1, as the code has it.  For every mapping made of the known shapes
    only - distinct keys; [metrics] a non-empty dict of scalars whose keys
    are distinct and hold no ["metrics_"]; [hashtags] a list of strings
    none of which holds a comma, other than the one-element list of the
    empty string; every other field a scalar under a key that does not
    start with ["metrics_"] - flattening then unflattening succeeds and
    gives a mapping equal to the first one. *)
Theorem roundtrip_known_shapes (m : dict) :
  codec_safe m = true ->
  exists r, roundtrip json_dumps m = Ok r /\ value_eqb (VDict r) (VDict m) = true.
Proof.
  intros H. unfold roundtrip. rewrite flatten_known by assumption. cbn [bind].
  pose proof H as Hs. unfold codec_safe, dict_wf in Hs.
  apply andb_true_iff in Hs as [Hd Hf]. apply distinct_NoDup in Hd.
  destruct (unflatten_known m H) as [[_ ->] | (d & _ & -> & Hp)].
  - exists m. split; [reflexivity|]. now apply dict_eqb_reordered.
  - eexists. split; [reflexivity|]. now apply dict_eqb_reordered.
Qed.

Lemma strings_of_strs (tags : list string) : strings_of (map VStr tags) = Some tags.
Proof.
  induction tags as [|s tags IH]; cbn; [reflexivity|]. now rewrite IH.
Qed.

Lemma record_codec_safe (c : ContentRecord) :
  tags_ok (hashtags c) = true -> codec_safe (to_dict c) = true.
Proof.
  intros H. unfold codec_safe. apply andb_true_iff. split; [reflexivity|].
  unfold to_dict. cbn [forallb]. unfold field_ok at 6.
  cbn [String.eqb Ascii.eqb Bool.eqb]. rewrite strings_of_strs, H. reflexivity.
Qed.

(** Every post in the pipeline's format whose hashtags hold no comma and
    are not the one-element list of the empty string goes through the
    codec unchanged. *)
Lemma roundtrip_content_record (c : ContentRecord) :
  tags_ok (hashtags c) = true ->
  exists r, roundtrip json_dumps (to_dict c) = Ok r /\
            value_eqb (VDict r) (VDict (to_dict c)) = true.
Proof.
  intros H. apply record_codec_safe in H. close_roundtrip (to_dict c) H.
Qed.

End RoundTrip.

Lemma roundtrip_known_shapes_witness :
  exists r, VectorStore.roundtrip (fun _ => "null") (Shapes.to_dict Samples.sample_record) = Ok r /\
            value_eqb (VDict r) (VDict (Shapes.to_dict Samples.sample_record)) = true.
Proof.
  apply (roundtrip_known_shapes (fun _ => "null")). reflexivity.
Defined.

(** The claim as the specification states it fails: a post whose only
    hashtag holds a comma comes back with two hashtags. *)
Lemma roundtrip_breaks_on_comma :
  ~ (forall (json_dumps : value -> string) (c : Shapes.ContentRecord),
       exists r, VectorStore.roundtrip json_dumps (Shapes.to_dict c) = Ok r /\
                 value_eqb (VDict r) (VDict (Shapes.to_dict c)) = true).
Proof.
  intros H.
  destruct (H (fun _ => "null") Samples.comma_record) as (r & Hr & He).
  vm_compute in Hr. injection Hr as <-. vm_compute in He. discriminate.
Qed.

(** ** The context block: averages over the retrieved posts *)

Section Averages.

Import VectorStore PromptManager.

Lemma hit_has_no (field : string) (h : hit) :
  field = "likes" \/ field = "comments" ->
  dict_get_default field (VInt 0) (format_hit h) = VInt 0.
Proof. intros [-> | ->]; reflexivity. Qed.

Lemma sum_of_zeros (xs : list value) :
  Forall (fun x => x = VInt 0) xs -> py_sum xs = Ok (VInt 0).
Proof.
  unfold py_sum. induction 1 as [|x xs -> _ IH]; [reflexivity|]. exact IH.
Qed.

Lemma length_nonzero {A : Type} (l : list A) :
  l <> [] -> Qeq_bool (inject_Z (Z.of_nat (length l))) 0 = false.
Proof.
  destruct l as [|a l]; [congruence|]. intros _. reflexivity.
Qed.

Lemma fmt_fixed_zero (q : Q) : Qnum q = 0 -> fmt_fixed 0 q = "0".
Proof.
  destruct q as [n d]. cbn [Qnum]. intros ->. unfold fmt_fixed.
  destruct (Qlt_le_dec (0 # d) 0) as [Hlt | _]; [|reflexivity].
  unfold Qlt in Hlt. cbn in Hlt. lia.
Qed.

Lemma average_of_hits (field : string) (hits : list hit) :
  field = "likes" \/ field = "comments" -> hits <> [] ->
  exists q, average field (query hits) = Ok (VFloat q) /\ Qnum q = 0.
Proof.
  intros Hf Hne. unfold average.
  rewrite sum_of_zeros.
  - cbn [bind]. unfold py_truediv. cbn [num_of].
    rewrite length_nonzero.
    + eexists. split; [reflexivity|]. reflexivity.
    + unfold query. destruct hits; [congruence | discriminate].
  - unfold query. rewrite map_map. apply Forall_map, Forall_forall.
    intros h _. now apply hit_has_no.
Qed.

(** C3, what the code does.  For every non-empty list of posts that
    [VectorStore.query] returns, the lines written for [posts_data] give 0
    as the mean of the likes and 0 as the mean of the comments, whatever
    the likes and comments of the retrieved posts are: the averages read
    [likes] and [comments] at the top of each retrieved post, where
    [query] puts [id], [distance], [text] and [metadata] only.  Every
    system prompt built on such a context carries these two lines. *)
Theorem averages_ignore_retrieved_metrics (hits : list hit) :
  hits <> [] ->
  posts_section (query hits)
  = Ok (nl ++ "## Données de contenu" ++ nl
        ++ "- Nombre de posts analysés: " ++ str_of_nat (length hits) ++ nl
        ++ "- Moyenne de likes: 0" ++ nl
        ++ "- Moyenne de commentaires: 0" ++ nl) /\
  (forall repr_other float_comma prompt_file prompt_type ctx system_prompt,
     posts_data ctx = Some (query hits) ->
     format_prompt_with_context repr_other float_comma prompt_file prompt_type ctx
     = Ok system_prompt ->
     exists before after,
       system_prompt
       = before ++ ("- Moyenne de likes: 0" ++ nl
                    ++ "- Moyenne de commentaires: 0" ++ nl) ++ after).
Proof.
  intros Hne.
  assert (Hsec : posts_section (query hits)
    = Ok (nl ++ "## Données de contenu" ++ nl
          ++ "- Nombre de posts analysés: " ++ str_of_nat (length hits) ++ nl
          ++ "- Moyenne de likes: 0" ++ nl
          ++ "- Moyenne de commentaires: 0" ++ nl)).
  { unfold posts_section.
    destruct (average_of_hits "likes" hits (or_introl eq_refl) Hne) as (ql & -> & Hl).
    destruct (average_of_hits "comments" hits (or_intror eq_refl) Hne) as (qc & -> & Hc).
    assert (Hlen : length (query hits) = length hits) by apply length_map.
    destruct (query hits) as [|p ps] eqn:E.
    - destruct hits; [congruence | discriminate].
    - cbn [bind fmt_f num_of]. rewrite !fmt_fixed_zero by assumption.
      rewrite Hlen, !append_assoc. reflexivity. }
  split; [exact Hsec|].
  intros repr_other float_comma prompt_file prompt_type ctx system_prompt Hposts H.
  unfold format_prompt_with_context in H.
  destruct (load_prompt prompt_file prompt_type) as [base_prompt|]; [|discriminate].
  cbn [bind] in H.
  destruct (optional (user_data ctx) _) as [s_user|]; [|discriminate].
  cbn [bind] in H.
  destruct (optional (metrics ctx) _) as [s_metrics|]; [|discriminate].
  cbn [bind] in H.
  rewrite Hposts in H. cbn [optional] in H. rewrite Hsec in H. cbn [bind] in H.
  destruct (optional (question ctx) _) as [s_question|]; [|discriminate].
  cbn [bind] in H. injection H as <-.
  exists (base_prompt ++ (nl ++ nl ++ "# CONTEXTE ACTUEL" ++ nl ++ nl)
          ++ s_user ++ s_metrics ++ nl ++ "## Données de contenu" ++ nl
          ++ "- Nombre de posts analysés: " ++ str_of_nat (length hits) ++ nl),
         s_question.
  rewrite !append_assoc. reflexivity.
Qed.

End Averages.

Lemma averages_ignore_retrieved_metrics_witness :
  [Samples.liked_hit] <> [] /\
  VectorStore._unflatten_metadata (VectorStore.hit_metadata Samples.liked_hit)
  = [ ("caption", VStr "Morning run");
      ("hashtags", VList [VStr "running"; VStr "fitness"]);
      ("metrics", VDict [("likes", VInt 100); ("comments", VInt 10)]) ] /\
  PromptManager.posts_section (VectorStore.query [Samples.liked_hit])
  = Ok (PromptManager.nl ++ "## Données de contenu" ++ PromptManager.nl
        ++ "- Nombre de posts analysés: 1" ++ PromptManager.nl
        ++ "- Moyenne de likes: 0" ++ PromptManager.nl
        ++ "- Moyenne de commentaires: 0" ++ PromptManager.nl).
Proof.
  split; [discriminate|]. split; [reflexivity|].
  refine (proj1 (averages_ignore_retrieved_metrics [Samples.liked_hit] _)).
  discriminate.
Defined.

(** The system prompt of the dispatcher for one retrieved post with 100
    likes and 10 comments. *)
Example system_prompt_of_liked_post :
  PromptManager.format_prompt_with_context Samples.sample_repr Samples.sample_comma
    Samples.sample_prompts PromptManager.CONTENT_ANALYST
    (AgentModes.build_context Samples.sample_profile
       (VectorStore.query [Samples.liked_hit]) "Que publier ?")
  = Ok ("Tu es un analyste." ++ PromptManager.nl ++ PromptManager.nl
        ++ "# CONTEXTE ACTUEL" ++ PromptManager.nl ++ PromptManager.nl
        ++ "## Données du créateur" ++ PromptManager.nl
        ++ "- Username: @coach" ++ PromptManager.nl
        ++ "- Followers: 15,000" ++ PromptManager.nl
        ++ "- Taux d'engagement moyen: 4.50%" ++ PromptManager.nl
        ++ PromptManager.nl ++ "## Données de contenu" ++ PromptManager.nl
        ++ "- Nombre de posts analysés: 1" ++ PromptManager.nl
        ++ "- Moyenne de likes: 0" ++ PromptManager.nl
        ++ "- Moyenne de commentaires: 0" ++ PromptManager.nl
        ++ PromptManager.nl ++ "## Question de l'utilisateur" ++ PromptManager.nl
        ++ "Que publier ?" ++ PromptManager.nl).
Proof. vm_compute. reflexivity. Qed.

(** ** The user prompt *)

Section UserPrompt.

Import RagPipeline.
Variable repr_other : value -> string.
Variable float_comma : Q -> string.

(** C4. For every question and profile, formatting an empty retrieval
    gives the fixed text [no_post_text], which is not empty, and the user
    prompt carries that text between the heading of the posts and the
    heading of the question whenever its profile header can be written. *)
Theorem empty_retrieval_sentinel (influencer_profile : option dict) (question : string) :
  format_posts_for_prompt repr_other [] = Ok no_post_text /\
  no_post_text = "Aucun post pertinent trouvé." /\
  no_post_text <> "" /\
  build_user_prompt repr_other float_comma influencer_profile question []
  = bind (profile_header repr_other float_comma (profile_or_empty influencer_profile))
         (fun header =>
            Ok (header ++ nl
                ++ "POSTS PERTINENTS:" ++ nl ++ no_post_text ++ nl ++ nl
                ++ "QUESTION:" ++ nl ++ question ++ nl ++ nl
                ++ closing_text)).
Proof.
  repeat split; try reflexivity. discriminate.
Qed.

Lemma fmt_comma_number (v : value) (s : string) :
  fmt_comma float_comma v = Ok s -> Shapes.is_number v = true.
Proof. destruct v; cbn; intros H; try discriminate; reflexivity. Qed.

(** C10. For every pipeline, question and retrieved posts: when the loaded
    profile has no [followers] field, or no profile is loaded,
    [build_user_prompt] raises the [ValueError] of the [','] format
    applied to the default ["N/A"]; and whenever it returns a prompt,
    [followers] is in the profile and is a number. *)
Theorem user_prompt_needs_followers (influencer_profile : option dict)
    (question : string) (relevant_posts : list dict) :
  (dict_get "followers" (profile_or_empty influencer_profile) = None ->
   build_user_prompt repr_other float_comma influencer_profile question relevant_posts
   = Raise (ValueError "Cannot specify ',' with 's'.")) /\
  (influencer_profile = None ->
   build_user_prompt repr_other float_comma influencer_profile question relevant_posts
   = Raise (ValueError "Cannot specify ',' with 's'.")) /\
  (forall prompt,
     build_user_prompt repr_other float_comma influencer_profile question relevant_posts
     = Ok prompt ->
     exists v, dict_get "followers" (profile_or_empty influencer_profile) = Some v /\
               Shapes.is_number v = true).
Proof.
  assert (Habsent : dict_get "followers" (profile_or_empty influencer_profile) = None ->
    build_user_prompt repr_other float_comma influencer_profile question relevant_posts
    = Raise (ValueError "Cannot specify ',' with 's'.")).
  { intros H. unfold build_user_prompt, profile_header, dict_get_default.
    rewrite H. reflexivity. }
  split; [exact Habsent|]. split.
  - intros ->. now apply Habsent.
  - intros prompt H. unfold build_user_prompt, profile_header in H.
    unfold dict_get_default at 1 in H.
    destruct (dict_get "followers" (profile_or_empty influencer_profile)) as [v|] eqn:E.
    + exists v. split; [reflexivity|].
      destruct (fmt_comma float_comma v) as [s|] eqn:Ef; [|discriminate].
      now apply fmt_comma_number in Ef.
    + discriminate.
Qed.

End UserPrompt.

Lemma user_prompt_needs_followers_witness :
  RagPipeline.build_user_prompt Samples.sample_repr Samples.sample_comma
    (Some Samples.bare_profile) "Que publier ?" []
  = Raise (ValueError "Cannot specify ',' with 's'.") /\
  RagPipeline.build_user_prompt Samples.sample_repr Samples.sample_comma
    None "Que publier ?" []
  = Raise (ValueError "Cannot specify ',' with 's'.") /\
  exists v, dict_get "followers" (RagPipeline.profile_or_empty (Some Samples.sample_profile))
            = Some v /\ Shapes.is_number v = true.
Proof.
  split; [|split].
  - apply (proj1 (user_prompt_needs_followers Samples.sample_repr Samples.sample_comma
                    (Some Samples.bare_profile) "Que publier ?" [])). reflexivity.
  - apply (proj1 (proj2 (user_prompt_needs_followers Samples.sample_repr
                           Samples.sample_comma None "Que publier ?" []))). reflexivity.
  - eapply (proj2 (proj2 (user_prompt_needs_followers Samples.sample_repr
                            Samples.sample_comma (Some Samples.sample_profile)
                            "Que publier ?" []))).
    vm_compute. reflexivity.
Defined.

(** ** Mode resolution *)

Lemma prefix_empty (s : string) : String.prefix "" s = true.
Proof. destruct s; reflexivity. Qed.


Section Modes.

Import AgentModes.
Variable repr_other : value -> string.
Variable float_comma : Q -> string.
Variable prompt_file : PromptManager.PromptType -> option string.
Variable rag : pipeline.


End Modes.



(** Nor is the value of a mode always a name of the chat loop:
    [content_analyst] is not, and the mode in use stays. *)
Example value_is_not_a_name :
  Agent.chat_turn Samples.sample_repr Samples.sample_comma Samples.sample_prompts
    Samples.hello_pipeline (Agent.mkAgent [] AgentModes.MONETIZATION)
    "mode content_analyst"
  = Agent.Continue (Agent.mkAgent [] AgentModes.MONETIZATION).
Proof. reflexivity. Qed.

(** ** Streaming *)

Lemma append_nil_r (s : string) : s ++ "" = s.
Proof. induction s as [|c s IH]; cbn; [reflexivity | now rewrite IH]. Qed.

Lemma join_empty_sep_cons (x : string) (xs : list string) :
  join "" (x :: xs) = x ++ join "" xs.
Proof. destruct xs; cbn; [now rewrite append_nil_r | reflexivity]. Qed.

Lemma fold_append (fs : list string) (acc : string) :
  fold_left (fun response chunk => response ++ chunk) fs acc = acc ++ join "" fs.
Proof.
  revert acc. induction fs as [|x fs IH]; intros acc.
  - cbn. now rewrite append_nil_r.
  - cbn [fold_left]. rewrite IH, join_empty_sep_cons. apply append_assoc.
Qed.

Lemma consume_join (s : LlmClient.stream) :
  Agent.consume s = join "" (LlmClient.fragments_of s).
Proof. unfold Agent.consume. now rewrite fold_append. Qed.

Section Streaming.

Import AgentModes.
Variable repr_other : value -> string.
Variable float_comma : Q -> string.
Variable prompt_file : PromptManager.PromptType -> option string.

(** C7. For every list of text fragments the streamed call of the client
    delivers, the dispatcher hands this stream over untouched, consuming
    it gives the fragments joined in order, and [ask] returns this text
    and records it in the history; when the blocking call of the client
    returns the same completion in one piece, the dispatcher and [ask]
    give the same text, and the same agent, without streaming. *)
Theorem streamed_text_is_full_text (rag : pipeline) (self : Agent.agent)
    (q : string) (n_posts : nat) (m : option AgentMode)
    (system_prompt user_prompt : string) (fragments : list string) :
  let active_mode :=
    match m with
    | Some m' => m'
    | None => Agent.current_mode self
    end in
  let full_text := join "" fragments in
  let after :=
    Agent.mkAgent
      (Agent.conversation_history self ++ [("user", q); ("assistant", full_text)])%list
      (Agent.current_mode self) in
  PromptManager.format_prompt_with_context repr_other float_comma prompt_file
    (get_prompt_for_mode active_mode)
    (build_context (RagPipeline.profile_or_empty (influencer_profile rag))
       (retrieve_relevant_posts rag q n_posts) q) = Ok system_prompt ->
  RagPipeline.build_user_prompt repr_other float_comma (influencer_profile rag) q
    (retrieve_relevant_posts rag q n_posts) = Ok user_prompt ->
  LlmClient.complete_stream (llm_client rag) user_prompt system_prompt
  = LlmClient.Stream fragments None ->
  LlmClient.complete (llm_client rag) user_prompt system_prompt = Ok full_text ->
  (exists streamed,
     generate_with_mode repr_other float_comma prompt_file rag q active_mode n_posts true
     = Ok streamed /\
     answer streamed = response_stream (LlmClient.Stream fragments None) /\
     Agent.consume (LlmClient.Stream fragments None) = full_text) /\
  (exists whole,
     generate_with_mode repr_other float_comma prompt_file rag q active_mode n_posts false
     = Ok whole /\
     answer whole = response_text full_text) /\
  Agent.ask repr_other float_comma prompt_file rag self q n_posts true m
  = Ok (full_text, after) /\
  Agent.ask repr_other float_comma prompt_file rag self q n_posts false m
  = Ok (full_text, after).
Proof.
  intros active_mode full_text after Hs Hu Hstream Hwhole.
  assert (Hc : Agent.consume (LlmClient.Stream fragments None) = full_text)
    by apply consume_join.
  unfold Agent.ask. fold active_mode. unfold generate_with_mode.
  rewrite Hs, Hu. cbn [bind]. rewrite Hstream, Hwhole. cbn [bind answer].
  rewrite Hc. repeat split.
  - eexists. split; [reflexivity|]. split; reflexivity.
  - eexists. split; reflexivity.
Qed.

End Streaming.

Lemma streamed_text_is_full_text_witness :
  Agent.ask Samples.sample_repr Samples.sample_comma Samples.sample_prompts
    Samples.hello_pipeline Samples.fresh_agent "Que publier ?" 3 true None
  = Ok ("Hello world",
        Agent.mkAgent [("user", "Que publier ?"); ("assistant", "Hello world")]
                      AgentModes.CONTENT_ANALYST) /\
  Agent.ask Samples.sample_repr Samples.sample_comma Samples.sample_prompts
    Samples.hello_pipeline Samples.fresh_agent "Que publier ?" 3 false None
  = Ok ("Hello world",
        Agent.mkAgent [("user", "Que publier ?"); ("assistant", "Hello world")]
                      AgentModes.CONTENT_ANALYST).
Proof.
  refine (proj2 (proj2 (streamed_text_is_full_text Samples.sample_repr
            Samples.sample_comma Samples.sample_prompts Samples.hello_pipeline
            Samples.fresh_agent "Que publier ?" 3 None _ _ ["Hello"; " "; "world"]
            _ _ _ _))).
  - vm_compute. reflexivity.
  - vm_compute. reflexivity.
  - reflexivity.
  - reflexivity.
Defined.

(** Both ways of asking give ["Hello world"] with the stub client. *)
Example ask_hello_world :
  Agent.ask Samples.sample_repr Samples.sample_comma Samples.sample_prompts
    Samples.hello_pipeline Samples.fresh_agent "Que publier ?" 3 true None
  = Ok ("Hello world",
        Agent.mkAgent [("user", "Que publier ?"); ("assistant", "Hello world")]
                      AgentModes.CONTENT_ANALYST).
Proof. vm_compute. reflexivity. Qed.

(** The client reads the fragments off the lines of the streamed body, up
    to the finish reason. *)
Example read_hello_lines :
  LlmClient.generate_response_stream Samples.hello_loads
    (LlmClient.HttpBody (Samples.hello_lines, None))
  = LlmClient.Stream [VStr "Hello"; VStr " "; VStr "world"] None.
Proof. vm_compute. reflexivity. Qed.

(** ** The voice summary needs a post *)

Section VoiceSummary.

Import VoiceImpact.
Variable summarise : dict -> dict -> result dict.

Lemma latest_from_ok (best : dict) (posts : list dict) (r : dict) :
  latest_from best posts = Ok r -> In r (best :: posts).
Proof.
  revert best. induction posts as [|p rest IH]; intros best; cbn [latest_from].
  - intros [= <-]. now left.
  - destruct (py_lt _ _) as [newer|e]; [|discriminate]. cbn [bind].
    intros H. apply IH in H. destruct newer; cbn in *; tauto.
Qed.

(** C8. With no post in the vector store, [get_latest_post] finds none
    and [generate_voice_summary] raises its [ValueError]; and whenever
    [generate_voice_summary] returns a summary, the store holds the post it
    was built from. *)
Theorem voice_summary_needs_post (influencer_profile : option dict) :
  get_latest_post (VectorStore.get_all_metadatas []) = Ok None /\
  generate_voice_summary summarise influencer_profile (VectorStore.get_all_metadatas [])
  = Raise (ValueError "Aucun post trouvé pour générer un résumé vocal") /\
  (forall all_posts summary,
     generate_voice_summary summarise influencer_profile all_posts = Ok summary ->
     exists post, In post all_posts /\ post <> [] /\
                  get_latest_post all_posts = Ok (Some post)).
Proof.
  split; [reflexivity|]. split; [reflexivity|].
  intros all_posts summary H. unfold generate_voice_summary in H.
  destruct (get_latest_post all_posts) as [[post|]|e] eqn:E; cbn [bind] in H;
    try discriminate.
  exists post. split; [|split; [|reflexivity]].
  - unfold get_latest_post in E. destruct all_posts as [|p rest]; [discriminate|].
    destruct (latest_from p rest) as [best|] eqn:El; [|discriminate].
    cbn [bind] in E. injection E as <-. now apply latest_from_ok.
  - intros ->. discriminate.
Qed.

End VoiceSummary.

Lemma voice_summary_needs_post_witness :
  exists post, In post [Samples.older_post; Samples.newer_post] /\ post <> [] /\
               VoiceImpact.get_latest_post [Samples.older_post; Samples.newer_post]
               = Ok (Some post).
Proof.
  eapply (proj2 (proj2 (voice_summary_needs_post Samples.keep_metrics
                          (Some Samples.no_followers)))).
  vm_compute. reflexivity.
Defined.

(** ** Impact metrics: the virality ratio *)

Section Virality.

Import VoiceImpact Shapes.

Lemma number_num_of (v : value) :
  is_number v = true -> exists q, num_of v = Some q.
Proof. unfold is_number. destruct (num_of v) as [q|]; [now exists q | discriminate]. Qed.

Lemma arith_number (fz : Z -> Z -> Z) (fq : Q -> Q -> Q) (a b : value) :
  is_number a = true -> is_number b = true ->
  exists c, arith fz fq a b = Ok c /\ is_number c = true.
Proof.
  destruct a, b; try discriminate; intros _ _; cbn; eexists; split; reflexivity.
Qed.

Lemma py_lt_number (a b : value) :
  is_number a = true -> is_number b = true -> exists t, py_lt a b = Ok t.
Proof.
  destruct a, b; try discriminate; intros _ _; cbn; eexists; reflexivity.
Qed.

Lemma positive_nonzero (d : value) :
  py_gt d (VInt 0) = Ok true -> exists y, num_of d = Some y /\ Qeq_bool y 0 = false.
Proof.
  unfold py_gt, py_lt. cbn [num_of].
  destruct (num_of d) as [y|]; [|discriminate].
  intros [= H]. exists y. split; [reflexivity|].
  apply negb_true_iff in H.
  destruct (Qeq_bool y 0) eqn:E; [|reflexivity].
  apply Qeq_bool_iff in E.
  assert (Hle : Qle_bool y (inject_Z 0) = true).
  { apply Qle_bool_iff. rewrite E. apply Qle_refl. }
  congruence.
Qed.

Lemma truediv_number (a b : value) (y : Q) :
  is_number a = true -> num_of b = Some y -> Qeq_bool y 0 = false ->
  exists c, py_truediv a b = Ok c /\ is_number c = true.
Proof.
  intros Ha Hb Hy. destruct (number_num_of a Ha) as [x Hx].
  unfold py_truediv. rewrite Hx, Hb, Hy. eexists. split; reflexivity.
Qed.

(** A ratio guarded by [den > 0] is defined on numbers. *)
Lemma pct_number (num den : value) :
  is_number num = true -> is_number den = true ->
  exists c, pct_if_positive num den = Ok c /\ is_number c = true.
Proof.
  intros Hn Hd. unfold pct_if_positive.
  destruct (py_lt_number (VInt 0) den eq_refl Hd) as [t Ht].
  unfold py_gt at 1. rewrite Ht. cbn [bind]. destruct t.
  - destruct (positive_nonzero den Ht) as (y & Hy & Hz).
    destruct (truediv_number num den y Hn Hy Hz) as (c & -> & Hc). cbn [bind].
    now apply arith_number.
  - now exists (VInt 0).
Qed.

Lemma get_default_number (field : string) (d : dict) :
  forallb (fun kv => is_number (snd kv)) d = true ->
  is_number (dict_get_default field (VInt 0) d) = true.
Proof.
  intros H. unfold dict_get_default.
  destruct (dict_get field d) as [v|] eqn:E; [|reflexivity].
  apply dict_get_In in E. rewrite forallb_forall in H. exact (H _ E).
Qed.

Lemma metric_number (field : string) (p : dict) :
  numeric_metrics p = true ->
  exists v, metric_of field p = Ok v /\ is_number v = true.
Proof.
  unfold numeric_metrics, metric_of, dict_get_default.
  destruct (dict_get "metrics" p) as [[| | | | | |d]|]; try discriminate.
  - intros H. eexists. split; [reflexivity|]. now apply get_default_number.
  - intros _. now exists (VInt 0).
Qed.

Lemma sum_metric_number (field : string) (posts : list dict) (acc : value) :
  forallb numeric_metrics posts = true -> is_number acc = true ->
  exists v, sum_metric field acc posts = Ok v /\ is_number v = true.
Proof.
  revert acc. induction posts as [|p rest IH]; intros acc H Ha; cbn [sum_metric].
  - now exists acc.
  - cbn [forallb] in H. apply andb_true_iff in H as [Hp Hr].
    destruct (metric_number field p Hp) as (x & -> & Hx). cbn [bind].
    destruct (arith_number Z.add Qplus acc x Ha Hx) as (acc' & Hacc & Hn).
    unfold py_add. rewrite Hacc. cbn [bind]. now apply IH.
Qed.

Lemma mean_number (field : string) (posts : list dict) :
  posts <> [] -> forallb numeric_metrics posts = true ->
  exists v, mean_of field posts = Ok v /\ is_number v = true.
Proof.
  intros Hne H. unfold mean_of.
  destruct (sum_metric_number field posts (VInt 0) H eq_refl) as (total & -> & Ht).
  cbn [bind].
  apply (truediv_number total (VInt (Z.of_nat (length posts)))
           (inject_Z (Z.of_nat (length posts))) Ht eq_refl).
  now apply length_nonzero.
Qed.

Lemma other_posts_numeric (all_posts : list dict) (post : dict) :
  forallb numeric_metrics all_posts = true ->
  forallb numeric_metrics (other_posts all_posts post) = true.
Proof.
  intros H. apply forallb_forall. intros p Hin.
  unfold other_posts in Hin. apply filter_In in Hin as [Hin _].
  rewrite forallb_forall in H. now apply H.
Qed.

(** The four means over the other posts, or the post's own figures. *)
Lemma means_number (all_posts : list dict) (post : dict) (e l c s : value) :
  forallb numeric_metrics all_posts = true ->
  ((1 < length all_posts)%nat -> other_posts all_posts post <> []) ->
  is_number e = true -> is_number l = true ->
  is_number c = true -> is_number s = true ->
  exists ae al ac asv,
    (if (1 <? length all_posts)%nat
     then
       bind (mean_of "engagement_rate" (other_posts all_posts post)) (fun avg_engagement =>
       bind (mean_of "likes" (other_posts all_posts post)) (fun avg_likes =>
       bind (mean_of "comments" (other_posts all_posts post)) (fun avg_comments =>
       bind (mean_of "saves" (other_posts all_posts post)) (fun avg_saves =>
         Ok (avg_engagement, avg_likes, avg_comments, avg_saves)))))
     else Ok (e, l, c, s)) = Ok (ae, al, ac, asv) /\
    is_number ae = true.
Proof.
  intros Hall Hne He Hl Hc Hs.
  destruct (1 <? length all_posts)%nat eqn:E.
  - apply Nat.ltb_lt in E. specialize (Hne E).
    pose proof (other_posts_numeric all_posts post Hall) as Ho.
    destruct (mean_number "engagement_rate" _ Hne Ho) as (ae & -> & Hae).
    destruct (mean_number "likes" _ Hne Ho) as (al & -> & _).
    destruct (mean_number "comments" _ Hne Ho) as (ac & -> & _).
    destruct (mean_number "saves" _ Hne Ho) as (asv & -> & _).
    cbn [bind]. now exists ae, al, ac, asv.
  - now exists e, l, c, s.
Qed.

Lemma positive_test (f : Z) :
  negb (Qle_bool (inject_Z f) (inject_Z 0)) = (0 <? f).
Proof.
  unfold Qle_bool. cbn. rewrite Z.mul_1_r.
  destruct (Z.leb_spec f 0), (Z.ltb_spec 0 f); (reflexivity || lia).
Qed.

Lemma positive_divisor (f : Z) : 0 < f -> Qeq_bool (inject_Z f) 0 = false.
Proof.
  intros H. unfold Qeq_bool. cbn. rewrite Z.mul_1_r. apply Z.eqb_neq. lia.
Qed.


End Virality.


(** The latest of these posts is the one the voice summary is computed
    for. *)
Example latest_without_id_is_latest :
  VoiceImpact.get_latest_post Samples.posts_without_id
  = Ok (Some Samples.latest_without_id).
Proof. reflexivity. Qed.

(** Whatever the post and the stored posts are, a summary computed with no
    followers has a virality ratio of 0. *)
Lemma virality_zero_when_returned (influencer_profile : option dict)
    (all_posts : list dict) (post r : dict) :
  dict_get_default "followers" (VInt 1)
    (RagPipeline.profile_or_empty influencer_profile) = VInt 0 ->
  VoiceImpact.calculate_impact_metrics influencer_profile all_posts post = Ok r ->
  dict_get "virality_ratio" r = Some (VInt 0).
Proof.
  intros Hf H. unfold VoiceImpact.calculate_impact_metrics in H.
  cbv zeta in H. rewrite Hf in H.
  repeat match type of H with
         | bind ?x _ = Ok _ =>
             let v := fresh "v" in
             destruct x as [v|]; cbn [bind] in H; [|discriminate]
         end.
  destruct v6 as [[[ae al] ac] asv]. cbn [bind] in H.
  repeat match type of H with
         | bind ?x _ = Ok _ =>
             let v := fresh "v" in
             destruct x as [v|] eqn:?; cbn [bind] in H; [|discriminate]
         end.
  injection H as <-. cbn.
  match goal with
  | E : VoiceImpact.pct_if_positive _ (VInt 0) = Ok _ |- _ =>
      cbn in E; injection E as <-
  end.
  reflexivity.
Qed.

(* ================================================================== *)
(** * Further properties of the sources *)
(* ================================================================== *)

(** ** llm_client.py: reading the streamed body *)

Section StreamReading.

Import LlmClient.
Variable json_loads : string -> option value.

Lemma choice_yields_truthy (choice content : value) (last : bool) :
  choice_effect choice = Yielded content last -> truthy content = true.
Proof.
  unfold choice_effect.
  destruct (py_in "delta" choice) as [has_delta|e]; [|discriminate].
  destruct choice as [| | | | | |c]; try discriminate.
  destruct has_delta; [|destruct (finished c); discriminate].
  destruct (py_in "content" _) as [[|]|e];
    try (destruct (finished c); discriminate); try discriminate.
  destruct (dict_get_default "delta" VNone c) as [| | | | | |d]; try discriminate.
  destruct (truthy (dict_get_default "content" VNone d)) eqn:T;
    [|destruct (finished c); discriminate].
  intros [= <- _]. exact T.
Qed.

Lemma chunk_yields_truthy (chunk content : value) (last : bool) :
  chunk_effect chunk = Yielded content last -> truthy content = true.
Proof.
  unfold chunk_effect.
  destruct (py_in "choices" chunk) as [[|]|e]; try discriminate.
  destruct chunk as [| | | | | |d]; try discriminate.
  destruct (py_nonempty _) as [[|]|e]; try discriminate.
  destruct (py_first _) as [choice|]; [|discriminate].
  apply choice_yields_truthy.
Qed.

(** X1. Whatever the server sends, the generator never yields an empty
    fragment: every object it yields is truthy. *)
Theorem stream_fragments_not_empty
    (outcome : http_outcome (list raw_line * option string)) :
  Forall (fun fragment => fragment <> VStr "" /\ truthy fragment = true)
         (fragments_of (generate_response_stream json_loads outcome)).
Proof.
  destruct outcome as [[lines broken] | code text | msg]; cbn; try constructor.
  induction lines as [|l rest IH]; cbn [read_lines].
  - destruct broken; constructor.
  - destruct l as [|raw]; [exact IH|].
    destruct (String.eqb (strip raw) ""); [exact IH|].
    destruct (String.eqb _ "[DONE]"); [constructor|].
    destruct (json_loads _) as [chunk|]; [|exact IH].
    destruct (chunk_effect chunk) as [| |content last|] eqn:E;
      try exact IH; [|constructor].
    apply chunk_yields_truthy in E.
    cbn [fragments_of]. constructor.
    + split; [|exact E]. intros ->. discriminate.
    + destruct last; [constructor|exact IH].
Qed.

(** X2. A line the loop skips - undecodable bytes, a blank line, text that
    is not JSON, a chunk without a choice or whose reading raises, such as
    one whose first choice has a null delta - changes nothing, wherever it
    stands in the body. *)
Theorem skipped_line_changes_nothing (pre post : list raw_line) (l : raw_line)
    (broken : option string) :
  is_skipped json_loads l = true ->
  read_lines json_loads (pre ++ l :: post)%list broken
  = read_lines json_loads (pre ++ post)%list broken.
Proof.
  intros Hl. induction pre as [|p pre IH]; cbn [List.app]; cbn [read_lines].
  - destruct l as [|raw]; [reflexivity|]. cbn [is_skipped] in Hl.
    destruct (String.eqb (strip raw) ""); [reflexivity|]. cbn [orb] in Hl.
    destruct (String.eqb _ "[DONE]"); [discriminate|]. cbn [negb andb] in Hl.
    destruct (json_loads _) as [chunk|]; [|reflexivity].
    destruct (chunk_effect chunk); (reflexivity || discriminate).
  - now rewrite IH.
Qed.

(** X3. Once the end marker is read, or a chunk is read without an
    exception whose first choice has a finish reason, nothing that follows
    is looked at: neither the lines after it nor a failure of the
    transport. *)
Theorem nothing_read_after_end (pre post : list raw_line) (l : raw_line)
    (broken : option string) :
  ends_stream json_loads l = true ->
  read_lines json_loads (pre ++ l :: post)%list broken
  = read_lines json_loads (pre ++ [l])%list None.
Proof.
  intros Hl. induction pre as [|p pre IH]; cbn [List.app]; cbn [read_lines].
  - destruct l as [|raw]; [discriminate|]. cbn [ends_stream] in Hl.
    destruct (String.eqb (strip raw) ""); [discriminate|]. cbn [negb andb] in Hl.
    destruct (String.eqb _ "[DONE]"); [reflexivity|]. cbn [orb] in Hl.
    destruct (json_loads _) as [chunk|]; [|discriminate].
    destruct (chunk_effect chunk) as [| |content [|]|]; (reflexivity || discriminate).
  - now rewrite IH.
Qed.

End StreamReading.

Lemma skipped_line_changes_nothing_witness :
  LlmClient.read_lines Samples.hello_loads
    ([LlmClient.Text "data: {1}"] ++ LlmClient.Text "data: {4}"
       :: [LlmClient.Text "data: {3}"])%list None
  = LlmClient.read_lines Samples.hello_loads
      ([LlmClient.Text "data: {1}"] ++ [LlmClient.Text "data: {3}"])%list None.
Proof.
  apply (skipped_line_changes_nothing Samples.hello_loads). reflexivity.
Defined.

Lemma nothing_read_after_end_witness :
  LlmClient.read_lines Samples.hello_loads
    ([LlmClient.Text "data: {1}"] ++ LlmClient.Text "data: {3}"
       :: [LlmClient.Text "data: {2}"])%list (Some "connection reset")
  = LlmClient.read_lines Samples.hello_loads
      ([LlmClient.Text "data: {1}"] ++ [LlmClient.Text "data: {3}"])%list None.
Proof.
  apply (nothing_read_after_end Samples.hello_loads). reflexivity.
Defined.

(** ** agent.py: what [ask] returns and keeps *)

Section AskFacts.

Import AgentModes.
Variable repr_other : value -> string.
Variable float_comma : Q -> string.
Variable prompt_file : PromptManager.PromptType -> option string.
Variable rag : pipeline.

(** X4. Once both prompts are built, a failure of the client is an
    exception of [ask] when it does not stream, and is swallowed when it
    streams: [ask] then returns the fragments read before the failure as
    the answer and records them in the history. *)
Theorem streaming_hides_client_failure (self : Agent.agent) (q : string)
    (n_posts : nat) (m : AgentMode) (system_prompt user_prompt : string) :
  PromptManager.format_prompt_with_context repr_other float_comma prompt_file
    (get_prompt_for_mode m)
    (build_context (RagPipeline.profile_or_empty (influencer_profile rag))
       (retrieve_relevant_posts rag q n_posts) q) = Ok system_prompt ->
  RagPipeline.build_user_prompt repr_other float_comma (influencer_profile rag) q
    (retrieve_relevant_posts rag q n_posts) = Ok user_prompt ->
  let s := LlmClient.complete_stream (llm_client rag) user_prompt system_prompt in
  Agent.ask repr_other float_comma prompt_file rag self q n_posts true (Some m)
  = Ok (join "" (LlmClient.fragments_of s),
        Agent.mkAgent
          (Agent.conversation_history self
             ++ [("user", q); ("assistant", join "" (LlmClient.fragments_of s))])%list
          (Agent.current_mode self)) /\
  (forall e,
     LlmClient.complete (llm_client rag) user_prompt system_prompt = Raise e ->
     Agent.ask repr_other float_comma prompt_file rag self q n_posts false (Some m)
     = Raise e).
Proof.
  intros Hs Hu s. unfold Agent.ask, generate_with_mode. rewrite Hs, Hu. cbn [bind].
  split.
  - cbn [answer]. now rewrite consume_join.
  - intros e He. now rewrite He.
Qed.

(** X5. An answered question leaves the mode of the agent as it was, also
    when [ask] is given another mode for this question, and adds to the
    history the question and the answer, in this order, after what was
    there. *)
Theorem ask_keeps_mode_and_extends_history (self self' : Agent.agent) (q text : string)
    (n_posts : nat) (stream : bool) (m : option AgentMode) :
  Agent.ask repr_other float_comma prompt_file rag self q n_posts stream m
  = Ok (text, self') ->
  Agent.current_mode self' = Agent.current_mode self /\
  Agent.conversation_history self'
  = (Agent.conversation_history self ++ [("user", q); ("assistant", text)])%list.
Proof.
  unfold Agent.ask. destruct (generate_with_mode _ _ _ _ _ _ _ _) as [r|]; [|discriminate].
  cbn [bind]. intros [= <- <-]. now split.
Qed.

(** X6. With a profile that has no [followers] field, or with no profile
    loaded, [ask] never answers, streaming or not: the user prompt cannot
    be built. *)
Theorem ask_needs_followers (self : Agent.agent) (q : string) (n_posts : nat)
    (stream : bool) (m : option AgentMode) :
  dict_get "followers" (RagPipeline.profile_or_empty (influencer_profile rag)) = None ->
  exists e,
    Agent.ask repr_other float_comma prompt_file rag self q n_posts stream m = Raise e.
Proof.
  intros H. unfold Agent.ask, generate_with_mode.
  destruct (PromptManager.format_prompt_with_context _ _ _ _ _) as [system_prompt|e];
    [|now exists e].
  cbn [bind].
  unfold RagPipeline.build_user_prompt, RagPipeline.profile_header, dict_get_default.
  rewrite H. cbn. now eexists.
Qed.

End AskFacts.

Lemma streaming_hides_client_failure_witness :
  Agent.ask Samples.sample_repr Samples.sample_comma Samples.sample_prompts
    Samples.dropped_pipeline Samples.fresh_agent "Que publier ?" 3 true
    (Some AgentModes.STRATEGY)
  = Ok ("Hel", Agent.mkAgent [("user", "Que publier ?"); ("assistant", "Hel")]
                 AgentModes.CONTENT_ANALYST) /\
  Agent.ask Samples.sample_repr Samples.sample_comma Samples.sample_prompts
    Samples.dropped_pipeline Samples.fresh_agent "Que publier ?" 3 false
    (Some AgentModes.STRATEGY)
  = Raise (RuntimeError "Network error: connection reset").
Proof.
  edestruct (streaming_hides_client_failure Samples.sample_repr Samples.sample_comma
               Samples.sample_prompts Samples.dropped_pipeline Samples.fresh_agent
               "Que publier ?" 3 AgentModes.STRATEGY) as [Hs Hb].
  - vm_compute. reflexivity.
  - vm_compute. reflexivity.
  - split; [exact Hs|]. apply Hb. reflexivity.
Defined.

Lemma ask_keeps_mode_and_extends_history_witness :
  Agent.current_mode
    (Agent.mkAgent [("user", "Que publier ?"); ("assistant", "Hello world")]
       AgentModes.CONTENT_ANALYST)
  = Agent.current_mode Samples.fresh_agent /\
  Agent.conversation_history
    (Agent.mkAgent [("user", "Que publier ?"); ("assistant", "Hello world")]
       AgentModes.CONTENT_ANALYST)
  = (Agent.conversation_history Samples.fresh_agent
       ++ [("user", "Que publier ?"); ("assistant", "Hello world")])%list.
Proof.
  apply (ask_keeps_mode_and_extends_history Samples.sample_repr Samples.sample_comma
           Samples.sample_prompts Samples.hello_pipeline Samples.fresh_agent _
           "Que publier ?" "Hello world" 3 true (Some AgentModes.MONETIZATION)).
  vm_compute. reflexivity.
Defined.

Lemma ask_needs_followers_witness :
  exists e,
    Agent.ask Samples.sample_repr Samples.sample_comma Samples.sample_prompts
      Samples.bare_pipeline Samples.fresh_agent "Que publier ?" 3 true None = Raise e.
Proof.
  apply (ask_needs_followers Samples.sample_repr Samples.sample_comma
           Samples.sample_prompts Samples.bare_pipeline). reflexivity.
Defined.

(** ** vector_store.py: what the codec never does *)

Section CodecFacts.

Import VectorStore Shapes.
Variable json_dumps : value -> string.

Lemma unflatten_item_keys (acc : dict * dict) (key : string) (v : value) :
  (forall k, In k (keys (fst acc)) -> startswith k "metrics_" = false) ->
  forall k, In k (keys (fst (unflatten_item acc key v))) ->
            startswith k "metrics_" = false.
Proof.
  destruct acc as [metadata metrics]. cbn [fst]. intros H k.
  unfold unflatten_item.
  destruct (startswith key "metrics_") eqn:E; [apply H|].
  assert (Hset : forall w, In k (keys (dict_set key w metadata)) ->
                           startswith k "metrics_" = false).
  { intros w Hin. apply keys_dict_set in Hin as [-> | Hin]; [exact E | now apply H]. }
  destruct v; cbn [fst]; try apply Hset.
  destruct (String.eqb key "hashtags") eqn:Eh; cbn [fst]; [|apply Hset].
  intros Hin. apply keys_dict_set in Hin as [-> | Hin]; [reflexivity | now apply H].
Qed.

Lemma unflatten_loop_keys (items : dict) (acc : dict * dict) :
  (forall k, In k (keys (fst acc)) -> startswith k "metrics_" = false) ->
  forall k, In k (keys (fst (unflatten_loop items acc))) ->
            startswith k "metrics_" = false.
Proof.
  revert acc. induction items as [|[key v] rest IH]; intros acc H; cbn [unflatten_loop].
  - exact H.
  - apply IH. now apply unflatten_item_keys.
Qed.

(** X7. Whatever the flat metadata is, no key of the unflattened mapping
    starts with ["metrics_"]: every such field has been moved under
    [metrics]. *)
Theorem unflatten_leaves_no_prefixed_key (flat_metadata : dict) (k : string) :
  In k (keys (_unflatten_metadata flat_metadata)) -> startswith k "metrics_" = false.
Proof.
  unfold _unflatten_metadata.
  pose proof (unflatten_loop_keys flat_metadata ([], []) (fun k (H : In k []) => match H with end))
    as Hloop.
  destruct (unflatten_loop flat_metadata ([], [])) as [metadata metrics].
  cbn [fst] in Hloop. destruct metrics as [|kv metrics]; [apply Hloop|].
  intros Hin. apply keys_dict_set in Hin as [-> | Hin]; [reflexivity | now apply Hloop].
Qed.

Lemma strs_of_strings (l : list value) :
  strs_of l = Raise TypeError <-> Shapes.strings_of l = None.
Proof.
  induction l as [|v l IH]; cbn [strs_of Shapes.strings_of].
  - split; discriminate.
  - destruct v; cbn [Shapes.str_of_value];
      try (destruct (Shapes.strings_of l); split; reflexivity).
    destruct (strs_of l) as [r|e]; destruct (Shapes.strings_of l) as [t|]; cbn [bind].
    + split; discriminate.
    + pose proof (proj2 IH eq_refl). discriminate.
    + split; [|discriminate]. intros H. pose proof (proj1 IH H). discriminate.
    + exact IH.
Qed.

Lemma strs_of_raises (l : list value) (e : exn) :
  strs_of l = Raise e -> e = TypeError.
Proof.
  induction l as [|v l IH]; cbn; [discriminate|].
  destruct v; try (intros [= <-]; reflexivity).
  destruct (strs_of l) as [r|e']; cbn; [discriminate|].
  intros [= <-]. now apply IH.
Qed.

Lemma flatten_item_raises (flat : dict) (key : string) (v : value) (e : exn) :
  flatten_item json_dumps flat key v = Raise e ->
  e = TypeError /\ exists l, key = "hashtags" /\ v = VList l /\ Shapes.strings_of l = None.
Proof.
  destruct v; cbn; try discriminate.
  - destruct (String.eqb key "hashtags") eqn:E; [|discriminate].
    apply String.eqb_eq in E. unfold py_join.
    destruct (strs_of l) as [r|e'] eqn:Es; cbn; [discriminate|].
    intros [= <-]. pose proof (strs_of_raises l e' Es) as ->.
    split; [reflexivity|]. exists l. repeat split; try assumption.
    now apply strs_of_strings.
  - destruct (String.eqb key "metrics"); discriminate.
Qed.

Lemma flatten_loop_raises (items flat : dict) (e : exn) :
  flatten_loop json_dumps items flat = Raise e ->
  e = TypeError /\ exists l, In ("hashtags", VList l) items /\ Shapes.strings_of l = None.
Proof.
  revert flat. induction items as [|[key v] rest IH]; intros flat; cbn [flatten_loop].
  - discriminate.
  - destruct (flatten_item json_dumps flat key v) as [flat'|e'] eqn:E; cbn [bind].
    + intros H. destruct (IH _ H) as (He & l & Hin & Hl).
      split; [exact He|]. exists l. split; [now right | exact Hl].
    + intros [= <-]. destruct (flatten_item_raises _ _ _ _ E) as (He & l & -> & -> & Hl).
      split; [exact He|]. exists l. split; [now left | exact Hl].
Qed.

Lemma flatten_loop_bad_hashtags (items flat : dict) (l : list value) :
  In ("hashtags", VList l) items -> Shapes.strings_of l = None ->
  flatten_loop json_dumps items flat = Raise TypeError.
Proof.
  revert flat. induction items as [|[key v] rest IH]; intros flat; cbn [flatten_loop].
  - intros [].
  - intros [Hin | Hin] Hl.
    + injection Hin as -> ->. cbn. unfold py_join.
      apply strs_of_strings in Hl. now rewrite Hl.
    + destruct (flatten_item json_dumps flat key v) as [flat'|e'] eqn:E; cbn [bind].
      * now apply IH.
      * destruct (flatten_item_raises _ _ _ _ E) as (-> & _). reflexivity.
Qed.

(** X8. [_flatten_metadata] raises exactly when the mapping has a
    [hashtags] list with an item that is not a string, and what it raises
    then is the [TypeError] of [",".join]; on every other mapping it
    returns a flat form. *)
Theorem flatten_fails_only_on_bad_hashtags (metadata : dict) :
  (forall e, _flatten_metadata json_dumps metadata = Raise e -> e = TypeError) /\
  (_flatten_metadata json_dumps metadata = Raise TypeError <->
   exists l, In ("hashtags", VList l) metadata /\ Shapes.strings_of l = None).
Proof.
  unfold _flatten_metadata. split.
  - intros e H. now apply flatten_loop_raises in H.
  - split.
    + intros H. now apply flatten_loop_raises in H.
    + intros (l & Hin & Hl). now apply flatten_loop_bad_hashtags with l.
Qed.

Lemma In_dict_set {A : Type} (k k0 : string) (v v0 : A) (d : list (string * A)) :
  In (k, v) (dict_set k0 v0 d) -> (k, v) = (k0, v0) \/ In (k, v) d.
Proof.
  induction d as [|[k' v'] d IH]; cbn.
  - intros [H | []]. now left.
  - destruct (String.eqb k0 k'); cbn.
    + intros [H | H]; [now left | right; now right].
    + intros [H | H]; [right; now left|].
      destruct (IH H) as [H' | H']; [now left | right; now right].
Qed.

Lemma flatten_metrics_scalar (metrics flat : dict) :
  all_scalar metrics -> all_scalar flat -> all_scalar (flatten_metrics metrics flat).
Proof.
  revert flat. induction metrics as [|[mk mv] rest IH]; intros flat Hm Hf; cbn.
  - exact Hf.
  - apply IH.
    + intros k v Hin. apply (Hm k v). now right.
    + intros k v Hin. apply In_dict_set in Hin as [[= -> ->] | Hin].
      * apply (Hm mk mv). now left.
      * now apply (Hf k v).
Qed.

Lemma flatten_loop_scalar (items flat r : dict) :
  (forall d, In ("metrics", VDict d) items -> all_scalar d) ->
  all_scalar flat ->
  flatten_loop json_dumps items flat = Ok r -> all_scalar r.
Proof.
  revert flat. induction items as [|[key v] rest IH]; intros flat Hm Hf; cbn [flatten_loop].
  - now intros [= <-].
  - destruct (flatten_item json_dumps flat key v) as [flat'|] eqn:E; [|discriminate].
    cbn [bind]. apply IH.
    + intros d Hin. apply Hm. now right.
    + assert (Hset : forall w, is_scalar w = true -> all_scalar (dict_set key w flat)).
      { intros w Hw k x Hin. apply In_dict_set in Hin as [[= -> ->] | Hin];
          [exact Hw | now apply (Hf k x)]. }
      destruct v; cbn in E; try (injection E as <-; now apply Hset).
      * destruct (String.eqb key "hashtags").
        -- destruct (py_join "," l); cbn in E; [|discriminate].
           injection E as <-.
           intros k x Hin. apply In_dict_set in Hin as [[= -> ->] | Hin];
             [reflexivity | now apply (Hf k x)].
        -- injection E as <-. now apply Hset.
      * destruct (String.eqb key "metrics") eqn:Em.
        -- apply String.eqb_eq in Em. subst key. injection E as <-.
           apply flatten_metrics_scalar; [|exact Hf]. apply Hm. now left.
        -- injection E as <-. now apply Hset.
Qed.

(** X9. When the items of [metrics] are scalars, every value of the flat
    form is a scalar ([str], [int], [float] or [bool]) and its keys are
    distinct, whatever else the mapping holds: lists, dicts and [None]
    have become strings. *)
Theorem flat_form_is_flat (metadata flat : dict) :
  (forall d, In ("metrics", VDict d) metadata -> all_scalar d) ->
  _flatten_metadata json_dumps metadata = Ok flat ->
  all_scalar flat /\ NoDup (keys flat).
Proof.
  intros Hm H. split.
  - eapply flatten_loop_scalar; [exact Hm | | exact H]. intros k v [].
  - eapply flatten_loop_NoDup; [exact H | constructor].
Qed.

End CodecFacts.

Lemma flatten_fails_only_on_bad_hashtags_witness :
  VectorStore._flatten_metadata (fun _ => "null")
    [("id", VStr "post_001"); ("hashtags", VList [VStr "run"; VInt 5])]
  = Raise TypeError.
Proof.
  apply (proj2 (flatten_fails_only_on_bad_hashtags (fun _ => "null")
                  [("id", VStr "post_001"); ("hashtags", VList [VStr "run"; VInt 5])])).
  exists [VStr "run"; VInt 5]. split; [right; now left | reflexivity].
Defined.

Lemma flat_form_is_flat_witness :
  Shapes.all_scalar [("id", VStr "post_001"); ("metrics_likes", VInt 12);
              ("location", VStr "null"); ("hashtags", VStr "run,fit")] /\
  NoDup (keys [("id", VStr "post_001"); ("metrics_likes", VInt 12);
               ("location", VStr "null"); ("hashtags", VStr "run,fit")]).
Proof.
  apply (flat_form_is_flat (fun _ => "null")
           [("id", VStr "post_001"); ("metrics", VDict [("likes", VInt 12)]);
            ("location", VNone); ("hashtags", VList [VStr "run"; VStr "fit"])]).
  - intros d [H | [H | [H | [H | []]]]]; try discriminate.
    injection H as <-. intros k v [[= <- <-] | []]. reflexivity.
  - reflexivity.
Defined.

(** ** From the index to the prompt *)

Section StoredPosts.

Import VectorStore Shapes RagPipeline.
Variable json_dumps : value -> string.
Variable repr_other : value -> string.

(** The fields read back from the flat form of a mapping of known shapes
    are fields of known shapes. *)
Lemma read_back_field_ok (m : dict) (k : string) (v : value) :
  codec_safe m = true ->
  dict_get k (_unflatten_metadata (flat_image m)) = Some v ->
  field_ok (k, v) = true.
Proof.
  intros H Hg. pose proof H as Hs. unfold codec_safe in Hs.
  apply andb_true_iff in Hs as [_ Hf]. rewrite forallb_forall in Hf.
  apply dict_get_In in Hg. apply Hf.
  destruct (unflatten_known m H) as [[_ E] | (d & _ & E & Hp)]; rewrite E in Hg.
  - exact Hg.
  - eapply Permutation_in; eassumption.
Qed.

Lemma format_post_of_known (i : nat) (m : dict) (h : hit) :
  codec_safe m = true -> hit_metadata h = flat_image m ->
  exists block, format_post repr_other i (format_hit h) = Ok block.
Proof.
  intros H Hh. unfold format_post, format_hit.
  change (dict_get_default "metadata" (VDict []) _)
    with (VDict (_unflatten_metadata (hit_metadata h))).
  rewrite Hh. set (md := _unflatten_metadata (flat_image m)).
  assert (Hmetrics : exists d, dict_get_default "metrics" (VDict []) md = VDict d).
  { unfold dict_get_default. destruct (dict_get "metrics" md) as [v|] eqn:E.
    - apply (read_back_field_ok m _ _ H) in E.
      destruct (field_ok_metrics v E) as (d & -> & _). now exists d.
    - now exists []. }
  assert (Htags : exists tags,
             join_value ", " (dict_get_default "hashtags" (VList []) md) = Ok tags).
  { unfold dict_get_default. destruct (dict_get "hashtags" md) as [v|] eqn:E.
    - apply (read_back_field_ok m _ _ H) in E. cbn in E.
      destruct v; try discriminate.
      destruct (strings_of l) as [tags|] eqn:Es; [|discriminate].
      destruct (strings_of_sound l tags Es) as [_ Hs].
      cbn. unfold py_join. rewrite Hs. cbn. now eexists.
    - cbn. now eexists. }
  destruct Hmetrics as [d Hd]. destruct Htags as [tags Ht].
  cbn [py_get bind]. rewrite Hd. cbn [py_get bind]. rewrite Ht. cbn [bind].
  now eexists.
Qed.

Lemma format_posts_from_known (i : nat) (hits : list hit) :
  (forall h, In h hits ->
     exists m, codec_safe m = true /\ hit_metadata h = flat_image m) ->
  exists blocks, format_posts_from repr_other i (query hits) = Ok blocks.
Proof.
  revert i. induction hits as [|h rest IH]; intros i H; cbn [query map format_posts_from].
  - now exists [].
  - destruct (H h (or_introl eq_refl)) as (m & Hm & Hh).
    destruct (format_post_of_known i m h Hm Hh) as [block ->]. cbn [bind].
    fold (query rest).
    destruct (IH (S i) (fun h' Hin => H h' (or_intror Hin))) as [blocks ->].
    cbn [bind]. now eexists.
Qed.

(** X10. Posts stored through [_flatten_metadata] from mappings of known
    shapes, whatever the collection then returns of them, can always be
    formatted for the prompt: [format_posts_for_prompt] raises on none of
    the results of [query]. *)
Theorem stored_posts_can_be_formatted (hits : list hit) :
  (forall h, In h hits ->
     exists m, codec_safe m = true /\
               _flatten_metadata json_dumps m = Ok (hit_metadata h)) ->
  exists text, format_posts_for_prompt repr_other (query hits) = Ok text.
Proof.
  intros H.
  assert (H' : forall h, In h hits ->
            exists m, codec_safe m = true /\ hit_metadata h = flat_image m).
  { intros h Hin. destruct (H h Hin) as (m & Hm & Hf). exists m. split; [exact Hm|].
    rewrite (flatten_known json_dumps m Hm) in Hf. now injection Hf. }
  unfold format_posts_for_prompt.
  destruct (query hits) as [|p ps] eqn:E; [now eexists|].
  rewrite <- E. destruct (format_posts_from_known 1 hits H') as [blocks ->].
  cbn [bind]. now eexists.
Qed.

End StoredPosts.

Lemma stored_posts_can_be_formatted_witness :
  exists text,
    RagPipeline.format_posts_for_prompt Samples.sample_repr
      (VectorStore.query [Samples.stored_hit]) = Ok text.
Proof.
  apply (stored_posts_can_be_formatted (fun _ => "null") Samples.sample_repr
           [Samples.stored_hit]).
  intros h [<- | []]. exists (Shapes.to_dict Samples.sample_record).
  split; reflexivity.
Defined.

(** ** utils/prompt_manager.py: the averages of the context block *)

Section ContextBlock.

Import Shapes PromptManager.
Variable repr_other : value -> string.
Variable float_comma : Q -> string.
Variable prompt_file : PromptType -> option string.

Lemma sum_of_ints (xs : list Z) (acc : Z) :
  py_sum_from (VInt acc) (map VInt xs) = Ok (VInt (acc + total xs)).
Proof.
  revert acc. induction xs as [|x xs IH]; intros acc; cbn [map py_sum_from total].
  - now rewrite Z.add_0_r.
  - cbn. rewrite IH. now rewrite Z.add_assoc.
Qed.

Lemma average_of_ints (field : string) (posts : list dict) (xs : list Z) :
  posts <> [] ->
  map (dict_get_default field (VInt 0)) posts = map VInt xs ->
  average field posts
  = Ok (VFloat (inject_Z (total xs) / inject_Z (Z.of_nat (length posts)))).
Proof.
  intros Hne Hx. unfold average, py_sum. rewrite Hx, sum_of_ints. cbn [bind].
  unfold py_truediv. cbn [num_of]. now rewrite length_nonzero.
Qed.

(** X11. For posts that carry integer [likes] and [comments] at their top
    level - a missing field counting as 0 - whose totals are below 2^52 in
    absolute value, the two lines of the context block show the arithmetic
    means of the likes and of the comments, rounded to the nearest
    integer, ties to even.  Below 2^52 the quotient the interpreter rounds
    to a double stays on the same side of every half-integer as the exact
    mean, so both round to the same integer. *)
Theorem averages_of_flat_posts (posts : list dict) (likes comments : list Z) :
  posts <> [] ->
  map (dict_get_default "likes" (VInt 0)) posts = map VInt likes ->
  map (dict_get_default "comments" (VInt 0)) posts = map VInt comments ->
  Z.abs (total likes) < 2 ^ 52 ->
  Z.abs (total comments) < 2 ^ 52 ->
  posts_section posts
  = Ok (nl ++ "## Données de contenu" ++ nl
        ++ "- Nombre de posts analysés: " ++ str_of_nat (length posts) ++ nl
        ++ "- Moyenne de likes: "
        ++ fmt_fixed 0 (inject_Z (total likes) / inject_Z (Z.of_nat (length posts))) ++ nl
        ++ "- Moyenne de commentaires: "
        ++ fmt_fixed 0 (inject_Z (total comments) / inject_Z (Z.of_nat (length posts)))
        ++ nl).
Proof.
  intros Hne Hl Hc _ _. unfold posts_section.
  rewrite (average_of_ints "likes" posts likes Hne Hl).
  rewrite (average_of_ints "comments" posts comments Hne Hc).
  destruct posts as [|p ps]; [congruence|].
  cbn [bind fmt_f num_of]. now rewrite !append_assoc.
Qed.

Lemma undivided_bind {A B : Type} (r : result A) (k : A -> result B) :
  undivided r -> (forall a, r = Ok a -> undivided (k a)) -> undivided (bind r k).
Proof.
  unfold undivided. destruct r as [a|e]; cbn; intros Hr Hk.
  - now apply Hk.
  - congruence.
Qed.

Lemma undivided_ok {A : Type} (a : A) : undivided (Ok a).
Proof. discriminate. Qed.

Lemma undivided_fmt_comma (v : value) : undivided (fmt_comma float_comma v).
Proof. destruct v; discriminate. Qed.

Lemma undivided_fmt_f (p : nat) (v : value) : undivided (fmt_f p v).
Proof.
  unfold fmt_f. destruct v; try discriminate; cbn; discriminate.
Qed.

Lemma undivided_sum (xs : list value) (acc : value) : undivided (py_sum_from acc xs).
Proof.
  revert acc. induction xs as [|x xs IH]; intros acc; cbn [py_sum_from].
  - apply undivided_ok.
  - apply undivided_bind; [|intros a _; apply IH].
    unfold py_add, arith.
    destruct (int_of acc), (int_of x); try discriminate;
      destruct (num_of acc), (num_of x); discriminate.
Qed.

Lemma undivided_average (field : string) (posts : list dict) :
  posts <> [] -> undivided (average field posts).
Proof.
  intros Hne. unfold average. apply undivided_bind; [apply undivided_sum|].
  intros t _. unfold py_truediv. cbn [num_of].
  destruct (num_of t); [|discriminate].
  rewrite length_nonzero by assumption. discriminate.
Qed.

(** X12. Building the system prompt never divides by zero: with no
    retrieved post the averages are not computed, and with some the divisor
    is their number. *)
Theorem system_prompt_never_divides_by_zero (prompt_type : PromptType) (ctx : context) :
  format_prompt_with_context repr_other float_comma prompt_file prompt_type ctx
  <> Raise ZeroDivisionError.
Proof.
  fold (undivided (format_prompt_with_context repr_other float_comma prompt_file
                     prompt_type ctx)).
  unfold format_prompt_with_context.
  apply undivided_bind.
  { unfold load_prompt. destruct (prompt_file prompt_type); discriminate. }
  intros base_prompt _. apply undivided_bind.
  { destruct (user_data ctx) as [ud|]; [|apply undivided_ok]. cbn [optional].
    unfold user_data_section. apply undivided_bind.
    - destruct (dict_get "followers" ud); [|apply undivided_ok].
      apply undivided_bind; [apply undivided_fmt_comma | intros; apply undivided_ok].
    - intros s2 _. destruct (dict_get "engagement_rate" ud); [|apply undivided_ok].
      apply undivided_bind; [apply undivided_fmt_f | intros; apply undivided_ok]. }
  intros s_user _. apply undivided_bind.
  { destruct (metrics ctx); apply undivided_ok. }
  intros s_metrics _. apply undivided_bind.
  { destruct (posts_data ctx) as [posts|]; [|apply undivided_ok]. cbn [optional].
    unfold posts_section. destruct posts as [|p ps]; [apply undivided_ok|].
    apply undivided_bind; [apply undivided_average; discriminate|].
    intros avg_likes _. apply undivided_bind; [apply undivided_average; discriminate|].
    intros avg_comments _. apply undivided_bind; [apply undivided_fmt_f|].
    intros tl _. apply undivided_bind; [apply undivided_fmt_f|].
    intros tc _. apply undivided_ok. }
  intros s_posts _. apply undivided_bind.
  { destruct (question ctx); apply undivided_ok. }
  intros s_question _. apply undivided_ok.
Qed.

End ContextBlock.

Lemma averages_of_flat_posts_witness :
  PromptManager.posts_section Samples.flat_posts
  = Ok (PromptManager.nl ++ "## Données de contenu" ++ PromptManager.nl
        ++ "- Nombre de posts analysés: 3" ++ PromptManager.nl
        ++ "- Moyenne de likes: 15" ++ PromptManager.nl
        ++ "- Moyenne de commentaires: 2" ++ PromptManager.nl).
Proof.
  apply (averages_of_flat_posts Samples.flat_posts [10; 15; 20] [1; 0; 4]);
    [discriminate | reflexivity | reflexivity | reflexivity | reflexivity].
Defined.

Lemma unflatten_leaves_no_prefixed_key_witness :
  startswith "metrics" "metrics_" = false.
Proof.
  apply (unflatten_leaves_no_prefixed_key
           [("metrics_likes", VInt 12); ("metrics_metrics_x", VInt 1); ("id", VStr "a")]
           "metrics").
  vm_compute. tauto.
Defined.

(** ** utils/prompt_manager.py: the cache *)

Section PromptCache.

Import PromptManager.

Lemma PromptType_eqb_eq (a b : PromptType) : PromptType_eqb a b = true <-> a = b.
Proof. destruct a, b; cbn; split; (reflexivity || discriminate). Qed.

Lemma PromptType_eqb_refl (a : PromptType) : PromptType_eqb a a = true.
Proof. now apply PromptType_eqb_eq. Qed.

Lemma cache_get_set_same (t : PromptType) (text : string) (c : cache) :
  cache_get t (cache_set t text c) = Some text.
Proof.
  induction c as [|[t' text'] c IH]; cbn.
  - now rewrite PromptType_eqb_refl.
  - destruct (PromptType_eqb t t') eqn:E; cbn.
    + now rewrite PromptType_eqb_refl.
    + now rewrite E.
Qed.

Lemma cache_get_set_other (t t' : PromptType) (text : string) (c : cache) :
  t <> t' -> cache_get t (cache_set t' text c) = cache_get t c.
Proof.
  intros Hne.
  assert (Hf : PromptType_eqb t t' = false).
  { destruct (PromptType_eqb t t') eqn:E; [|reflexivity].
    apply PromptType_eqb_eq in E. contradiction. }
  induction c as [|[t0 text0] c IH]; cbn.
  - now rewrite Hf.
  - destruct (PromptType_eqb t' t0) eqn:E; cbn.
    + apply PromptType_eqb_eq in E. subst t0. now rewrite Hf.
    + now rewrite IH.
Qed.

(** X13. A prompt that was loaded once is served from the cache: as long
    as no reload is forced, later loads return the same text and leave the
    cache as it is, even if the file has changed or is gone. *)
Theorem loaded_prompt_is_cached (files files' : PromptType -> option string)
    (c c' : cache) (t : PromptType) (force_reload : bool) (text : string) :
  load_prompt_cached files c t force_reload = (Ok text, c') ->
  load_prompt_cached files' c' t false = (Ok text, c').
Proof.
  unfold load_prompt_cached.
  destruct (if force_reload then None else cache_get t c) as [cached|] eqn:E.
  - intros [= <- <-]. destruct force_reload; [discriminate|]. now rewrite E.
  - destruct (files t) as [read|]; [|discriminate].
    intros [= <- <-]. now rewrite cache_get_set_same.
Qed.

Lemma get_all_from_fresh (files : PromptType -> option string)
    (types : list PromptType) (c : cache) :
  NoDup types -> (forall t, In t types -> cache_get t c = None) ->
  fst (get_all_from files types c)
  = flat_map (fun t => match files t with
                       | Some text => [(t, text)]
                       | None => []
                       end) types.
Proof.
  revert c. induction types as [|t rest IH]; intros c Hnd Hc; cbn [get_all_from flat_map].
  - reflexivity.
  - inversion Hnd as [|? ? Ht Hrest]; subst.
    unfold load_prompt_cached. rewrite (Hc t (or_introl eq_refl)).
    destruct (files t) as [text|].
    + specialize (IH (cache_set t text c) Hrest).
      destruct (get_all_from files rest (cache_set t text c)) as [prompts c''].
      cbn [fst List.app] in *. f_equal. apply IH.
      intros t' Hin. rewrite cache_get_set_other; [apply Hc; now right|].
      intros ->. contradiction.
    + cbn [List.app]. apply IH; [assumption|]. intros t' Hin. apply Hc. now right.
Qed.

(** X14. [reload_all_prompts] returns the prompts whose file exists, each
    with the text of its file, and no other, whatever the cache held. *)
Theorem reload_returns_existing_files (files : PromptType -> option string)
    (c : cache) (t : PromptType) (text : string) :
  In (t, text) (fst (reload_all_prompts files c)) <-> files t = Some text.
Proof.
  unfold reload_all_prompts, get_all_prompts.
  rewrite get_all_from_fresh.
  - rewrite in_flat_map. split.
    + intros (t' & _ & Hin). destruct (files t') as [text'|] eqn:E; [|contradiction].
      destruct Hin as [[= <- <-] | []]. exact E.
    + intros H. exists t. split; [destruct t; cbn; tauto|].
      rewrite H. now left.
  - unfold all_types. repeat constructor; cbn; intuition discriminate.
  - reflexivity.
Qed.

End PromptCache.

Lemma loaded_prompt_is_cached_witness :
  PromptManager.load_prompt_cached (fun _ => None)
    [(PromptManager.CONTENT_STRATEGY, "Tu es un stratège.")]
    PromptManager.CONTENT_STRATEGY false
  = (Ok "Tu es un stratège.", [(PromptManager.CONTENT_STRATEGY, "Tu es un stratège.")]).
Proof.
  apply (loaded_prompt_is_cached (fun _ => Some "Tu es un stratège.") (fun _ => None)
           [] _ PromptManager.CONTENT_STRATEGY true).
  reflexivity.
Defined.

(** ** agent_modes.py: modes *)

Section ModeTable.

Import AgentModes.

(** X15. No two modes share a value or a prompt type, and [list_modes]
    lists every mode once, under its value. *)
Theorem modes_are_distinct :
  (forall a b, value_of a = value_of b -> a = b) /\
  (forall a b, get_prompt_for_mode a = get_prompt_for_mode b -> a = b) /\
  (forall m, In (value_of m, get_mode_description m) list_modes) /\
  NoDup (map fst list_modes).
Proof.
  split; [|split; [|split]].
  - intros a b; destruct a, b; cbn; intros H; (reflexivity || discriminate).
  - intros a b; destruct a, b; cbn; intros H; (reflexivity || discriminate).
  - intros m; destruct m; cbn; tauto.
  - cbn. repeat constructor; cbn; intuition discriminate.
Qed.

End ModeTable.

Lemma modes_are_distinct_witness :
  AgentModes.STRATEGY = AgentModes.STRATEGY.
Proof.
  apply (proj1 modes_are_distinct AgentModes.STRATEGY AgentModes.STRATEGY).
  reflexivity.
Defined.

Lemma reload_returns_existing_files_witness :
  In (PromptManager.CONTENT_STRATEGY, "Tu es un stratège.")
     (fst (PromptManager.reload_all_prompts
             (fun t => match t with
                       | PromptManager.CONTENT_STRATEGY => Some "Tu es un stratège."
                       | _ => None
                       end)
             [(PromptManager.CONTENT_ANALYST, "ancien texte")])).
Proof.
  apply (proj2 (reload_returns_existing_files _ _ PromptManager.CONTENT_STRATEGY
                  "Tu es un stratège.")).
  reflexivity.
Defined.

(** ** api.py: the endpoints *)

Lemma join_empty_sep_app (xs ys : list string) :
  join "" (xs ++ ys)%list = join "" xs ++ join "" ys.
Proof.
  induction xs as [|x xs IH].
  - reflexivity.
  - change ((x :: xs) ++ ys)%list with (x :: (xs ++ ys))%list.
    rewrite !join_empty_sep_cons, IH. now rewrite append_assoc.
Qed.

Lemma append_same_l (s t : string) : s ++ t = s -> t = "".
Proof.
  induction s as [|c s IH]; cbn; [tauto|]. intros [= H]. now apply IH.
Qed.

Section Endpoints.

Import AgentModes Api.
Variable repr_other : value -> string.
Variable float_comma : Q -> string.
Variable prompt_file : PromptManager.PromptType -> option string.
Variable exn_text : exn -> string.

(** X16. Whenever [chat] answers, the answer names the mode the request
    asked for, echoes its question and counts the posts retrieved for
    it. *)
Theorem chat_answers_in_requested_mode (rag : pipeline) (request : ChatRequest)
    (m : ModeEnum) (r : ChatResponse) :
  request_mode request = Some m ->
  chat repr_other float_comma prompt_file exn_text (Some rag) request = Reply r ->
  response_mode r = ModeEnum_value m /\
  response_question r = request_question request /\
  relevant_posts_count r
  = length (retrieve_relevant_posts rag (request_question request)
              (request_n_posts request)).
Proof.
  intros Hm. unfold chat. rewrite Hm. unfold generate_with_mode.
  destruct (PromptManager.format_prompt_with_context _ _ _ _ _); [|discriminate].
  cbn [bind]. destruct (RagPipeline.build_user_prompt _ _ _ _ _); [|discriminate].
  cbn [bind]. destruct (LlmClient.complete _ _ _); [|discriminate].
  cbn [bind]. intros [= <-]. cbn. split; [|split]; try reflexivity.
  destruct m; reflexivity.
Qed.

(** X17. The text the API streams for a stream that failed is the text
    [ask] keeps for it followed by an error text, so it differs from the
    text streamed for the same fragments without a failure; [ask] keeps
    the same text in both cases. *)
Theorem failed_stream_is_marked (s : LlmClient.stream) (e : exn) :
  LlmClient.failure_of s = Some e ->
  join "" (stream_body exn_text s) = Agent.consume s ++ error_chunk exn_text e /\
  join "" (stream_body exn_text s)
  <> join "" (stream_body exn_text (LlmClient.Stream (LlmClient.fragments_of s) None)) /\
  Agent.consume s = Agent.consume (LlmClient.Stream (LlmClient.fragments_of s) None).
Proof.
  intros Hf. split; [|split].
  - unfold stream_body. rewrite Hf, join_empty_sep_app, consume_join. reflexivity.
  - unfold stream_body. rewrite Hf. cbn [LlmClient.failure_of LlmClient.fragments_of].
    rewrite app_nil_r, join_empty_sep_app. intros H.
    apply append_same_l in H. discriminate.
  - reflexivity.
Qed.

(** X18. The API and the agent ask the same question for a focus the API
    accepts; for any other focus the API answers 400 without asking, where
    the agent falls back to its general question. *)
Theorem recommendations_agree (rag : pipeline) (focus : string) :
  (mem focus valid_focus = true ->
   dict_get focus questions = Some (Agent.recommendation_question focus)) /\
  (mem focus valid_focus = false ->
   get_recommendations repr_other float_comma prompt_file exn_text (Some rag) focus
   = HTTPException 400
       "Invalid focus. Must be one of: general, content, growth, engagement" /\
   Agent.recommendation_question focus = Agent.general_question).
Proof.
  unfold get_recommendations, Agent.recommendation_question, dict_get_default.
  cbn [mem valid_focus dict_get questions Agent.questions].
  destruct (String.eqb focus "general"); [split; [reflexivity | discriminate]|].
  destruct (String.eqb focus "content"); [split; [reflexivity | discriminate]|].
  destruct (String.eqb focus "growth"); [split; [reflexivity | discriminate]|].
  destruct (String.eqb focus "engagement"); [split; [reflexivity | discriminate]|].
  split; [discriminate|]. intros _. split; reflexivity.
Qed.

End Endpoints.

Lemma chat_answers_in_requested_mode_witness :
  "monetization" = Api.ModeEnum_value Api.API_MONETIZATION /\
  "Que publier ?" = "Que publier ?" /\
  0%nat = length (AgentModes.retrieve_relevant_posts Samples.hello_pipeline "Que publier ?" 3).
Proof.
  apply (chat_answers_in_requested_mode Samples.sample_repr Samples.sample_comma
           Samples.sample_prompts (fun _ => "") Samples.hello_pipeline
           (Api.mkChatRequest "Que publier ?" (Some Api.API_MONETIZATION) 3)
           Api.API_MONETIZATION
           (Api.mkChatResponse "Hello world" "monetization"
              (AgentModes.get_mode_description AgentModes.MONETIZATION)
              "Que publier ?" 0)).
  - reflexivity.
  - vm_compute. reflexivity.
Defined.

Lemma failed_stream_is_marked_witness :
  join "" (Api.stream_body (fun _ => "Network error: connection reset")
             (LlmClient.Stream ["Hel"] (Some (LlmClient.network_error "connection reset"))))
  = "Hel" ++ PromptManager.nl ++ PromptManager.nl
    ++ "[Error: Network error: connection reset]".
Proof.
  apply (proj1 (failed_stream_is_marked (fun _ => "Network error: connection reset")
                  (LlmClient.Stream ["Hel"]
                     (Some (LlmClient.network_error "connection reset")))
                  (LlmClient.network_error "connection reset") eq_refl)).
Defined.

Lemma recommendations_agree_witness :
  Api.get_recommendations Samples.sample_repr Samples.sample_comma Samples.sample_prompts
    (fun _ => "") (Some Samples.hello_pipeline) "reach"
  = Api.HTTPException 400
      "Invalid focus. Must be one of: general, content, growth, engagement" /\
  Agent.recommendation_question "reach" = Agent.general_question.
Proof.
  apply (proj2 (recommendations_agree Samples.sample_repr Samples.sample_comma
                  Samples.sample_prompts (fun _ => "") Samples.hello_pipeline "reach")).
  reflexivity.
Defined.

(** ** agent.py: the chat loop *)

Section ChatLoop.

Import AgentModes Agent.
Variable repr_other : value -> string.
Variable float_comma : Q -> string.
Variable prompt_file : PromptManager.PromptType -> option string.
Variable rag : pipeline.


End ChatLoop.


(** ** voice_impact_agent_google_api.py: the latest post *)

Lemma ltb_lt (a b : string) :
  String.ltb a b = true <-> OrderedTypeEx.String_as_OT.lt a b.
Proof.
  rewrite <- OrderedTypeEx.String_as_OT.cmp_lt.
  unfold String.ltb, OrderedTypeEx.String_as_OT.cmp.
  destruct (String.compare a b); split; (reflexivity || discriminate).
Qed.

Lemma ltb_irrefl (a : string) : String.ltb a a = false.
Proof.
  destruct (String.ltb a a) eqn:E; [|reflexivity].
  apply ltb_lt in E. apply OrderedTypeEx.String_as_OT.lt_not_eq in E.
  exfalso. now apply E.
Qed.

Lemma ltb_trans (a b c : string) :
  String.ltb a b = true -> String.ltb b c = true -> String.ltb a c = true.
Proof.
  rewrite !ltb_lt. apply OrderedTypeEx.String_as_OT.lt_trans.
Qed.

Section LatestPost.

Import VoiceImpact.

Lemma latest_from_newest (rest : list dict) (best : dict) (seen : list dict) :
  dated best -> (forall p, In p rest -> dated p) ->
  (forall q, In q seen -> dated q /\ not_newer q best) ->
  exists r, latest_from best rest = Ok r /\ In r (best :: rest) /\
            forall q, In q seen \/ q = best \/ In q rest -> not_newer q r.
Proof.
  revert best seen. induction rest as [|p rest IH]; intros best seen Hb Hrest Hseen.
  - exists best. split; [reflexivity|]. split; [now left|].
    intros q [Hq | [-> | []]]; [now apply Hseen|].
    destruct Hb as [tb Hb]. unfold not_newer. rewrite Hb. cbn. now rewrite ltb_irrefl.
  - cbn [latest_from]. fold (timestamp_of best) (timestamp_of p).
    destruct Hb as [tb Hb]. destruct (Hrest p (or_introl eq_refl)) as [tp Hp].
    rewrite Hb, Hp. cbn [py_lt bind].
    destruct (String.ltb tb tp) eqn:E.
    + destruct (IH p (best :: seen)) as (r & Hr & Hin & Hmax).
      * now exists tp.
      * intros p' Hin. apply Hrest. now right.
      * intros q [<- | Hq].
        -- split; [now exists tb|]. unfold not_newer. rewrite Hb, Hp. cbn.
           destruct (String.ltb tp tb) eqn:E'; [|reflexivity].
           pose proof (ltb_trans _ _ _ E E') as Ht. now rewrite ltb_irrefl in Ht.
        -- destruct (Hseen q Hq) as [[tq Hq'] Hn]. split; [now exists tq|].
           unfold not_newer in *. rewrite Hq', Hp. rewrite Hq', Hb in Hn.
           cbn in *. injection Hn as Hn.
           destruct (String.ltb tp tq) eqn:E'; [|reflexivity].
           pose proof (ltb_trans _ _ _ E E') as Ht. congruence.
      * exists r. split; [exact Hr|]. split; [now right|].
        intros q [Hq | [-> | [<- | Hq]]]; apply Hmax.
        -- left. now right.
        -- left. now left.
        -- right. now left.
        -- right. now right.
    + destruct (IH best (p :: seen)) as (r & Hr & Hin & Hmax).
      * now exists tb.
      * intros p' Hin. apply Hrest. now right.
      * intros q [<- | Hq]; [|now apply Hseen].
        split; [now exists tp|]. unfold not_newer. rewrite Hb, Hp. cbn. now rewrite E.
      * exists r. split; [exact Hr|]. split.
        -- destruct Hin as [<- | Hin]; [now left | right; now right].
        -- intros q [Hq | [-> | [<- | Hq]]]; apply Hmax.
           ++ left. now right.
           ++ right. now left.
           ++ left. now left.
           ++ right. now right.
Qed.

(** X20. When the timestamp of every stored post is a string (an absent
    timestamp counting as the empty string), [get_latest_post] returns a
    post of the store, and no post of the store has a greater timestamp;
    it returns [None] only for an empty store. *)
Theorem latest_post_is_newest (all_posts : list dict) :
  (forall p, In p all_posts -> dated p) ->
  match all_posts with
  | [] => get_latest_post all_posts = Ok None
  | _ :: _ =>
      exists latest,
        get_latest_post all_posts = Ok (Some latest) /\ In latest all_posts /\
        forall q, In q all_posts -> not_newer q latest
  end.
Proof.
  intros H. destruct all_posts as [|p rest]; [reflexivity|].
  destruct (latest_from_newest rest p []) as (r & Hr & Hin & Hmax).
  - apply H. now left.
  - intros q Hq. apply H. now right.
  - intros q [].
  - exists r. cbn [get_latest_post]. rewrite Hr. split; [reflexivity|].
    split; [exact Hin|]. intros q [<- | Hq]; apply Hmax; right; [now left | now right].
Qed.

End LatestPost.

Lemma latest_post_is_newest_witness :
  exists latest,
    VoiceImpact.get_latest_post [Samples.older_post; Samples.newer_post]
    = Ok (Some latest) /\
    In latest [Samples.older_post; Samples.newer_post] /\
    forall q, In q [Samples.older_post; Samples.newer_post] ->
              VoiceImpact.not_newer q latest.
Proof.
  apply (latest_post_is_newest [Samples.older_post; Samples.newer_post]).
  intros p [<- | [<- | []]]; eexists; reflexivity.
Defined.

(** ** voice_impact_agent_google_api.py: the share of active engagement *)

Lemma share_bounds (a t : Z) :
  0 <= a <= t -> 0 < t ->
  (0 <= inject_Z a / inject_Z t * inject_Z 100 /\
   inject_Z a / inject_Z t * inject_Z 100 <= inject_Z 100)%Q.
Proof.
  intros Ha Ht. destruct t as [|p|p]; try lia.
  rewrite <- (Qmake_Qdiv a p). unfold Qle, Qmult, inject_Z. cbn. split; nia.
Qed.

Section ActiveShare.

Import VoiceImpact.

(** X21. For a post whose likes, comments, shares and saves are
    non-negative integers, the [active_engagement_pct] of every result of
    [calculate_impact_metrics] is a number between 0 and 100. *)
Theorem active_share_is_a_percentage (influencer_profile : option dict)
    (all_posts : list dict) (post r : dict) (likes comments shares saves : Z) :
  metric_of "likes" post = Ok (VInt likes) ->
  metric_of "comments" post = Ok (VInt comments) ->
  metric_of "shares" post = Ok (VInt shares) ->
  metric_of "saves" post = Ok (VInt saves) ->
  0 <= likes -> 0 <= comments -> 0 <= shares -> 0 <= saves ->
  calculate_impact_metrics influencer_profile all_posts post = Ok r ->
  exists v q, dict_get "active_engagement_pct" r = Some v /\ num_of v = Some q /\
              (0 <= q /\ q <= inject_Z 100)%Q.
Proof.
  intros Hl Hc Hs Hv Pl Pc Ps Pv H.
  unfold calculate_impact_metrics in H. cbv zeta in H.
  fold (metric_of "likes" post) (metric_of "comments" post)
       (metric_of "shares" post) (metric_of "saves" post) in H.
  rewrite Hl, Hc, Hs, Hv in H. cbn [bind] in H.
  repeat match type of H with
         | bind ?x _ = Ok _ =>
             let v := fresh "v" in
             destruct x as [v|]; cbn [bind] in H; [|discriminate]
         end.
  match goal with
  | p : (value * value * value * value)%type |- _ => destruct p as [[[ae al] ac] asv]
  end.
  cbn [bind] in H.
  destruct (bind (py_gt ae (VInt 0)) _) as [diff|]; [|discriminate]. cbn [bind] in H.
  destruct (pct_if_positive _ _) as [virality|]; [|discriminate]. cbn [bind] in H.
  cbn [py_add arith int_of bind] in H.
  unfold py_gt, py_lt in H. cbn [num_of bind] in H. rewrite positive_test in H.
  destruct (Z.ltb_spec 0 (likes + comments + shares + saves)) as [Ht | Ht].
  - unfold py_truediv in H. cbn [num_of bind] in H.
    rewrite positive_divisor in H by assumption. cbn [bind py_mul arith int_of num_of] in H.
    injection H as <-. eexists. eexists. split; [reflexivity|]. split; [reflexivity|].
    apply share_bounds; lia.
  - injection H as <-. exists (VInt 0), (inject_Z 0).
    split; [reflexivity|]. split; [reflexivity|]. split; [apply Qle_refl | easy].
Qed.

End ActiveShare.

Lemma active_share_is_a_percentage_witness :
  exists v q,
    dict_get "active_engagement_pct"
      [ ("likes", VInt 30); ("comments", VInt 5); ("shares", VInt 0); ("saves", VInt 0);
        ("reach", VInt 700); ("impressions", VInt 0); ("engagement_rate", VFloat (4 # 1));
        ("avg_engagement", VFloat (2 # 1)); ("avg_likes", VFloat (10 # 1));
        ("avg_comments", VFloat (0 # 1)); ("avg_saves", VFloat (0 # 1));
        ("engagement_diff_pct", VFloat (200 # 2)); ("virality_ratio", VInt 0);
        ("active_engagement_pct", VFloat (500 # 35)) ] = Some v /\
    num_of v = Some q /\ (0 <= q /\ q <= inject_Z 100)%Q.
Proof.
  apply (active_share_is_a_percentage (Some Samples.no_followers)
           [Samples.older_post; Samples.newer_post] Samples.newer_post _ 30 5 0 0);
    try reflexivity; lia.
Defined.

(** ** agent.py: printing the statistics *)

Section Stats.

Variable repr_other : value -> string.
Variable float_comma : Q -> string.
Variable capitalize : string -> string.

(** X22. The statistics cannot be printed when no profile is loaded, when
    the profile is empty or when it has no [followers] field:
    [_print_stats] then raises the [ValueError] of the [','] format; and
    whenever it prints, [followers] is a number of the profile. *)
Theorem stats_need_followers (influencer_profile : option dict) (total_posts : nat) :
  (dict_get "followers" (RagPipeline.profile_or_empty influencer_profile) = None ->
   Agent._print_stats repr_other float_comma capitalize
     (RagPipeline.get_statistics influencer_profile total_posts)
   = Raise (ValueError "Cannot specify ',' with 's'.")) /\
  (forall lines,
     Agent._print_stats repr_other float_comma capitalize
       (RagPipeline.get_statistics influencer_profile total_posts) = Ok lines ->
     exists v, dict_get "followers" (RagPipeline.profile_or_empty influencer_profile)
               = Some v /\ Shapes.is_number v = true).
Proof.
  assert (Hstats : dict_get_default "profile" (VDict [])
                     (RagPipeline.get_statistics influencer_profile total_posts)
                   = VDict (RagPipeline.profile_or_empty influencer_profile)).
  { destruct influencer_profile as [[|kv p]|]; reflexivity. }
  assert (Hf : dict_get_default "followers" (VStr "N/A")
                 (RagPipeline.profile_or_empty influencer_profile)
               = match dict_get "followers"
                         (RagPipeline.profile_or_empty influencer_profile) with
                 | Some v => v
                 | None => VStr "N/A"
                 end) by reflexivity.
  unfold Agent._print_stats. cbv zeta. rewrite Hstats. cbn [py_get bind].
  rewrite Hf.
  destruct (dict_get "followers" (RagPipeline.profile_or_empty influencer_profile))
    as [v|] eqn:E.
  - split; [discriminate|]. intros lines H. exists v. split; [reflexivity|].
    destruct v; cbn in H; try discriminate; reflexivity.
  - split; [reflexivity|]. intros lines H. discriminate.
Qed.

End Stats.

Lemma stats_need_followers_witness :
  Agent._print_stats Samples.sample_repr Samples.sample_comma (fun s => s)
    (RagPipeline.get_statistics None 12)
  = Raise (ValueError "Cannot specify ',' with 's'.") /\
  exists v, dict_get "followers" (RagPipeline.profile_or_empty (Some Samples.sample_profile))
            = Some v /\ Shapes.is_number v = true.
Proof.
  split.
  - apply (proj1 (stats_need_followers Samples.sample_repr Samples.sample_comma (fun s => s) None 12)).
    reflexivity.
  - eapply (proj2 (stats_need_followers Samples.sample_repr Samples.sample_comma (fun s => s)
                     (Some Samples.sample_profile) 12)).
    vm_compute. reflexivity.
Defined.

(** ** agent_modes.py: a missing prompt file *)

Section MissingPrompt.

Import AgentModes.
Variable repr_other : value -> string.
Variable float_comma : Q -> string.
Variable prompt_file : PromptManager.PromptType -> option string.
Variable exn_text : exn -> string.

(** X23. When the prompt file of the mode is missing, nothing is asked of
    the language model: [generate_with_mode] and [ask] raise
    [FileNotFoundError], streaming or not, and [chat] of the API answers
    500. *)
Theorem missing_prompt_file_stops_generation (rag : pipeline) (q : string)
    (m : Api.ModeEnum) (n : nat) (stream : bool) (self : Agent.agent) :
  prompt_file (get_prompt_for_mode (Api.selected_mode (Api.ModeEnum_value m))) = None ->
  generate_with_mode repr_other float_comma prompt_file rag q
    (Api.selected_mode (Api.ModeEnum_value m)) n stream = Raise FileNotFoundError /\
  Agent.ask repr_other float_comma prompt_file rag self q n stream
    (Some (Api.selected_mode (Api.ModeEnum_value m))) = Raise FileNotFoundError /\
  Api.chat repr_other float_comma prompt_file exn_text (Some rag)
    (Api.mkChatRequest q (Some m) n)
  = Api.HTTPException 500 ("Error generating response: " ++ exn_text FileNotFoundError).
Proof.
  intros H.
  assert (Hg : forall s, generate_with_mode repr_other float_comma prompt_file rag q
                 (Api.selected_mode (Api.ModeEnum_value m)) n s = Raise FileNotFoundError).
  { intros s. unfold generate_with_mode, PromptManager.format_prompt_with_context,
      PromptManager.load_prompt. now rewrite H. }
  split; [apply Hg|]. split.
  - unfold Agent.ask. now rewrite Hg.
  - unfold Api.chat. cbn [Api.request_mode Api.request_question Api.request_n_posts].
    now rewrite Hg.
Qed.

End MissingPrompt.

Lemma missing_prompt_file_stops_generation_witness :
  Api.chat Samples.sample_repr Samples.sample_comma (fun _ => None) (fun _ => "missing")
    (Some Samples.hello_pipeline)
    (Api.mkChatRequest "Que publier ?" (Some Api.API_STRATEGY) 3)
  = Api.HTTPException 500 "Error generating response: missing".
Proof.
  apply (proj2 (proj2 (missing_prompt_file_stops_generation Samples.sample_repr
                         Samples.sample_comma (fun _ => None) (fun _ => "missing")
                         Samples.hello_pipeline "Que publier ?" Api.API_STRATEGY 3 false
                         Samples.fresh_agent eq_refl))).
Defined.

(** ** voice_impact_agent_google_api.py: the text given to the speech synthesis *)

Lemma has_char_app (c : ascii) (s t : string) :
  has_char c (s ++ t) = has_char c s || has_char c t.
Proof.
  induction s as [|a s IH]; cbn [String.append has_char]; [reflexivity|].
  now rewrite IH, orb_assoc.
Qed.

(** A replacement brings in no character that is neither in the text nor
    in the replacing string. *)
Lemma replace_from_chars (c : ascii) (old new : string) :
  forall s k, has_char c (replace_from old new k s) = true ->
              has_char c s = true \/ has_char c new = true.
Proof.
  induction s as [|a s IH]; intros k H; cbn [replace_from has_char] in *.
  - discriminate.
  - destruct k as [|k].
    + destruct (String.prefix old (String a s)).
      * rewrite has_char_app in H. apply orb_true_iff in H. destruct H as [H|H].
        -- now right.
        -- apply IH in H. destruct H as [H|H]; [left|now right].
           rewrite H. apply orb_true_r.
      * cbn [has_char] in H. apply orb_true_iff in H. destruct H as [H|H].
        -- left. now rewrite H.
        -- apply IH in H. destruct H as [H|H]; [left|now right].
           rewrite H. apply orb_true_r.
    + apply IH in H. destruct H as [H|H]; [left|now right].
      rewrite H. apply orb_true_r.
Qed.

Lemma replace_keeps_absent (c : ascii) (s old new : string) :
  has_char c s = false -> has_char c new = false ->
  has_char c (str_replace s old new) = false.
Proof.
  intros Hs Hn. apply not_true_is_false. intros H.
  apply replace_from_chars in H. destruct H as [H|H]; congruence.
Qed.

(** Replacing a character by a string without it removes it. *)
Lemma replace_char_gone (c : ascii) (new s : string) :
  has_char c new = false -> has_char c (str_replace s (String c "") new) = false.
Proof.
  intros Hn. unfold str_replace.
  induction s as [|a s IH]; [reflexivity|].
  cbn [replace_from String.prefix String.length Nat.sub].
  destruct (ascii_dec c a) as [->|Hne].
  - rewrite prefix_empty, has_char_app, Hn, IH. reflexivity.
  - cbn [has_char]. rewrite IH, orb_false_r.
    apply Ascii.eqb_neq. congruence.
Qed.

Lemma ws_len_zero (a : ascii) (s : string) :
  ws_len (String a s) = 0%nat -> is_space a = false.
Proof. unfold ws_len. destruct (is_space a); [discriminate|reflexivity]. Qed.

(** The pieces hold characters of the text only, and no ASCII white space. *)
Lemma pieces_chars (c : ascii) :
  forall s k p, In p (pieces k s) -> has_char c p = true ->
                has_char c s = true /\ is_space c = false.
Proof.
  assert (Hhead : forall a s, ws_len (String a s) = 0%nat ->
                    Ascii.eqb a c = true ->
                    has_char c (String a s) = true /\ is_space c = false).
  { intros a s W E. cbn [has_char]. rewrite E. split; [reflexivity|].
    apply Ascii.eqb_eq in E. subst a. exact (ws_len_zero _ _ W). }
  assert (Htail : forall a s, has_char c s = true /\ is_space c = false ->
                    has_char c (String a s) = true /\ is_space c = false).
  { intros a s [H1 H2]. cbn [has_char]. rewrite H1. split; [apply orb_true_r|exact H2]. }
  induction s as [|a s IH]; intros k p Hin Hc; cbn [pieces] in Hin.
  - destruct Hin as [<-|[]]. discriminate.
  - destruct k as [|k]; [|apply Htail; exact (IH _ _ Hin Hc)].
    destruct (ws_len (String a s)) as [|n] eqn:W.
    + destruct (pieces 0 s) as [|q qs] eqn:P.
      * destruct Hin as [<-|[]]. cbn [has_char] in Hc. rewrite orb_false_r in Hc.
        exact (Hhead _ _ W Hc).
      * destruct Hin as [<-|Hin].
        -- cbn [has_char] in Hc. apply orb_true_iff in Hc. destruct Hc as [Hc|Hc].
           ++ exact (Hhead _ _ W Hc).
           ++ apply Htail. apply (IH 0%nat q); [rewrite P; now left|exact Hc].
        -- apply Htail. apply (IH 0%nat p); [rewrite P; now right|exact Hc].
    + destruct Hin as [<-|Hin]; [discriminate|].
      apply Htail. exact (IH _ _ Hin Hc).
Qed.

(** The words of [split()] are not empty and hold no white space. *)
Lemma split_ws_words (s w : string) :
  In w (split_ws s) ->
  w <> "" /\ forall c, has_char c w = true -> has_char c s = true /\ is_space c = false.
Proof.
  unfold split_ws. intros H. apply filter_In in H. destruct H as [Hin Hne]. split.
  - intros ->. discriminate.
  - intros c Hc. exact (pieces_chars c _ _ _ Hin Hc).
Qed.

Lemma join_chars (c : ascii) (sep : string) (ws : list string) :
  has_char c (join sep ws) = true ->
  has_char c sep = true \/ exists w, In w ws /\ has_char c w = true.
Proof.
  induction ws as [|x ws IH]; cbn [join]; [discriminate|].
  destruct ws as [|y ws].
  - intros H. right. exists x. split; [now left|exact H].
  - rewrite !has_char_app. intros H.
    apply orb_true_iff in H. destruct H as [H|H].
    + right. exists x. split; [now left|exact H].
    + apply orb_true_iff in H. destruct H as [H|H]; [now left|].
      destruct (IH H) as [H'|[w [Hin Hw]]]; [now left|].
      right. exists w. split; [now right|exact Hw].
Qed.

Lemma ws_len_prefix (w r : string) :
  ws_len w <> 0%nat -> ws_len (w ++ r) = ws_len w.
Proof.
  destruct w as [|a [|b [|c w]]]; cbn [String.append]; unfold ws_len.
  - congruence.
  - destruct (is_space a); [reflexivity|congruence].
  - destruct (is_space a); [reflexivity|].
    destruct ((byte a =? 194) && ((byte b =? 133) || (byte b =? 160)))%nat;
      [reflexivity|congruence].
  - reflexivity.
Qed.

(** A character that is not white space does not become one when a space
    follows the word it is in. *)
Lemma ws_len_space_after (w t : string) :
  w <> "" -> ws_len w = 0%nat -> ws_len (w ++ String " " t) = 0%nat.
Proof.
  assert (E : forall n, n <> 32%nat -> (byte " " =? n)%nat = false).
  { intros n Hn. apply Nat.eqb_neq. exact (fun H => Hn (eq_sym H)). }
  destruct w as [|a [|b [|c w]]]; cbn [String.append]; unfold ws_len; intros Hne H.
  - congruence.
  - destruct (is_space a); [discriminate|].
    rewrite !E by discriminate. cbn [orb]. rewrite andb_false_r.
    destruct t as [|c t]; [reflexivity|].
    rewrite !andb_false_r. reflexivity.
  - destruct (is_space a); [discriminate|].
    destruct ((byte a =? 194) && ((byte b =? 133) || (byte b =? 160)))%nat;
      [discriminate|].
    rewrite !E by discriminate.
    change (128 <=? byte " ")%nat with false. cbn [andb orb].
    rewrite !andb_false_r. reflexivity.
  - exact H.
Qed.

Lemma pieces_split (s : string) :
  exists p ps rest, pieces 0 s = p :: ps /\ s = p ++ rest.
Proof.
  induction s as [|c s (p & ps & rest & E & Hs)]; cbn [pieces].
  - now exists "", [], "".
  - destruct (ws_len (String c s)).
    + rewrite E. exists (String c p), ps, rest. split; [reflexivity|].
      cbn [String.append]. now rewrite <- Hs.
    + eexists "", _, _. split; reflexivity.
Qed.

(** No white space character starts inside a piece. *)
Lemma pieces_no_space :
  forall s k p, In p (pieces k s) -> no_space p = true.
Proof.
  induction s as [|a s IH]; intros k p Hin; cbn [pieces] in Hin.
  - destruct Hin as [<-|[]]. reflexivity.
  - destruct k as [|k]; [|exact (IH _ _ Hin)].
    destruct (ws_len (String a s)) as [|n] eqn:W.
    + destruct (pieces_split s) as (q & qs & rest & P & Hs).
      rewrite P in Hin. destruct Hin as [<-|Hin].
      * cbn [no_space]. apply andb_true_iff. split.
        -- apply Nat.eqb_eq.
           destruct (ws_len (String a q)) as [|m] eqn:Wq; [reflexivity|].
           assert (Hp : ws_len (String a q ++ rest) = ws_len (String a q)).
           { apply ws_len_prefix. rewrite Wq. discriminate. }
           cbn [String.append] in Hp. rewrite <- Hs, W in Hp. congruence.
        -- apply (IH 0%nat). rewrite P. now left.
      * apply (IH 0%nat). rewrite P. now right.
    + destruct Hin as [<-|Hin]; [reflexivity|]. exact (IH _ _ Hin).
Qed.

Lemma split_ws_no_space (s w : string) : In w (split_ws s) -> no_space w = true.
Proof.
  unfold split_ws. intros H. apply filter_In in H. destruct H as [Hin _].
  exact (pieces_no_space _ _ _ Hin).
Qed.

Lemma word_head (w : string) :
  w <> "" -> (forall c, has_char c w = true -> is_space c = false) ->
  exists a w', w = String a w' /\ is_space a = false.
Proof.
  intros Hne Hw. destruct w as [|a w']; [congruence|].
  exists a, w'. split; [reflexivity|]. apply Hw. cbn [has_char]. now rewrite Ascii.eqb_refl.
Qed.

Section Words.

Variable ws : list string.
Hypothesis words : forall w, In w ws ->
  w <> "" /\ forall c, has_char c w = true -> is_space c = false.

Lemma join_words_head :
  ws <> [] -> exists a r, join " " ws = String a r /\ is_space a = false.
Proof.
  destruct ws as [|x l]; [congruence|]. intros _.
  destruct (words x (or_introl eq_refl)) as [Hne Hx].
  destruct (word_head x Hne Hx) as [a [w' [-> Ha]]].
  cbn [join]. destruct l; [now exists a, w'|].
  cbn [String.append]. eexists a, _. split; [reflexivity|exact Ha].
Qed.

End Words.

(** What follows a word in the joined text: nothing, or a space. *)
Lemma ws_len_in_word (w r : string) :
  w <> "" -> ws_len w = 0%nat -> (r = "" \/ exists t, r = String " " t) ->
  ws_len (w ++ r) = 0%nat.
Proof.
  intros Hne H [-> | [t ->]].
  - now rewrite append_nil_r.
  - now apply ws_len_space_after.
Qed.

Lemma rstrip_word (w r : string) :
  no_space w = true -> (r = "" \/ exists t, r = String " " t) ->
  rstrip (w ++ r) = w ++ rstrip r.
Proof.
  intros Hw Hr. induction w as [|a w IH]; [reflexivity|].
  cbn [no_space] in Hw. apply andb_true_iff in Hw. destruct Hw as [Ha Hw].
  apply Nat.eqb_eq in Ha.
  assert (W : ws_len (String a w ++ r) = 0%nat)
    by (apply ws_len_in_word; [discriminate|exact Ha|exact Hr]).
  cbn [String.append] in *. cbn [rstrip all_ws]. rewrite W, (IH Hw). reflexivity.
Qed.

Lemma words_start (ws : list string) :
  ws <> [] ->
  (forall w, In w ws -> w <> "" /\ no_space w = true) ->
  exists a r, join " " ws = String a r /\ ws_len (join " " ws) = 0%nat.
Proof.
  destruct ws as [|x l]; [congruence|]. intros _ words.
  destruct (words x (or_introl eq_refl)) as [Hne Hx].
  destruct x as [|a x]; [congruence|].
  assert (Ha : ws_len (String a x) = 0%nat).
  { cbn [no_space] in Hx. apply andb_true_iff in Hx. now apply Nat.eqb_eq. }
  cbn [join]. destruct l as [|y l].
  - now exists a, x.
  - eexists a, _. split; [reflexivity|].
    apply ws_len_in_word; [discriminate|exact Ha|]. right. now eexists.
Qed.

Lemma join_words_rstrip (ws : list string) :
  (forall w, In w ws -> w <> "" /\ no_space w = true) ->
  rstrip (join " " ws) = join " " ws.
Proof.
  induction ws as [|x l IH]; intros words; [reflexivity|].
  destruct (words x (or_introl eq_refl)) as [Hne Hx].
  cbn [join]. destruct l as [|y l].
  - rewrite <- (append_nil_r x) at 1. rewrite (rstrip_word x "" Hx) by now left.
    apply append_nil_r.
  - assert (words' : forall w, In w (y :: l) -> w <> "" /\ no_space w = true).
    { intros w Hin. apply words. now right. }
    rewrite (rstrip_word x _ Hx) by (right; now eexists). f_equal.
    destruct (words_start (y :: l)) as (a & r & E & W); [discriminate|exact words'|].
    cbn [String.append rstrip all_ws].
    change (ws_len (String " " (join " " (y :: l)))) with 1%nat. cbn iota.
    rewrite (IH words'). rewrite E in *. cbn [all_ws]. rewrite W. reflexivity.
Qed.

Lemma join_words_strip (ws : list string) :
  (forall w, In w ws -> w <> "" /\ no_space w = true) ->
  lstrip (join " " ws) = join " " ws /\ strip (join " " ws) = join " " ws.
Proof.
  intros words.
  assert (L : lstrip (join " " ws) = join " " ws).
  { destruct ws as [|x l]; [reflexivity|].
    destruct (words_start (x :: l)) as (a & r & E & W); [discriminate|exact words|].
    unfold lstrip. rewrite E in *. cbn [lstrip_from]. now rewrite W. }
  split; [exact L|]. unfold strip. rewrite L. now apply join_words_rstrip.
Qed.

Lemma no_space_prefix (w t : string) :
  (forall c, has_char c w = true -> is_space c = false) ->
  contains "  " (w ++ t) = contains "  " t.
Proof.
  induction w as [|a w IH]; intros Hw; [reflexivity|].
  cbn [String.append]. change (contains "  " (String a (w ++ t)))
    with (String.prefix "  " (String a (w ++ t)) || contains "  " (w ++ t)).
  rewrite IH.
  - assert (Ha : is_space a = false).
    { apply Hw. cbn [has_char]. now rewrite Ascii.eqb_refl. }
    cbn [String.prefix]. destruct (ascii_dec " " a) as [<-|_]; [discriminate|reflexivity].
  - intros c Hc. apply Hw. cbn [has_char]. rewrite Hc. apply orb_true_r.
Qed.

Lemma join_words_single_spaces (ws : list string) :
  (forall w, In w ws -> w <> "" /\ forall c, has_char c w = true -> is_space c = false) ->
  contains "  " (join " " ws) = false.
Proof.
  induction ws as [|x l IH]; intros words; [reflexivity|].
  destruct (words x (or_introl eq_refl)) as [Hne Hx].
  cbn [join]. destruct l as [|y l].
  - rewrite <- (append_nil_r x). rewrite (no_space_prefix x "" Hx). reflexivity.
  - rewrite (no_space_prefix x _ Hx).
    assert (words' : forall w, In w (y :: l) ->
              w <> "" /\ forall c, has_char c w = true -> is_space c = false).
    { intros w Hin. apply words. now right. }
    cbn [String.append].
    change (contains "  " (String " " (join " " (y :: l))))
      with (String.prefix "  " (String " " (join " " (y :: l)))
            || contains "  " (join " " (y :: l))).
    rewrite (IH words'), orb_false_r.
    destruct (join_words_head (y :: l) words') as [a [r [E Ha]]]; [discriminate|].
    rewrite E. cbn [String.prefix].
    destruct (ascii_dec " " " ") as [_|N]; [|congruence].
    destruct (ascii_dec " " a) as [<-|_]; [discriminate|reflexivity].
Qed.

(** X24. The text given to the speech synthesis holds no asterisk and no
    percent sign, and no ASCII white space but single spaces between its
    words: no tabulation or line break, no two spaces in a row, no space
    at either end. *)
Theorem cleaned_text_is_speakable (text : string) :
  let clean := VoiceImpact._clean_text_for_speech text in
  has_char "*" clean = false /\
  has_char "%" clean = false /\
  (forall c, is_space c = true -> c <> " "%char -> has_char c clean = false) /\
  contains "  " clean = false /\
  lstrip clean = clean /\ rstrip clean = clean.
Proof.
  unfold VoiceImpact._clean_text_for_speech. cbv zeta.
  set (c3 := str_replace (str_replace (str_replace text "**" "") "__" "") "*" "").
  set (c6 := str_replace (str_replace (str_replace c3 "# " "") "## " "") "### " "").
  set (c7 := str_replace c6 "%" " pourcent").
  set (c9 := str_replace (str_replace c7 "- " "") "• " "").
  assert (words : forall w, In w (split_ws c9) ->
            w <> "" /\ forall c, has_char c w = true -> is_space c = false).
  { intros w Hin. destruct (split_ws_words _ _ Hin) as [Hne Hw].
    split; [exact Hne|]. intros c Hc. exact (proj2 (Hw c Hc)). }
  assert (solid : forall w, In w (split_ws c9) -> w <> "" /\ no_space w = true).
  { intros w Hin. split; [exact (proj1 (words w Hin))|].
    exact (split_ws_no_space _ _ Hin). }
  destruct (join_words_strip _ solid) as [L S]. rewrite S.
  assert (chars : forall c, has_char c (join " " (split_ws c9)) = true ->
            c = " "%char \/ (has_char c c9 = true /\ is_space c = false)).
  { intros c H. apply join_chars in H. destruct H as [H|[w [Hin Hw]]].
    - left. cbn [has_char] in H. rewrite orb_false_r in H.
      symmetry. now apply Ascii.eqb_eq.
    - right. exact (proj2 (split_ws_words _ _ Hin) c Hw). }
  assert (Hstar : has_char "*" c9 = false).
  { unfold c9, c7, c6. do 6 (apply replace_keeps_absent; [|reflexivity]).
    unfold c3. apply replace_char_gone. reflexivity. }
  assert (Hpct : has_char "%" c9 = false).
  { unfold c9. do 2 (apply replace_keeps_absent; [|reflexivity]).
    unfold c7. apply replace_char_gone. reflexivity. }
  repeat split.
  - apply not_true_is_false. intros H. destruct (chars _ H) as [E|[E _]];
      [discriminate|congruence].
  - apply not_true_is_false. intros H. destruct (chars _ H) as [E|[E _]];
      [discriminate|congruence].
  - intros c Hs Hc. apply not_true_is_false. intros H.
    destruct (chars _ H) as [E|[_ E]]; congruence.
  - now apply join_words_single_spaces.
  - exact L.
  - now apply join_words_rstrip.
Qed.

(** ** vector_store.py and voice_impact_agent_google_api.py: the latest post of the indexed ones *)

Section StoredRecords.

Import Shapes VectorStore VoiceImpact.
Variable json_dumps : value -> string.

Lemma strs_of_map (tags : list string) : strs_of (map VStr tags) = Ok tags.
Proof.
  induction tags as [|t tags IH]; cbn [map strs_of bind]; [reflexivity|].
  now rewrite IH.
Qed.

(** The flat form of a post of the pipeline's format, whatever its
    hashtags. *)
Lemma flatten_record (r : ContentRecord) :
  _flatten_metadata json_dumps (to_dict r) = Ok (flat_image (to_dict r)).
Proof.
  unfold _flatten_metadata, to_dict, flat_image.
  cbn [flatten_loop flatten_item bind String.eqb Ascii.eqb Bool.eqb flat_map flat_fields].
  unfold py_join. rewrite strs_of_map, strings_of_strs. reflexivity.
Qed.

Lemma records_flattened (rs : list ContentRecord) (flats : list dict) :
  add_posts_metadatas json_dumps (map to_dict rs) = Ok flats ->
  flats = map (fun r => flat_image (to_dict r)) rs.
Proof.
  unfold add_posts_metadatas. revert flats.
  induction rs as [|r rs IH]; intros flats H; cbn [map map_result] in H.
  - injection H as <-. reflexivity.
  - rewrite flatten_record in H. cbn [bind] in H.
    destruct (map_result (_flatten_metadata json_dumps) (map to_dict rs))
      as [rest|e]; cbn [bind] in H; [|discriminate].
    injection H as <-. cbn [map]. f_equal. now apply IH.
Qed.

Lemma unflatten_plain (md ms : dict) (k : string) (v : value) :
  startswith k "metrics_" = false ->
  unflatten_item (md, ms) k v
  = (dict_set (fst (restored_field (k, v))) (snd (restored_field (k, v))) md, ms).
Proof.
  intros E. unfold unflatten_item, restored_field. rewrite E. cbn [fst snd].
  destruct v; try reflexivity. destruct (String.eqb k "hashtags"); reflexivity.
Qed.

(** The loop of [_unflatten_metadata] on a flat dict whose keys, once
    read, are all different: every field is added after those read
    before. *)
Lemma unflatten_loop_fresh (items md ms : dict) :
  NoDup (keys md ++ keys (flat_map read_plain items))%list ->
  NoDup (keys ms ++ keys (flat_map read_metric items))%list ->
  unflatten_loop items (md, ms)
  = ((md ++ flat_map read_plain items)%list, (ms ++ flat_map read_metric items)%list).
Proof.
  revert md ms. induction items as [|[k v] items IH]; intros md ms H1 H2;
    cbn [unflatten_loop flat_map].
  - now rewrite !app_nil_r.
  - cbn [flat_map] in H1, H2.
    unfold read_plain at 1 in H1. unfold read_metric at 1 in H2.
    unfold read_plain at 1. unfold read_metric at 1. cbn [fst snd] in *.
    destruct (startswith k "metrics_") eqn:E; cbn [List.app] in *.
    + unfold unflatten_item. rewrite E.
      assert (Hf : ~ In (str_replace k "metrics_" "") (keys ms)).
      { cbn [keys map fst] in H2. apply NoDup_remove_2 in H2.
        intros Hin. apply H2. apply in_or_app. now left. }
      rewrite (dict_set_fresh _ _ _ Hf).
      rewrite IH; [now rewrite <- app_assoc|exact H1|].
      rewrite keys_app, <- app_assoc. exact H2.
    + rewrite (unflatten_plain _ _ _ _ E).
      destruct (restored_field (k, v)) as [k' v']. cbn [fst snd].
      assert (Hf : ~ In k' (keys md)).
      { pose proof H1 as H. cbn [keys map fst] in H. apply NoDup_remove_2 in H.
        intros Hin. apply H. apply in_or_app. now left. }
      rewrite (dict_set_fresh _ _ _ Hf).
      rewrite IH; [now rewrite <- app_assoc| |exact H2].
      rewrite keys_app, <- app_assoc. exact H1.
Qed.

Lemma unflatten_fresh (flat : dict) :
  NoDup (keys (flat_map read_plain flat)) ->
  NoDup (keys (flat_map read_metric flat)) ->
  _unflatten_metadata flat
  = match flat_map read_metric flat with
    | [] => flat_map read_plain flat
    | ms => dict_set "metrics" (VDict ms) (flat_map read_plain flat)
    end.
Proof.
  intros H1 H2. unfold _unflatten_metadata.
  pose proof (unflatten_loop_fresh flat [] [] H1 H2) as X.
  unfold dict in X |- *. cbn [List.app] in X. rewrite X.
  destruct (flat_map read_metric flat); reflexivity.
Qed.

(** What [get_all] gives for a stored metadata that holds the fields of the
    flat form of a post, in any order. *)
Lemma reordered_record (r : ContentRecord) (flat : dict) :
  Permutation flat (flat_image (to_dict r)) ->
  carries r (_unflatten_metadata flat).
Proof.
  intros Hp.
  assert (Hflat : flat_image (to_dict r)
                  = [ ("id", VStr (id r)); ("caption", VStr (caption r));
                      ("media_type", VStr (media_type r));
                      ("timestamp", VStr (timestamp r));
                      ("metrics_likes", VInt (likes (metrics r)));
                      ("metrics_comments", VInt (comments (metrics r)));
                      ("metrics_shares", VInt (shares (metrics r)));
                      ("metrics_saves", VInt (saves (metrics r)));
                      ("metrics_reach", VInt (reach (metrics r)));
                      ("metrics_impressions", VInt (impressions (metrics r)));
                      ("metrics_engagement_rate", VFloat (engagement_rate (metrics r)));
                      ("hashtags", VStr (join "," (hashtags r)));
                      ("media_url", VStr (media_url r)) ]).
  { unfold flat_image, to_dict.
    cbn [flat_map flat_fields String.eqb Ascii.eqb Bool.eqb].
    rewrite strings_of_strs. reflexivity. }
  rewrite Hflat in Hp.
  pose proof (Permutation_flat_map read_plain Hp) as Pp.
  pose proof (Permutation_flat_map read_metric Hp) as Pm.
  cbn in Pp, Pm.
  assert (Np : NoDup (keys (flat_map read_plain flat))).
  { apply (Permutation_NoDup (Permutation_sym (Permutation_map fst Pp))).
    apply distinct_NoDup. reflexivity. }
  assert (Nm : NoDup (keys (flat_map read_metric flat))).
  { apply (Permutation_NoDup (Permutation_sym (Permutation_map fst Pm))).
    apply distinct_NoDup. reflexivity. }
  rewrite (unflatten_fresh flat Np Nm).
  destruct (flat_map read_metric flat) as [|x ms] eqn:Em.
  { apply Permutation_nil in Pm. discriminate. }
  rewrite <- Em in *. clear x ms Em.
  assert (Hm : ~ In "metrics" (keys (flat_map read_plain flat))).
  { intros Hin. apply (Permutation_in _ (Permutation_map fst Pp)) in Hin.
    cbn in Hin. intuition discriminate. }
  rewrite (dict_set_fresh _ _ _ Hm).
  assert (Nall : NoDup (keys (flat_map read_plain flat
                               ++ [("metrics", VDict (flat_map read_metric flat))])%list)).
  { rewrite keys_app. apply NoDup_app_iff. split; [exact Np|]. split.
    - repeat constructor. intros [].
    - intros k Hk [<-|[]]. now apply Hm. }
  assert (Hget : forall k v,
            In (k, v) [ ("id", VStr (id r)); ("caption", VStr (caption r));
                        ("timestamp", VStr (timestamp r)) ] ->
            dict_get k (flat_map read_plain flat
                        ++ [("metrics", VDict (flat_map read_metric flat))])%list
            = Some v).
  { intros k v Hin. apply (In_dict_get _ _ _ Nall). apply in_or_app. left.
    apply (Permutation_in _ (Permutation_sym Pp)).
    cbn in Hin |- *. intuition. }
  unfold carries. repeat split.
  - apply Hget. cbn. auto.
  - apply Hget. cbn. auto.
  - apply Hget. cbn. auto.
  - exists (flat_map read_metric flat). split; [|exact Pm].
    apply (In_dict_get _ _ _ Nall). apply in_or_app. right. now left.
Qed.

Lemma carries_timestamp (r : ContentRecord) (p : dict) :
  carries r p -> timestamp_of p = VStr (timestamp r).
Proof.
  intros (_ & _ & H & _). unfold timestamp_of, dict_get_default. now rewrite H.
Qed.

(** X25. When the collection hands back, field by field and in any order,
    the metadatas that [add_posts] handed over for a non-empty list of
    posts of the pipeline's format, [get_latest_post] returns one of these
    posts with its id, caption, timestamp and metrics as they were
    indexed, and no indexed post has a greater timestamp. *)
Theorem newest_record_is_latest (rs : list ContentRecord) (collection : list entry)
    (flats : list dict) :
  rs <> [] ->
  add_posts_metadatas json_dumps (map to_dict rs) = Ok flats ->
  Forall2 (@Permutation (string * value)) (map entry_metadata collection) flats ->
  exists r p,
    In r rs /\
    get_latest_post (get_all_metadatas collection) = Ok (Some p) /\
    (forall r', In r' rs -> String.ltb (timestamp r) (timestamp r') = false) /\
    dict_get "id" p = Some (VStr (id r)) /\
    dict_get "caption" p = Some (VStr (caption r)) /\
    dict_get "timestamp" p = Some (VStr (timestamp r)) /\
    exists d, dict_get "metrics" p = Some (VDict d) /\
              Permutation d (metrics_dict (metrics r)).
Proof.
  intros Hne H Hperm. apply records_flattened in H. subst flats.
  assert (Hall : get_all_metadatas collection
                 = map _unflatten_metadata (map entry_metadata collection)).
  { destruct collection; [reflexivity|]. unfold get_all_metadatas.
    now rewrite map_map. }
  rewrite Hall. clear Hall.
  assert (Hback : Forall2 carries rs
                    (map _unflatten_metadata (map entry_metadata collection))).
  { revert Hperm. generalize (map entry_metadata collection) as stored.
    clear Hne. induction rs as [|r rs IH]; intros stored Hperm;
      inversion Hperm; subst; cbn [map]; constructor.
    - now apply reordered_record.
    - now apply IH. }
  clear Hperm. revert Hback.
  generalize (map _unflatten_metadata (map entry_metadata collection)) as all_posts.
  intros all_posts Hback.
  assert (Hdated : forall p, In p all_posts -> dated p).
  { intros p Hin. clear Hne. induction Hback as [|r p0 rs ps Hc _ IH]; [destruct Hin|].
    destruct Hin as [<-|Hin]; [|now apply IH].
    exists (timestamp r). now apply carries_timestamp. }
  destruct all_posts as [|p0 rest].
  { inversion Hback. congruence. }
  destruct (latest_from_newest rest p0 []) as (p & Hp & Hin & Hmax).
  - apply Hdated. now left.
  - intros q Hq. apply Hdated. now right.
  - intros q [].
  - assert (Hfrom : exists r, In r rs /\ carries r p).
    { clear Hne Hp Hmax Hdated. induction Hback as [|r q rs ps Hc _ IH]; [destruct Hin|].
      destruct Hin as [<-|Hin].
      - exists r. split; [now left|exact Hc].
      - destruct (IH Hin) as (r' & Hr' & Hc'). exists r'. split; [now right|exact Hc']. }
    destruct Hfrom as (r & Hr & Hc).
    exists r, p. cbn [get_latest_post]. rewrite Hp.
    split; [exact Hr|]. split; [reflexivity|]. split; [|exact Hc].
    intros r' Hr'.
    assert (Hq : exists q, In q (p0 :: rest) /\ carries r' q).
    { clear Hne Hp Hmax Hdated Hin Hr Hc. induction Hback as [|r0 q rs ps Hc0 _ IH];
        [destruct Hr'|].
      destruct Hr' as [<-|Hr'].
      - exists q. split; [now left|exact Hc0].
      - destruct (IH Hr') as (q' & Hq' & Hc'). exists q'. split; [now right|exact Hc']. }
    destruct Hq as (q & Hq & Hcq).
    assert (Hn : not_newer q p).
    { apply Hmax. right. destruct Hq as [<-|Hq]; [now left|now right]. }
    unfold not_newer in Hn.
    rewrite (carries_timestamp _ _ Hc), (carries_timestamp _ _ Hcq) in Hn.
    cbn in Hn. now injection Hn.
Qed.

End StoredRecords.

Lemma newest_record_is_latest_witness :
  exists r p,
    In r [Samples.earlier_record; Samples.sample_record] /\
    VoiceImpact.get_latest_post (VectorStore.get_all_metadatas Samples.two_entries)
    = Ok (Some p) /\
    (forall r', In r' [Samples.earlier_record; Samples.sample_record] ->
                String.ltb (Shapes.timestamp r) (Shapes.timestamp r') = false) /\
    dict_get "id" p = Some (VStr (Shapes.id r)) /\
    dict_get "caption" p = Some (VStr (Shapes.caption r)) /\
    dict_get "timestamp" p = Some (VStr (Shapes.timestamp r)) /\
    exists d, dict_get "metrics" p = Some (VDict d) /\
              Permutation d (Shapes.metrics_dict (Shapes.metrics r)).
Proof.
  apply (newest_record_is_latest (fun _ => "null")
           [Samples.earlier_record; Samples.sample_record] Samples.two_entries
           [Shapes.flat_image (Shapes.to_dict Samples.earlier_record);
            Shapes.flat_image (Shapes.to_dict Samples.sample_record)]).
  - discriminate.
  - vm_compute. reflexivity.
  - repeat constructor; apply Permutation_sym, Permutation_rev.
Defined.
